(** * oop-products.js: Product, User, AdminUser, ProductRepository, ProductService

    A shallow embedding of [src/oop-products.js] and the properties of its
    five classes.  The ECMAScript built-ins the file calls ([Number],
    [String], [toFixed], [trim], [Map], [Date], ...) are modelled first, the
    classes follow in the order of the source. *)

From Stdlib Require Import ZArith Lia Bool List Ascii String.
From Stdlib Require Import Floats.SpecFloat.
From stdpp Require Import base tactics option list gmap.

Local Open Scope Z_scope.

(** ** ECMAScript Numbers: IEEE 754 binary64

    A Number is a [spec_float] of the Standard Library instantiated at
    precision 53 and maximal exponent 1024; arithmetic rounds to nearest,
    ties to even, as [*], [-] and [/] do in the source. *)
Module Num.

Definition prec : Z := 53.
Definition emax : Z := 1024.

Definition number : Type := spec_float.

Definition nan : number := S754_nan.
Definition infinity : number := S754_infinity false.
Definition zero : number := S754_zero false.

Definition valid (x : number) : bool := valid_binary prec emax x.

Definition mul : number -> number -> number := SFmul prec emax.
Definition sub : number -> number -> number := SFsub prec emax.
Definition div : number -> number -> number := SFdiv prec emax.

(** [x < y], [x > y], [x >= y] and [Number.isNaN(x)]. *)
Definition lt (x y : number) : bool := SFltb x y.
Definition gt (x y : number) : bool := SFltb y x.
Definition ge (x y : number) : bool := SFleb y x.
Definition isNaN (x : number) : bool :=
  match x with S754_nan => true | _ => false end.

(** The Number nearest to the rational [(-1)^neg * a / b] (for [0 <= a]),
    ties to the even significand: what [Number] makes of the digits of a
    numeric literal.  [l] is the binary exponent of [a / b], [e] the
    exponent of the unit in the last place, [-1074] for a subnormal. *)
Definition floor_log2 (a b : Z) : Z :=
  let d := Z.log2 a - Z.log2 b in
  if (if 0 <=? d then b * 2 ^ d <=? a else b <=? a * 2 ^ (- d)) then d
  else d - 1.

Definition of_ratio (neg : bool) (a : Z) (b : positive) : number :=
  if a <=? 0 then S754_zero neg
  else
    let e := Z.max (floor_log2 a (Zpos b) - 52) (-1074) in
    let num := if 0 <=? e then a else a * 2 ^ (- e) in
    let den := if 0 <=? e then Zpos b * 2 ^ e else Zpos b in
    let q := num / den in
    let m := match 2 * (num mod den) ?= den with
             | Lt => q
             | Gt => q + 1
             | Eq => if Z.even q then q else q + 1
             end in
    let '(m, e) := if m =? 2 ^ 53 then (2 ^ 52, e + 1) else (m, e) in
    match m with
    | Zpos p => if 971 <? e then S754_infinity neg else S754_finite neg p e
    | _ => S754_zero neg
    end.

Definition of_Z (z : Z) : number := of_ratio (z <? 0) (Z.abs z) 1.

(** The Number nearest to [(-1)^neg * m * 10^e]. *)
Definition of_decimal (neg : bool) (m e : Z) : number :=
  match e with
  | Zneg k => of_ratio neg m (10 ^ k)%positive
  | _ => of_ratio neg (m * 10 ^ e) 1
  end.

(** [x.toFixed(2)] for a finite [x = m * 2^e] below [10^21] prints the
    integer [n] for which [n / 100 - x] is closest to zero, the larger
    one of two: [n = floor (100 * x + 1/2)]. *)
Definition to_cents (m : positive) (e : Z) : Z :=
  match e with
  | Zneg k => (200 * Zpos m + 2 ^ Zpos k) / (2 * 2 ^ Zpos k)
  | _ => 100 * (Zpos m * 2 ^ e)
  end.

Definition ge_1e21 (m : positive) (e : Z) : bool :=
  match e with
  | Zneg k => 10 ^ 21 * 2 ^ Zpos k <=? Zpos m
  | _ => 10 ^ 21 <=? Zpos m * 2 ^ e
  end.

(** [Number(x.toFixed(2))].  [toFixed] prints ["NaN"], ["Infinity"] and
    every [|x| >= 10^21] as [String(x)] does, and [Number] reads that text
    back as [x]; below [10^21] it prints [n / 100] with two decimals
    (with the sign of [x] in front), which [Number] rounds to the nearest
    Number; [(-0).toFixed(2)] is ["0.00"]. *)
Definition round2 (x : number) : number :=
  match x with
  | S754_zero _ => S754_zero false
  | S754_finite s m e =>
      if ge_1e21 m e then x else of_ratio s (to_cents m e) 100
  | _ => x
  end.

Definition one : number := of_Z 1.

End Num.

(** ** ECMAScript Strings: sequences of UTF-16 code units *)
Module Str.

Definition jsstring : Type := list N.

(** A literal of the source, read as its code units (ASCII literals only). *)
Definition js (s : string) : jsstring :=
  (fun a => N_of_ascii a) <$> list_ascii_of_string s.

(** WhiteSpace and LineTerminator code points, what [trim] strips and
    [Number] skips around a numeric literal. *)
Definition is_white_space (c : N) : bool :=
  bool_decide (c ∈ [9; 10; 11; 12; 13; 32; 160; 5760; 8232; 8233; 8239;
                     8287; 12288; 65279]%N)
  || ((8192 <=? c) && (c <=? 8202))%N.

Fixpoint drop_white (s : jsstring) : jsstring :=
  match s with
  | c :: s' => if is_white_space c then drop_white s' else s
  | [] => []
  end.

(** [s.trim()] *)
Definition trim (s : jsstring) : jsstring :=
  reverse (drop_white (reverse (drop_white s))).

Fixpoint starts_with (s t : jsstring) : bool :=
  match t, s with
  | [], _ => true
  | d :: t', c :: s' => (c =? d)%N && starts_with s' t'
  | _ :: _, [] => false
  end.

(** [s.includes(t)] *)
Fixpoint includes (s t : jsstring) : bool :=
  starts_with s t ||
  match s with
  | _ :: s' => includes s' t
  | [] => false
  end.

(** [s.slice(i, j)] for [0 <= i <= j]. *)
Definition slice (i j : nat) (s : jsstring) : jsstring :=
  take (j - i) (drop i s).

(** The decimal digits of a natural number, most significant first. *)
Fixpoint digits_fuel (fuel : nat) (radix : N) (n : N) (acc : list N) : list N :=
  match fuel with
  | O => acc
  | S fuel' =>
      let acc' := (n mod radix)%N :: acc in
      if (n / radix =? 0)%N then acc' else digits_fuel fuel' radix (n / radix)%N acc'
  end.

Definition digits (radix : N) (n : N) : list N :=
  digits_fuel (S (N.to_nat (N.log2 n))) radix n [].

(** The code unit of a digit in radix up to 36: 0-9 then a-z. *)
Definition digit_char (d : N) : N :=
  if (d <? 10)%N then (48 + d)%N else (87 + d)%N.

Definition of_N (n : N) : jsstring := digit_char <$> digits 10 n.

(** [n] printed in decimal, padded with zeros to at least [w] digits. *)
Definition pad (w : nat) (n : N) : jsstring :=
  let d := of_N n in replicate (w - length d) 48%N ++ d.

Definition of_Z (z : Z) : jsstring :=
  (if (z <? 0)%Z then js "-" else []) ++ of_N (Z.abs_N z).

End Str.

(** ** Date objects: time values, [toISOString] and [new Date(string)]

    A Date holds a time value: an integral number of milliseconds since
    1970-01-01T00:00:00Z of magnitude at most 8.64e15, or NaN (an invalid
    Date), here [None]. *)
Module Date.
Import Str.

Definition date : Type := option Z.

Definition ms_per_day : Z := 86400000.
Definition max_time : Z := 8640000000000000.

Definition in_range (t : Z) : Prop := - max_time <= t <= max_time.

(** Days are counted in eras of 400 years (146097 days) that start on a
    1st of March, so that a leap day ends its year. *)
Definition era_days : Z := 146097.
Definition epoch_shift : Z := 719468.

(** Year of the era, month (1-12) and day of the month of a day of the era;
    the year is the one that began the preceding March. *)
Definition civil_of_doe (doe : Z) : Z * Z * Z :=
  let yoe := (doe - doe / 1460 + doe / 36524 - doe / 146096) / 365 in
  let doy := doe - (365 * yoe + yoe / 4 - yoe / 100) in
  let mp := (5 * doy + 2) / 153 in
  let d := doy - (153 * mp + 2) / 5 + 1 in
  let m := if mp <? 10 then mp + 3 else mp - 9 in
  (yoe, m, d).

Definition doe_of_civil (yoe m d : Z) : Z :=
  let mp := if 2 <? m then m - 3 else m + 9 in
  let doy := (153 * mp + 2) / 5 + d - 1 in
  yoe * 365 + yoe / 4 - yoe / 100 + doy.

(** Year, month and day of the day number [z] (days since 1970-01-01). *)
Definition civil_from_days (z : Z) : Z * Z * Z :=
  let z := z + epoch_shift in
  let era := z / era_days in
  let '(yoe, m, d) := civil_of_doe (z mod era_days) in
  (yoe + era * 400 + (if m <=? 2 then 1 else 0), m, d).

Definition days_from_civil (y m d : Z) : Z :=
  let y := y - (if m <=? 2 then 1 else 0) in
  let era := y / 400 in
  era * era_days + doe_of_civil (y mod 400) m d - epoch_shift.

Definition is_leap (y : Z) : bool :=
  (y mod 4 =? 0) && (negb (y mod 100 =? 0) || (y mod 400 =? 0)).

Definition days_in_month (y m : Z) : Z :=
  if m =? 2 then (if is_leap y then 29 else 28)
  else if (m =? 4) || (m =? 6) || (m =? 9) || (m =? 11) then 30 else 31.

(** The year as [toISOString] prints it: four digits from 0 to 9999, a
    sign and six digits otherwise. *)
Definition print_year (y : Z) : jsstring :=
  if (0 <=? y) && (y <=? 9999) then pad 4 (Z.to_N y)
  else (if y <? 0 then js "-" else js "+") ++ pad 6 (Z.abs_N y).

(** [d.toISOString()] of a valid Date: [YYYY-MM-DDTHH:mm:ss.sssZ]. *)
Definition print_iso (t : Z) : jsstring :=
  let '(y, m, d) := civil_from_days (t / ms_per_day) in
  let r := t mod ms_per_day in
  print_year y ++ js "-" ++ pad 2 (Z.to_N m) ++ js "-" ++ pad 2 (Z.to_N d)
    ++ js "T" ++ pad 2 (Z.to_N (r / 3600000))
    ++ js ":" ++ pad 2 (Z.to_N (r / 60000 mod 60))
    ++ js ":" ++ pad 2 (Z.to_N (r / 1000 mod 60))
    ++ js "." ++ pad 3 (Z.to_N (r mod 1000)) ++ js "Z".

Definition digit_value (c : N) : option Z :=
  if ((48 <=? c) && (c <=? 57))%N then Some (Z.of_N c - 48) else None.

(** Reads exactly [w] decimal digits. *)
Fixpoint read_digits (w : nat) (acc : Z) (s : jsstring) : option (Z * jsstring) :=
  match w with
  | O => Some (acc, s)
  | S w' =>
      match s with
      | c :: s' => v ← digit_value c; read_digits w' (10 * acc + v) s'
      | [] => None
      end
  end.

Definition expect (c : string) (s : jsstring) : option jsstring :=
  if starts_with s (js c) then Some (drop (length (js c)) s) else None.

(** Four digits, or [+] or [-] and six digits; [-000000] is no year. *)
Definition read_year (s : jsstring) : option (Z * jsstring) :=
  match s with
  | c :: s' =>
      if (c =? 43)%N then read_digits 6 0 s'
      else if (c =? 45)%N then
        '(y, r) ← read_digits 6 0 s';
        if y =? 0 then None else Some (- y, r)
      else read_digits 4 0 s
  | [] => None
  end.

(** The complete form of the Date Time String Format with the UTC
    designator, the form [toISOString] produces; [None] for any other
    text and for element values out of range. *)
Definition parse_iso (s : jsstring) : option Z :=
  '(y, s) ← read_year s;
  s ← expect "-" s;
  '(m, s) ← read_digits 2 0 s;
  s ← expect "-" s;
  '(d, s) ← read_digits 2 0 s;
  s ← expect "T" s;
  '(h, s) ← read_digits 2 0 s;
  s ← expect ":" s;
  '(mi, s) ← read_digits 2 0 s;
  s ← expect ":" s;
  '(sec, s) ← read_digits 2 0 s;
  s ← expect "." s;
  '(ms, s) ← read_digits 3 0 s;
  s ← expect "Z" s;
  let legal :=
    (1 <=? m) && (m <=? 12) && (1 <=? d) && (d <=? days_in_month y m)
    && (mi <=? 59) && (sec <=? 59)
    && ((h <=? 23) || ((h =? 24) && (mi =? 0) && (sec =? 0) && (ms =? 0))) in
  let t := days_from_civil y m d * ms_per_day
           + h * 3600000 + mi * 60000 + sec * 1000 + ms in
  match s with
  | [] => if legal && (- max_time <=? t) && (t <=? max_time) then Some t else None
  | _ => None
  end.

(** [P] holds of every number below [n]. *)
Definition all_below (n : N) (P : N -> bool) : bool :=
  snd (N.iter n (fun '(k, b) => (N.succ k, b && P k)) (0%N, true)).

(** [n], padded to [w] digits, reads back as [n]. *)
Definition reads_back (w : nat) (n : N) : bool :=
  bool_decide (read_digits w 0 (pad w n) = Some (Z.of_N n, [])).

(** Every day of an era has a legal month and day, from which
    [doe_of_civil] finds the day again. *)
Definition doe_round_trips (n : N) : bool :=
  let doe := Z.of_N n in
  let '(yoe, m, d) := civil_of_doe doe in
  (0 <=? yoe) && (yoe <? 400) && (1 <=? m) && (m <=? 12) && (1 <=? d)
  && (d <=? days_in_month (yoe + (if m <=? 2 then 1 else 0)) m)
  && (doe_of_civil yoe m d =? doe).

End Date.

(** ** [Number(string)]: StringToNumber *)
Module StrNum.
Import Num Str.

(** The value of a digit in a radix up to 16. *)
Definition digit_of (radix : Z) (c : N) : option Z :=
  let v :=
    if ((48 <=? c) && (c <=? 57))%N then Z.of_N c - 48
    else if ((97 <=? c) && (c <=? 102))%N then Z.of_N c - 87
    else if ((65 <=? c) && (c <=? 70))%N then Z.of_N c - 55
    else radix in
  if v <? radix then Some v else None.

(** The longest prefix of digits, as the number it denotes and its
    length, and the rest of the text. *)
Fixpoint read_number (radix : Z) (s : jsstring) (acc : Z) (len : Z)
  : Z * Z * jsstring :=
  match s with
  | c :: s' =>
      match digit_of radix c with
      | Some v => read_number radix s' (radix * acc + v) (len + 1)
      | None => (acc, len, s)
      end
  | [] => (acc, len, s)
  end.

(** NonDecimalIntegerLiteral: [0x], [0o] or [0b] and at least one digit. *)
Definition non_decimal (s : jsstring) : option number :=
  match s with
  | 48%N :: c :: s' =>
      radix ←
        (if bool_decide (c ∈ [120; 88]%N) then Some 16
         else if bool_decide (c ∈ [111; 79]%N) then Some 8
         else if bool_decide (c ∈ [98; 66]%N) then Some 2 else None);
      match read_number radix s' 0 0 with
      | (v, len, []) => if 0 <? len then Some (of_ratio false v 1) else None
      | _ => None
      end
  | _ => None
  end.

(** ExponentPart: [e] or [E], an optional sign and at least one digit,
    up to the end of the text; no exponent part is exponent 0. *)
Definition exponent_part (s : jsstring) : option Z :=
  match s with
  | [] => Some 0
  | c :: s' =>
      if bool_decide (c ∈ [101; 69]%N) then
        let '(neg, s'') :=
          match s' with
          | 43%N :: r => (false, r)
          | 45%N :: r => (true, r)
          | _ => (false, s')
          end in
        match read_number 10 s'' 0 0 with
        | (v, len, []) =>
            if 0 <? len then Some (if neg then - v else v) else None
        | _ => None
        end
      else None
  end.

(** StrUnsignedDecimalLiteral: [Infinity], or digits with an optional
    fraction and exponent, one digit at least before the exponent. *)
Definition unsigned_decimal (neg : bool) (s : jsstring) : option number :=
  if bool_decide (s = js "Infinity") then Some (S754_infinity neg)
  else
    let '(ip, ilen, s1) := read_number 10 s 0 0 in
    let '(m, flen, s2) :=
      match s1 with
      | 46%N :: r => read_number 10 r ip 0
      | _ => (ip, 0, s1)
      end in
    if 0 <? ilen + flen then
      e ← exponent_part s2; Some (of_decimal neg m (e - flen))
    else None.

Definition decimal (s : jsstring) : option number :=
  match s with
  | 43%N :: s' => unsigned_decimal false s'
  | 45%N :: s' => unsigned_decimal true s'
  | _ => unsigned_decimal false s
  end.

(** StringToNumber: white space around the literal is skipped, the empty
    text is [+0], any text that is not a numeric literal is NaN.  (For a
    literal of more than 20 significant digits ECMAScript lets the engine
    round the digits after the 20th; the literal's exact value is rounded
    here, as engines do.) *)
Definition string_to_number (s : jsstring) : number :=
  match trim s with
  | [] => zero
  | t =>
      match non_decimal t with
      | Some x => x
      | None => default nan (decimal t)
      end
  end.

End StrNum.

(** ** Exceptions and results *)

(** What a call can throw: the six [new Error(...)] of the source, by
    message, and what the engine or a caller's object throws inside a
    built-in conversion. *)
Inductive exn : Type :=
  | InvalidName       (* "Invalid product name (2+ chars required)." *)
  | InvalidPrice      (* "Invalid price (must be >= 0)." *)
  | InvalidDiscount   (* "Discount percent must be between 0 and 100." *)
  | ProductNotFound   (* "Product not found" *)
  | TargetNotUser     (* "Target must be a User instance." *)
  | ExpectedProduct   (* "Expected Product instance" *)
  | EngineTypeError   (* a TypeError of the engine *)
  | EngineRangeError  (* a RangeError of the engine *)
  | Foreign.          (* thrown by a method of an object of the caller *)

(** The error kinds of the specification. *)
Inductive error_kind : Type :=
  | ValidationError | NotFoundError | TypeMismatchError | EngineError.

Definition kind_of (e : exn) : error_kind :=
  match e with
  | InvalidName | InvalidPrice | InvalidDiscount => ValidationError
  | ProductNotFound => NotFoundError
  | TargetNotUser | ExpectedProduct => TypeMismatchError
  | EngineTypeError | EngineRangeError | Foreign => EngineError
  end.

Inductive result (A : Type) : Type :=
  | Ok (a : A)
  | Throw (e : exn).
Arguments Ok {A} a.
Arguments Throw {A} e.

Definition is_ok {A} (r : result A) : bool :=
  match r with Ok _ => true | Throw _ => false end.

(** ** Values *)
Module Val.
Import Num Str StrNum.

Abbreviation loc := positive.

Inductive prim : Type :=
  | PUndefined
  | PNull
  | PBool (b : bool)
  | PNum (x : number)
  | PStr (s : jsstring)
  | PSymbol (description : option jsstring)
  | PBigInt (z : Z).

(** What converting an object to a primitive (its [valueOf] and
    [toString], or [Symbol.toPrimitive]) comes to. *)
Inductive conversion : Type :=
  | Throws
  | Yields (p : prim).

(** A value is a primitive, an instance of [Product] or of [User]
    (an [AdminUser] is one) on the heap, or any other object, of which
    only the conversions to a number and to a string matter here. *)
Inductive value : Type :=
  | VPrim (p : prim)
  | VProduct (l : loc)
  | VUser (l : loc)
  | VObject (as_number as_string : conversion).

Definition undefined : value := VPrim PUndefined.
Definition null : value := VPrim PNull.
Definition VNum (x : number) : value := VPrim (PNum x).
Definition VStr (s : jsstring) : value := VPrim (PStr s).
Definition VBool (b : bool) : value := VPrim (PBool b).

(** [typeof v] (a callable object would be ["function"]; the source only
    compares with ["string"]). *)
Definition typeof (v : value) : jsstring :=
  match v with
  | VPrim PUndefined => js "undefined"
  | VPrim (PBool _) => js "boolean"
  | VPrim (PNum _) => js "number"
  | VPrim (PStr _) => js "string"
  | VPrim (PSymbol _) => js "symbol"
  | VPrim (PBigInt _) => js "bigint"
  | VPrim PNull | VProduct _ | VUser _ | VObject _ _ => js "object"
  end.

(** ToBoolean: [undefined], [null], [false], [0], [-0], [NaN], [""] and
    [0n] are falsy. *)
Definition to_boolean (v : value) : bool :=
  match v with
  | VPrim PUndefined | VPrim PNull => false
  | VPrim (PBool b) => b
  | VPrim (PNum (S754_zero _)) | VPrim (PNum S754_nan) => false
  | VPrim (PStr []) => false
  | VPrim (PBigInt 0) => false
  | _ => true
  end.

(** The instances of [Product] and [User] define neither [valueOf] nor
    [toString]: both conversions end in [Object.prototype.toString]. *)
Definition object_Object : prim := PStr (js "[object Object]").

Definition to_primitive_number (v : value) : conversion :=
  match v with
  | VPrim p => Yields p
  | VProduct _ | VUser _ => Yields object_Object
  | VObject c _ => c
  end.

Definition to_primitive_string (v : value) : conversion :=
  match v with
  | VPrim p => Yields p
  | VProduct _ | VUser _ => Yields object_Object
  | VObject _ c => c
  end.

(** [Number(v)]: ToNumeric, a BigInt converted to the nearest Number. *)
Definition Number_of (v : value) : result number :=
  match to_primitive_number v with
  | Throws => Throw Foreign
  | Yields PUndefined => Ok nan
  | Yields PNull => Ok zero
  | Yields (PBool b) => Ok (if b then Num.of_Z 1 else zero)
  | Yields (PNum x) => Ok x
  | Yields (PStr s) => Ok (string_to_number s)
  | Yields (PSymbol _) => Throw EngineTypeError
  | Yields (PBigInt z) => Ok (Num.of_Z z)
  end.

End Val.

(** ** What the engine and Unicode decide

    [toLowerCase] follows the Unicode case mappings; the digits of
    [Number::toString] are not fixed by ECMAScript in every case (least
    significant digit in radix 10, the whole algorithm in other radices);
    [new Date(text)] for a text outside the Date Time String Format is up to
    the engine.  The classes are modelled over any such choice. *)
Class Host : Type := {
  toLowerCase : Str.jsstring -> Str.jsstring;
  number_to_string : Num.number -> Str.jsstring;
  number_to_string36 : Num.number -> Str.jsstring;
  date_parse_other : Str.jsstring -> Date.date;
}.

Module Conv.
Import Num Str Val Date.

Section WithHost.
Context `{Host}.

Definition symbol_descriptive_string (d : option jsstring) : jsstring :=
  js "Symbol(" ++ default [] d ++ js ")".

(** ToString of a primitive; of a Symbol it throws a TypeError. *)
Definition to_string_prim (p : prim) : result jsstring :=
  match p with
  | PUndefined => Ok (js "undefined")
  | PNull => Ok (js "null")
  | PBool b => Ok (if b then js "true" else js "false")
  | PNum x => Ok (number_to_string x)
  | PStr s => Ok s
  | PSymbol _ => Throw EngineTypeError
  | PBigInt z => Ok (Str.of_Z z)
  end.

(** [String(v)]: a Symbol is described, anything else goes through
    ToString. *)
Definition String_of (v : value) : result jsstring :=
  match v with
  | VPrim (PSymbol d) => Ok (symbol_descriptive_string d)
  | _ =>
      match to_primitive_string v with
      | Throws => Throw Foreign
      | Yields p => to_string_prim p
      end
  end.

(** [new Date(text)]. *)
Definition date_of_string (s : jsstring) : date :=
  match parse_iso s with
  | Some t => Some t
  | None => date_parse_other s
  end.

(** [d.toISOString()] throws a RangeError on an invalid Date. *)
Definition toISOString (d : date) : result jsstring :=
  match d with
  | Some t => Ok (print_iso t)
  | None => Throw EngineRangeError
  end.

End WithHost.
End Conv.

(** ** State and exceptions

    A computation reads and writes a state and returns a value or throws;
    the state comes back in both cases, as the objects a method wrote to
    before it threw stay written. *)
Definition M (S A : Type) : Type := S -> result A * S.

Definition ret {S A} (a : A) : M S A := fun s => (Ok a, s).
Definition throw {S A} (e : exn) : M S A := fun s => (Throw e, s).
Definition bind {S A B} (m : M S A) (k : A -> M S B) : M S B :=
  fun s => match m s with
           | (Ok a, s') => k a s'
           | (Throw e, s') => (Throw e, s')
           end.
Definition get {S} : M S S := fun s => (Ok s, s).
Definition put {S} (s : S) : M S unit := fun _ => (Ok tt, s).
Definition lift {S A} (r : result A) : M S A := fun s => (r, s).

Declare Scope js_scope.
Delimit Scope js_scope with M.
Notation "x <- m ;; k" := (bind m (fun x => k))
  (at level 100, m at next level, right associativity) : js_scope.
Notation "m ;; k" := (bind m (fun _ => k))
  (at level 100, right associativity) : js_scope.
Local Open Scope js_scope.

(** ** The objects of the source *)

(** The private fields of a Product.  [#id] is a string
    ([Map<string, Product>] in the repository), [#createdAt] a Date. *)
Record product : Type := {
  p_id : Str.jsstring;
  p_name : Str.jsstring;
  p_price : Num.number;
  p_owner : Val.value;
  p_createdAt : Date.date;
}.

(** The argument of Product's constructor, [{ id, name, price, owner,
    createdAt }]; [None] is an absent ([undefined] or [null]) field. *)
Record fields : Type := {
  f_id : option Str.jsstring;
  f_name : Val.value;
  f_price : Val.value;
  f_owner : Val.value;
  f_createdAt : option Date.date;
}.

(** The plain record of [toJSON] and [fromJSON]. *)
Record json : Type := {
  j_id : option Str.jsstring;
  j_name : Val.value;
  j_price : Val.value;
  j_owner : Val.value;
  j_createdAt : option Str.jsstring;
}.

(** The private fields of a User; [u_admin] tells an instance of
    [AdminUser], [u_products] is the array [#products] of references. *)
Record user : Type := {
  u_admin : bool;
  u_name : Val.value;
  u_email : Val.value;
  u_role : Val.value;
  u_products : list positive;
}.

(** The [Map] of a ProductRepository, in insertion order. *)
Abbreviation store := (list (Str.jsstring * positive)).

(** The objects alive: Products, Users and ProductRepositories by
    reference.  A reference held by an object always points to an object;
    the functions below let a reference that does not match nothing. *)
Record state : Type := {
  products : gmap positive product;
  users : gmap positive user;
  repos : gmap positive store;
}.

Definition set_products (f : gmap positive product -> gmap positive product)
  (st : state) : state :=
  {| products := f (products st); users := users st; repos := repos st |}.
Definition set_users (f : gmap positive user -> gmap positive user)
  (st : state) : state :=
  {| products := products st; users := f (users st); repos := repos st |}.
Definition set_repos (f : gmap positive store -> gmap positive store)
  (st : state) : state :=
  {| products := products st; users := users st; repos := f (repos st) |}.

Definition empty_state : state :=
  {| products := ∅; users := ∅; repos := ∅ |}.

(** *** 1) Product *)
Module Product.
Import Num Str Val Date Conv.

Section WithHost.
Context `{Host}.

(** [static generateId()], given what [Math.random()] returns. *)
Definition generateId (random : number) : jsstring :=
  js "p_" ++ slice 2 10 (number_to_string36 random).

(** The check of [set name(val)] and the text it stores. *)
Definition checked_name (val : value) : result jsstring :=
  match val with
  | VPrim (PStr s) =>
      if negb (to_boolean val) || (length (trim s) <? 2)%nat
      then Throw InvalidName
      else Ok (trim s)
  | _ => (* [!val || typeof val !== "string"] *) Throw InvalidName
  end.

(** The check of [set price(val)] and the number it stores. *)
Definition checked_price (val : value) : result number :=
  match Number_of val with
  | Throw e => Throw e
  | Ok num =>
      if isNaN num || lt num zero then Throw InvalidPrice
      else Ok (round2 num)
  end.

Definition set_name (val : value) : M product unit :=
  fun this =>
    match checked_name val with
    | Throw e => (Throw e, this)
    | Ok n => (Ok tt, {| p_id := p_id this; p_name := n;
                         p_price := p_price this; p_owner := p_owner this;
                         p_createdAt := p_createdAt this |})
    end.

Definition with_price (x : number) (this : product) : product :=
  {| p_id := p_id this; p_name := p_name this; p_price := x;
     p_owner := p_owner this; p_createdAt := p_createdAt this |}.

Definition set_price (val : value) : M product unit :=
  fun this =>
    match checked_price val with
    | Throw e => (Throw e, this)
    | Ok x => (Ok tt, with_price x this)
    end.

(** [owner ?? "unknown"] *)
Definition owner_or_unknown (owner : value) : value :=
  match owner with
  | VPrim PUndefined | VPrim PNull => VStr (js "unknown")
  | _ => owner
  end.


(** [new Product({ id, name, price, owner, createdAt })], given what
    [Math.random()] and [new Date()] return at that moment.  The object
    under construction is out of reach until the constructor returns. *)
Definition construct (f : fields) (random : number) (now : date)
  : result product :=
  let id := default (generateId random) (f_id f) in
  match checked_name (f_name f) with
  | Throw e => Throw e
  | Ok n =>
      match checked_price (f_price f) with
      | Throw e => Throw e
      | Ok x =>
          Ok {| p_id := id; p_name := n; p_price := x;
                p_owner := owner_or_unknown (f_owner f);
                p_createdAt := default now (f_createdAt f) |}
      end
  end.

(** [applyDiscount(percent)] *)
Definition applyDiscount (percent : value) : M product number :=
  fun this =>
    match Number_of percent with
    | Throw e => (Throw e, this)
    | Ok p =>
        if isNaN p || lt p zero || gt p (Num.of_Z 100)
        then (Throw InvalidDiscount, this)
        else
          let newPrice :=
            mul (p_price this) (sub (Num.of_Z 1) (div p (Num.of_Z 100))) in
          let this' := with_price (round2 newPrice) this in
          (Ok (p_price this'), this')
    end.

Definition toJSON (this : product) : result json :=
  match toISOString (p_createdAt this) with
  | Throw e => Throw e
  | Ok iso =>
      Ok {| j_id := Some (p_id this); j_name := VStr (p_name this);
            j_price := VNum (p_price this); j_owner := p_owner this;
            j_createdAt := Some iso |}
  end.

(** [json.createdAt ? new Date(json.createdAt) : undefined] *)
Definition createdAt_of_json (c : option jsstring) : option date :=
  match c with
  | None | Some [] => None
  | Some s => Some (date_of_string s)
  end.

Definition fromJSON (j : json) (random : number) (now : date)
  : result product :=
  construct {| f_id := j_id j; f_name := j_name j; f_price := j_price j;
               f_owner := j_owner j;
               f_createdAt := createdAt_of_json (j_createdAt j) |}
            random now.

(** The invariant of a Product: [price >= 0], and a name of two code
    units or more once trimmed. *)
Definition invariant (p : product) : Prop :=
  ge (p_price p) zero = true /\ (2 <= length (trim (p_name p)))%nat.

(** A Product as the constructor leaves it, with a Date that is valid. *)
Definition well_formed (p : product) : Prop :=
  trim (p_name p) = p_name p /\ (2 <= length (p_name p))%nat
  /\ ge (p_price p) zero = true /\ round2 (p_price p) = p_price p
  /\ owner_or_unknown (p_owner p) = p_owner p
  /\ exists t, p_createdAt p = Some t /\ in_range t.

(** A method called on the Product at [l]. *)
Definition on {A} (l : loc) (m : M product A) : M state A :=
  fun st =>
    match products st !! l with
    | Some this =>
        let '(r, this') := m this in (r, set_products <[l := this']> st)
    | None => (Throw EngineTypeError, st)
    end.

(** [new Product(f)]: the new object and its reference. *)
Definition new (f : fields) (random : number) (now : date) : M state loc :=
  fun st =>
    match construct f random now with
    | Throw e => (Throw e, st)
    | Ok this =>
        let l := fresh (dom (products st)) in
        (Ok l, set_products <[l := this]> st)
    end.

(** [p.id === productId] and the key a [Map<string, Product>] looks up
    for [id]: only a string equals a string. *)
Definition key_of (id : value) : option jsstring :=
  match id with VPrim (PStr s) => Some s | _ => None end.

Definition has_id (st : state) (id : value) (l : loc) : bool :=
  match products st !! l with
  | Some p => bool_decide (key_of id = Some (p_id p))
  | None => false
  end.

(** [p.name.toLowerCase().includes(term)] *)
Definition name_includes (st : state) (term : jsstring) (l : loc) : bool :=
  match products st !! l with
  | Some p => includes (toLowerCase (p_name p)) term
  | None => false
  end.

End WithHost.
End Product.

(** *** 2) User *)
Module User.
Import Num Str Val Date Conv.

Section WithHost.
Context `{Host}.

Definition at_ (l : loc) : M state user :=
  fun st =>
    match users st !! l with
    | Some u => (Ok u, st)
    | None => (Throw EngineTypeError, st)
    end.

Definition with_products (ps : list loc) (u : user) : user :=
  {| u_admin := u_admin u; u_name := u_name u; u_email := u_email u;
     u_role := u_role u; u_products := ps |}.

(** [this.#products = ps] *)
Definition put_products (this : loc) (ps : list loc) : M state unit :=
  fun st => (Ok tt, set_users (alter (with_products ps) this) st).

Definition alloc (u : user) : M state loc :=
  fun st =>
    let l := fresh (dom (users st)) in
    (Ok l, set_users <[l := u]> st).

(** [new User(name, email, role = "user")] *)
Definition new (name email role : value) : M state loc :=
  alloc {| u_admin := false; u_name := name; u_email := email;
           u_role := match role with
                     | VPrim PUndefined => VStr (js "user")
                     | _ => role
                     end;
           u_products := [] |}.

Definition addProduct (this : loc) (name price : value)
    (random : number) (now : date) : M state loc :=
  u <- at_ this;;
  product <- Product.new {| f_id := None; f_name := name; f_price := price;
                            f_owner := u_name u; f_createdAt := None |}
                         random now;;
  put_products this (u_products u ++ [product]);;
  ret product.

Definition listProducts (this : loc) : M state (list loc) :=
  u <- at_ this;;
  ret (u_products u).

Definition findProductsByName (this : loc) (q : value) : M state (list loc) :=
  s <- lift (String_of q);;
  let term := toLowerCase s in
  u <- at_ this;;
  st <- get;;
  ret (filter (fun l => Product.name_includes st term l = true) (u_products u)).

Definition updateProductPrice (this : loc) (productId newPrice : value)
  : M state loc :=
  u <- at_ this;;
  st <- get;;
  match list_find (fun l => Product.has_id st productId l = true) (u_products u) with
  | None => throw ProductNotFound
  | Some (_, p) =>
      Product.on p (Product.set_price newPrice);;
      ret p
  end.

Definition deleteProduct (this : loc) (productId : value) : M state loc :=
  u <- at_ this;;
  st <- get;;
  match list_find (fun l => Product.has_id st productId l = true) (u_products u) with
  | None => throw ProductNotFound
  | Some (idx, deleted) =>
      put_products this (base.delete idx (u_products u));;
      ret deleted
  end.

End WithHost.
End User.

(** *** 3) AdminUser *)
Module AdminUser.
Import Num Str Val Date Conv.

Section WithHost.
Context `{Host}.

(** [new AdminUser(name, email)]: [super(name, email, "admin")]. *)
Definition new (name email : value) : M state loc :=
  User.alloc {| u_admin := true; u_name := name; u_email := email;
                u_role := VStr (js "admin"); u_products := [] |}.

(** The method is one of [AdminUser.prototype]: [this] is an instance
    of [AdminUser]. *)
Definition deleteProductFromUser (this : loc) (targetUser productId : value)
  : M state loc :=
  a <- User.at_ this;;
  if negb (u_admin a) then throw EngineTypeError
  else
    match targetUser with
    | VUser target => User.deleteProduct target productId
    | _ => throw TargetNotUser
    end.

End WithHost.
End AdminUser.

(** *** 4) ProductRepository *)
Module ProductRepository.
Import Num Str Val Date Conv.

(** [Map.prototype.get], [has], [set], [delete] and [values] on string
    keys. *)
Fixpoint map_get (k : jsstring) (s : store) : option loc :=
  match s with
  | [] => None
  | (k', v) :: s' => if decide (k' = k) then Some v else map_get k s'
  end.

Definition map_has (k : jsstring) (s : store) : bool :=
  bool_decide (is_Some (map_get k s)).

Fixpoint map_set (k : jsstring) (v : loc) (s : store) : store :=
  match s with
  | [] => [(k, v)]
  | (k', v') :: s' =>
      if decide (k' = k) then (k, v) :: s' else (k', v') :: map_set k v s'
  end.

Definition map_delete (k : jsstring) (s : store) : store :=
  filter (fun e => e.1 ≠ k) s.

Section WithHost.
Context `{Host}.

Definition at_ (l : loc) : M state store :=
  fun st =>
    match repos st !! l with
    | Some s => (Ok s, st)
    | None => (Throw EngineTypeError, st)
    end.

(** [this.store = s'], as the methods of [Map] update it. *)
Definition put_store (this : loc) (s : store) : M state unit :=
  fun st => (Ok tt, set_repos <[this := s]> st).

(** [new ProductRepository()] *)
Definition new : M state loc :=
  fun st =>
    let l := fresh (dom (repos st)) in
    (Ok l, set_repos <[l := []]> st).

Definition id_of (l : loc) : M state jsstring :=
  fun st =>
    match products st !! l with
    | Some p => (Ok (p_id p), st)
    | None => (Throw EngineTypeError, st)
    end.

Definition create (this : loc) (product : value) : M state loc :=
  match product with
  | VProduct p =>
      id <- id_of p;;
      s <- at_ this;;
      put_store this (map_set id p s);;
      ret p
  | _ => throw ExpectedProduct
  end.

(** [this.store.get(id) ?? null]; [None] is [null]. *)
Definition getById (this : loc) (id : value) : M state (option loc) :=
  s <- at_ this;;
  ret (k ← Product.key_of id; map_get k s).

Definition getAll (this : loc) : M state (list loc) :=
  s <- at_ this;;
  ret (s.*2).

Definition update (this : loc) (product : value) : M state loc :=
  match product with
  | VProduct p =>
      id <- id_of p;;
      s <- at_ this;;
      if negb (map_has id s) then throw ProductNotFound
      else
        put_store this (map_set id p s);;
        ret p
  | _ => throw ExpectedProduct
  end.

Definition delete (this : loc) (id : value) : M state bool :=
  s <- at_ this;;
  match Product.key_of id with
  | Some k =>
      put_store this (map_delete k s);;
      ret (map_has k s)
  | None => ret false
  end.

Definition findByNameLike (this : loc) (q : value) : M state (list loc) :=
  s <- lift (String_of q);;
  let term := toLowerCase s in
  all <- getAll this;;
  st <- get;;
  ret (filter (fun l => Product.name_includes st term l = true) all).

End WithHost.
End ProductRepository.

(** *** 5) ProductService *)
Module ProductService.
Import Num Str Val Date Conv.

(** [this.repo] *)
Record service : Type := { repo : loc }.

Section WithHost.
Context `{Host}.

Definition addNewProduct (this : service) (name price owner : value)
    (random : number) (now : date) : M state loc :=
  product <- Product.new {| f_id := None; f_name := name; f_price := price;
                            f_owner := owner; f_createdAt := None |}
                         random now;;
  ProductRepository.create (repo this) (VProduct product).

Definition listAll (this : service) : M state (list loc) :=
  ProductRepository.getAll (repo this).

Definition search (this : service) (term : value) : M state (list loc) :=
  ProductRepository.findByNameLike (repo this) term.

Definition changePrice (this : service) (id newPrice : value) : M state loc :=
  p <- ProductRepository.getById (repo this) id;;
  match p with
  | None => throw ProductNotFound
  | Some p =>
      Product.on p (Product.set_price newPrice);;
      ProductRepository.update (repo this) (VProduct p)
  end.

Definition discount (this : service) (id percent : value) : M state loc :=
  p <- ProductRepository.getById (repo this) id;;
  match p with
  | None => throw ProductNotFound
  | Some p =>
      Product.on p (Product.applyDiscount percent);;
      ProductRepository.update (repo this) (VProduct p)
  end.

Definition remove (this : service) (id : value) : M state bool :=
  ok <- ProductRepository.delete (repo this) id;;
  if negb ok then throw ProductNotFound else ret ok.

End WithHost.
End ProductService.

(** *** Reading the role *)
Module Get.
Import Num Str Val Date Conv.

(** [u.isAdmin()]: [this.#role === "admin"]. *)
Definition isAdmin (this : loc) : M state bool :=
  u <- User.at_ this;;
  ret (bool_decide (Product.key_of (u_role u) = Some (js "admin"))).

End Get.

(** ** Consistent states

    What the methods keep true of the objects: a name is trimmed and has two
    code units or more; a user's collection holds each product once, and
    only products there are; a repository has one entry per key, the key
    being the id of the product stored under it. *)
Module Inv.
Import Num Str Val Date Conv.

Definition name_ok (p : product) : Prop :=
  trim (p_name p) = p_name p /\ (2 <= length (p_name p))%nat.

Definition user_ok (st : state) (u : user) : Prop :=
  NoDup (u_products u)
  /\ forall l, l ∈ u_products u -> is_Some (products st !! l).

Definition store_ok (st : state) (s : store) : Prop :=
  NoDup (s.*1)
  /\ forall k l, (k, l) ∈ s ->
       exists p, products st !! l = Some p /\ p_id p = k.

Definition consistent (st : state) : Prop :=
  (forall l p, products st !! l = Some p -> name_ok p)
  /\ (forall l u, users st !! l = Some u -> user_ok st u)
  /\ (forall r s, repos st !! r = Some s -> store_ok st s).

(** A method of Product that keeps the id and leaves a name that is
    trimmed; a computation that keeps the state consistent, whether it
    returns or throws. *)
Definition keeps_id_and_name {A} (m : M product A) : Prop :=
  forall p, p_id (snd (m p)) = p_id p /\ (name_ok p -> name_ok (snd (m p))).

Definition keeps {A} (m : M state A) : Prop :=
  forall st, consistent st -> consistent (snd (m st)).

(** The calls that write to the state: the constructors and the methods
    of the five classes that are not mere reads. *)
Inductive call : Type :=
  | NewProduct (f : fields) (random : number) (now : date)
  | FromJSON (j : json) (random : number) (now : date)
  | SetName (p : loc) (val : value)
  | SetPrice (p : loc) (val : value)
  | ApplyDiscount (p : loc) (percent : value)
  | NewUser (name email role : value)
  | NewAdminUser (name email : value)
  | AddProduct (u : loc) (name price : value) (random : number) (now : date)
  | UpdateProductPrice (u : loc) (productId newPrice : value)
  | DeleteProduct (u : loc) (productId : value)
  | DeleteProductFromUser (a : loc) (targetUser productId : value)
  | NewRepository
  | Create (r : loc) (product : value)
  | Update (r : loc) (product : value)
  | Delete (r : loc) (id : value)
  | AddNewProduct (r : loc) (name price owner : value) (random : number) (now : date)
  | ChangePrice (r : loc) (id newPrice : value)
  | Discount (r : loc) (id percent : value)
  | Remove (r : loc) (id : value).

Section WithHost.
Context `{Host}.

(** [Product.fromJSON(j)], the new object on the heap. *)
Definition fromJSON_new (j : json) (random : number) (now : date) : M state loc :=
  fun st =>
    match Product.fromJSON j random now with
    | Throw e => (Throw e, st)
    | Ok this =>
        let l := fresh (dom (products st)) in
        (Ok l, set_products <[l := this]> st)
    end.

(** The state a call leaves, whether it returns or throws. *)
Definition exec (c : call) (st : state) : state :=
  match c with
  | NewProduct f random now => snd (Product.new f random now st)
  | FromJSON j random now => snd (fromJSON_new j random now st)
  | SetName p val => snd (Product.on p (Product.set_name val) st)
  | SetPrice p val => snd (Product.on p (Product.set_price val) st)
  | ApplyDiscount p percent => snd (Product.on p (Product.applyDiscount percent) st)
  | NewUser name email role => snd (User.new name email role st)
  | NewAdminUser name email => snd (AdminUser.new name email st)
  | AddProduct u name price random now =>
      snd (User.addProduct u name price random now st)
  | UpdateProductPrice u productId newPrice =>
      snd (User.updateProductPrice u productId newPrice st)
  | DeleteProduct u productId => snd (User.deleteProduct u productId st)
  | DeleteProductFromUser a targetUser productId =>
      snd (AdminUser.deleteProductFromUser a targetUser productId st)
  | NewRepository => snd (ProductRepository.new st)
  | Create r product => snd (ProductRepository.create r product st)
  | Update r product => snd (ProductRepository.update r product st)
  | Delete r id => snd (ProductRepository.delete r id st)
  | AddNewProduct r name price owner random now =>
      snd (ProductService.addNewProduct {| ProductService.repo := r |}
             name price owner random now st)
  | ChangePrice r id newPrice =>
      snd (ProductService.changePrice {| ProductService.repo := r |} id newPrice st)
  | Discount r id percent =>
      snd (ProductService.discount {| ProductService.repo := r |} id percent st)
  | Remove r id =>
      snd (ProductService.remove {| ProductService.repo := r |} id st)
  end.

(** A program: calls one after the other, from no object at all. *)
Definition run (cs : list call) : state := foldl (fun st c => exec c st) empty_state cs.

End WithHost.
End Inv.


(** *** 6) Demo runner *)
Module Runner.
Import Num Str Val Date Conv.

(** What a call of [console.log] shows after its label. *)
Inductive shown : Type :=
  | Nothing
  | Jsons (l : list json)
  | Json (j : json)
  | Price (x : number)
  | Names (l : list jsstring).

Section WithHost.
Context `{Host}.

(** [l.map(f)] and [l.forEach(f)], for an [f] that may throw. *)
Fixpoint mapM {A B} (f : A -> M state B) (l : list A) : M state (list B) :=
  match l with
  | [] => ret []
  | x :: l' => y <- f x;; ys <- mapM f l';; ret (y :: ys)
  end.

(** A getter of the Product at [l]: [p.id], [p.name], [p.price]. *)
Definition of_product {A} (f : product -> A) (l : loc) : M state A :=
  fun st =>
    match products st !! l with
    | Some p => (Ok (f p), st)
    | None => (Throw EngineTypeError, st)
    end.

(** [p.toJSON()] *)
Definition toJSON (l : loc) : M state json :=
  fun st =>
    match products st !! l with
    | Some p => (Product.toJSON p, st)
    | None => (Throw EngineTypeError, st)
    end.

(** [demo()] from [const repo = new ProductRepository()] on, given what
    [Math.random()] and [new Date()] return for the Watch. *)
Definition repository_part (user : loc) (random : number) (now : date)
  : M state (list (string * shown)) :=
  repo <- ProductRepository.new;;
  let service := {| ProductService.repo := repo |} in
  ps <- User.listProducts user;;
  mapM (fun prod => ProductRepository.create repo (VProduct prod)) ps;;
  added <- ProductService.addNewProduct service (VStr (js "Watch"))
             (VNum (Num.of_Z 120)) (VStr (js "Mona")) random now;;
  service_added <- toJSON added;;
  id <- of_product p_id added;;
  ProductService.discount service (VStr id) (VNum (Num.of_Z 10));;
  id <- of_product p_id added;;
  found <- ProductRepository.getById repo (VStr id);;
  after_discount <- match found with
                    | Some p => toJSON p
                    | None => throw EngineTypeError
                    end;;
  hits <- ProductService.search service (VStr (js "sh"));;
  hit_names <- mapM (of_product p_name) hits;;
  id <- of_product p_id added;;
  ProductService.remove service (VStr id);;
  all <- ProductService.listAll service;;
  all_names <- mapM (of_product p_name) all;;
  ret [("Service added:"%string, Json service_added);
       ("After 10% discount:"%string, Json after_discount);
       ("Search 'sh':"%string, Names hit_names);
       ("After remove Watch, all:"%string, Names all_names);
       ("=== OOP JS Demo End ==="%string, Nothing)].

(** [demo()], given what [Math.random()] and [new Date()] return for the
    four products; the result is what it logs. *)
Definition demo (r1 r2 r3 r4 : number) (t1 t2 t3 t4 : date)
  : M state (list (string * shown)) :=
  user <- User.new (VStr (js "Mona")) (VStr (js "mona@example.com")) undefined;;
  admin <- AdminUser.new (VStr (js "Ziad")) (VStr (js "ziad@example.com"));;
  p1 <- User.addProduct user (VStr (js "Phone Case")) (VNum (Num.of_Z 10)) r1 t1;;
  p2 <- User.addProduct user (VStr (js "Power Bank")) (VNum (Num.of_Z 30)) r2 t2;;
  p3 <- User.addProduct user (VStr (js "Shoes")) (VNum (Num.of_Z 55)) r3 t3;;
  ps <- User.listProducts user;;
  user_products <- mapM toJSON ps;;
  id <- of_product p_id p1;;
  User.updateProductPrice user (VStr id) (VNum (of_decimal false 125 (-1)));;
  ps <- User.listProducts user;;
  id <- of_product p_id p1;;
  st <- get;;
  updated_price <-
    match list_find (fun p => Product.has_id st (VStr id) p = true) ps with
    | Some (_, p) => of_product p_price p
    | None => throw EngineTypeError
    end;;
  id <- of_product p_id p2;;
  AdminUser.deleteProductFromUser admin (VUser user) (VStr id);;
  ps <- User.listProducts user;;
  after_delete <- mapM toJSON ps;;
  rest <- repository_part user r4 t4;;
  ret ([("=== OOP JS Demo Start ==="%string, Nothing);
        ("User products:"%string, Jsons user_products);
        ("Updated price of p1:"%string, Price updated_price);
        ("After admin delete:"%string, Jsons after_delete)] ++ rest).

End WithHost.
End Runner.
(** ** A sample host

    One choice of what [Host] leaves open, for the closed examples:
    [toLowerCase] on Basic Latin and Latin-1 letters (other code units are
    left as they are), [Number::toString] in radix 10 with the fewest digits
    that read back as the same Number and, of those, the closest, radix 36
    with all the digits of the Number, and no Date text accepted besides
    the complete form. *)
Module SampleHost.
Import Num Str.

Definition lower_unit (c : N) : N :=
  if (((65 <=? c) && (c <=? 90))
      || ((192 <=? c) && (c <=? 222) && negb (c =? 215)))%N
  then (c + 32)%N else c.

(** A positive finite Number [m * 2^e] as a fraction [a / b]. *)
Definition ratio_of (m : positive) (e : Z) : Z * Z :=
  match e with
  | Zneg k => (Zpos m, 2 ^ Zpos k)
  | _ => (Zpos m * 2 ^ e, 1)
  end.

(** [floor (a / b * 10^p)] *)
Definition scaled (a b p : Z) : Z :=
  if 0 <=? p then a * 10 ^ p / b else a / (b * 10 ^ (- p)).

(** [n] with [10^(n-1) <= a / b < 10^n]. *)
Fixpoint magnitude_below (fuel : nat) (a b j : Z) : Z :=
  match fuel with
  | O => 1 - j
  | S fuel' =>
      if b <=? a * 10 ^ j then 1 - j else magnitude_below fuel' a b (j + 1)
  end.

Definition magnitude (a b : Z) : Z :=
  if b <=? a then Z.of_nat (length (digits 10 (Z.to_N (a / b))))
  else magnitude_below 400 a b 1.

(** The digits [s], their number [k] and the exponent [n] of
    Number::toString: [k] as small as possible with [s * 10^(n-k)]
    reading back as [x]. *)
Fixpoint shortest (fuel : nat) (x : number) (a b n0 k : Z) : Z * Z * Z :=
  let lo := scaled a b (k - n0) in
  match fuel with
  | O => (lo, k, n0)
  | S fuel' =>
      let hi := lo + 1 in
      let ok_lo := SFeqb (of_decimal false lo (n0 - k)) x in
      let ok_hi := SFeqb (of_decimal false hi (n0 - k)) x in
      let up := if hi =? 10 ^ k then (10 ^ (k - 1), k, n0 + 1) else (hi, k, n0) in
      if ok_lo && ok_hi then
        match (if 0 <=? k - n0
               then 2 * a * 10 ^ (k - n0) ?= (2 * lo + 1) * b
               else 2 * a ?= (2 * lo + 1) * b * 10 ^ (n0 - k)) with
        | Lt => (lo, k, n0)
        | Gt => up
        | Eq => if Z.even lo then (lo, k, n0) else up
        end
      else if ok_lo then (lo, k, n0)
      else if ok_hi then up
      else shortest fuel' x a b n0 (k + 1)
  end.

Definition print_digits (s k n : Z) : jsstring :=
  let ds := Str.of_N (Z.to_N s) in
  let exponent :=
    js "e" ++ (if 0 <=? n - 1 then js "+" else js "-")
           ++ Str.of_N (Z.abs_N (n - 1)) in
  if (k <=? n) && (n <=? 21) then ds ++ replicate (Z.to_nat (n - k)) 48%N
  else if (0 <? n) && (n <=? 21) then
    take (Z.to_nat n) ds ++ js "." ++ drop (Z.to_nat n) ds
  else if (-6 <? n) && (n <=? 0) then
    js "0." ++ replicate (Z.to_nat (- n)) 48%N ++ ds
  else if k =? 1 then ds ++ exponent
  else take 1 ds ++ js "." ++ drop 1 ds ++ exponent.

Definition to_string10 (x : number) : jsstring :=
  match x with
  | S754_nan => js "NaN"
  | S754_zero _ => js "0"
  | S754_infinity s => (if s then js "-" else []) ++ js "Infinity"
  | S754_finite sg m e =>
      let '(a, b) := ratio_of m e in
      let '(s, k, n) :=
        shortest 17 (S754_finite false m e) a b (magnitude a b) 1 in
      (if sg then js "-" else []) ++ print_digits s k n
  end.

(** The digits of the fraction [r / b] in a radix, all of them. *)
Fixpoint fraction_digits (fuel : nat) (radix r b : Z) : list N :=
  match fuel with
  | O => []
  | S fuel' =>
      if r =? 0 then []
      else Z.to_N (radix * r / b)
             :: fraction_digits fuel' radix ((radix * r) mod b) b
  end.

Definition to_string36 (x : number) : jsstring :=
  match x with
  | S754_nan => js "NaN"
  | S754_zero _ => js "0"
  | S754_infinity s => (if s then js "-" else []) ++ js "Infinity"
  | S754_finite sg m e =>
      let '(a, b) := ratio_of m e in
      let frac := fraction_digits 1100 36 (a mod b) b in
      (if sg then js "-" else [])
        ++ (digit_char <$> digits 36 (Z.to_N (a / b)))
        ++ (if bool_decide (frac = []) then [] else js "." ++ (digit_char <$> frac))
  end.

#[export] Instance sample : Host := {|
  toLowerCase s := lower_unit <$> s;
  number_to_string := to_string10;
  number_to_string36 := to_string36;
  date_parse_other _ := None;
|}.

End SampleHost.

(** ** The objects of the demo of the source *)
Module Demo.
Import Num Str Val Date Conv SampleHost.

(** What [Math.random()] and [new Date()] return in the examples. *)
Definition half : number := of_decimal false 5 (-1).
Definition quarter : number := of_decimal false 25 (-2).
Definition eighth : number := of_decimal false 125 (-3).
Definition noon : date := Some 1700000000123.

(** [new User("Mona", ...)], [new AdminUser("Ziad", ...)], two products
    of Mona's and a repository that holds them. *)
Definition setup : M state (loc * loc * loc * loc) :=
  user <- User.new (VStr (js "Mona")) (VStr (js "mona@example.com")) undefined;;
  admin <- AdminUser.new (VStr (js "Ziad")) (VStr (js "ziad@example.com"));;
  p1 <- User.addProduct user (VStr (js "Phone Case")) (VNum (Num.of_Z 10))
                        half noon;;
  p2 <- User.addProduct user (VStr (js "Power Bank")) (VNum (Num.of_Z 30))
                        quarter noon;;
  repo <- ProductRepository.new;;
  ProductRepository.create repo (VProduct p1);;
  ProductRepository.create repo (VProduct p2);;
  ret (user, admin, p1, repo).

Definition world : state := snd (setup empty_state).

Definition mona : user :=
  {| u_admin := false; u_name := VStr (js "Mona");
     u_email := VStr (js "mona@example.com"); u_role := VStr (js "user");
     u_products := [1%positive; 2%positive] |}.

Definition ziad : user :=
  {| u_admin := true; u_name := VStr (js "Ziad");
     u_email := VStr (js "ziad@example.com"); u_role := VStr (js "admin");
     u_products := [] |}.

Definition phone_case : product :=
  {| p_id := js "p_i"; p_name := js "Phone Case"; p_price := Num.of_Z 10;
     p_owner := VStr (js "Mona"); p_createdAt := noon |}.

Definition shelf : store := [(js "p_i", 1%positive); (js "p_9", 2%positive)].

End Demo.


(** * Properties *)

Ltac run :=
  unfold bind, ret, throw, get, put, lift in *; simpl in *.

(** Closed goals are computed, conjunct by conjunct. *)
Ltac conjuncts := repeat match goal with |- _ /\ _ => split end.
Ltac computed := intros; conjuncts; vm_compute; reflexivity.

(** ** The repository's map *)
Section MapProps.
Import Str Val ProductRepository.

Lemma map_get_delete (k k' : jsstring) (s : store) :
  map_get k' (map_delete k s) = if decide (k' = k) then None else map_get k' s.
Proof.
  unfold map_delete.
  induction s as [|[k0 v0] s IH]; simpl.
  - by case_decide.
  - rewrite filter_cons; simpl.
    destruct (decide (k0 = k)) as [->|Hne].
    + rewrite decide_False by (intros Hk; by apply Hk).
      rewrite IH. repeat case_decide; congruence.
    + rewrite decide_True by done. simpl. rewrite IH.
      repeat case_decide; congruence.
Qed.

Lemma map_has_delete (k : jsstring) (s : store) :
  map_has k (map_delete k s) = false.
Proof.
  unfold map_has. rewrite map_get_delete, decide_True by done.
  apply bool_decide_eq_false. by intros [? ?].
Qed.

Lemma map_get_set (k k' : jsstring) (v : loc) (s : store) :
  map_get k' (map_set k v s) = if decide (k' = k) then Some v else map_get k' s.
Proof.
  induction s as [|[k0 v0] s IH]; simpl.
  - repeat case_decide; congruence.
  - destruct (decide (k0 = k)) as [->|Hne]; simpl.
    + repeat case_decide; congruence.
    + rewrite IH. repeat case_decide; congruence.
Qed.

(** Setting a key to the value it has leaves the map as it is. *)
Lemma map_set_same (k : jsstring) (v : loc) (s : store) :
  map_get k s = Some v -> map_set k v s = s.
Proof.
  induction s as [|[k0 v0] s IH]; simpl; [done|].
  destruct (decide (k0 = k)) as [->|Hne]; [congruence|].
  intros Hget. by rewrite IH.
Qed.

Lemma map_delete_idem (k : jsstring) (s : store) :
  map_delete k (map_delete k s) = map_delete k s.
Proof.
  unfold map_delete. induction s as [|e s IH]; [done|].
  rewrite filter_cons. case_decide; [|done].
  rewrite filter_cons, decide_True by done. by rewrite IH.
Qed.

End MapProps.

(** ** ProductRepository *)
Section RepositoryProps.
Context `{Host}.
Import Str Val ProductRepository.

(** C8. [delete(id)] on a repository never throws; it returns [true]
    exactly when a product was stored under [id], which it removes while
    the other entries stay, in order; a second [delete(id)] returns
    [false]. *)
Theorem delete_returns_whether_stored
    (this : loc) (id : value) (st : state) (s : store) :
  repos st !! this = Some s ->
  exists st',
    delete this id st
      = (Ok (bool_decide (is_Some (k ← Product.key_of id; map_get k s))), st')
    /\ products st' = products st /\ users st' = users st
    /\ (forall other, other <> this -> repos st' !! other = repos st !! other)
    /\ (forall id',
          getById this id' st'
          = (Ok (if decide (Product.key_of id' = Product.key_of id) then None
                 else k ← Product.key_of id'; map_get k s), st'))
    /\ getAll this st'
       = (Ok ((filter (fun e => Some e.1 <> Product.key_of id) s).*2), st')
    /\ exists st'', delete this id st' = (Ok false, st'').
Proof.
  intros Hs. unfold delete, getById, getAll, at_, put_store. run.
  rewrite Hs. destruct (Product.key_of id) as [k|] eqn:Hk; simpl.
  - eexists. split; [reflexivity|]. simpl.
    repeat split; try done.
    + intros other Hne. by rewrite lookup_insert_ne.
    + intros id'. rewrite lookup_insert_eq.
      destruct (Product.key_of id') as [k'|]; simpl.
      * rewrite map_get_delete. repeat case_decide; congruence.
      * repeat case_decide; congruence.
    + rewrite lookup_insert_eq. do 3 f_equal.
      unfold map_delete. apply list_filter_iff. intros [k0 v0]; simpl.
      split; congruence.
    + rewrite lookup_insert_eq. eexists. by rewrite map_has_delete.
  - exists st. split; [reflexivity|].
    repeat split; try done.
    + intros id'. rewrite Hs.
      destruct (Product.key_of id'); simpl; repeat case_decide; congruence.
    + rewrite Hs. do 3 f_equal. symmetry. clear Hs.
      induction s as [|e s IH]; [done|].
      rewrite filter_cons, decide_True by done. by f_equal.
    + rewrite Hs. by eexists.
Qed.

End RepositoryProps.

(** ** Conversions *)
Section ConversionProps.
Import Num Str Val StrNum.

(** [Number(v)] only throws what the engine or the caller's object
    throws, never one of the errors of the source. *)
Lemma Number_of_throws (v : value) (e : exn) :
  Number_of v = Throw e -> kind_of e = EngineError.
Proof.
  unfold Number_of.
  destruct (to_primitive_number v) as [|[]]; intros [= <-]; reflexivity.
Qed.

Lemma of_ratio_sign (neg : bool) (a : Z) (b : positive) :
  match of_ratio neg a b with
  | S754_zero s | S754_infinity s | S754_finite s _ _ => s = neg
  | S754_nan => False
  end.
Proof.
  unfold of_ratio. destruct (a <=? 0); [done|].
  repeat match goal with
         | |- context [if ?c then _ else _] => destruct c
         | |- context [match ?c with Eq => _ | Lt => _ | Gt => _ end] => destruct c
         | |- context [match ?c with Z0 => _ | Zpos _ => _ | Zneg _ => _ end] => destruct c
         end; done.
Qed.

(** What [price >= 0] holds of stays so when rounded to two decimals. *)
Lemma round2_nonneg (x : number) :
  ge x zero = true -> ge (round2 x) zero = true.
Proof.
  destruct x as [s|s| |s m e]; simpl; try done.
  destruct s; [done|]. intros _.
  destruct (ge_1e21 m e); [done|].
  pose proof (of_ratio_sign false (to_cents m e) 100) as Hs.
  destruct (of_ratio false (to_cents m e) 100); try done; by subst.
Qed.

Lemma ge_zero_iff (x : number) :
  ge x zero = true <-> isNaN x = false /\ lt x zero = false.
Proof. destruct x as [[]|[]| |[] m e]; cbv; intuition congruence. Qed.

End ConversionProps.

(** ** Product: the price setter *)
Section PriceProps.
Import Num Str Val StrNum.

(** C9. The price setter converts its argument with [Number]: it
    raises the validation error exactly when the number it gets is NaN or
    negative, and stores any other, rounded to two decimals; a numeric
    text, [null] (0) and [true] (1) are stored, not rejected.  When the
    setter returns, the price of the Product is [Number(val)] rounded and
    the other fields are as they were; when it throws, so is the price. *)
Theorem set_price_coerces (val : value) (this : product) :
  ((exists e this', Product.set_price val this = (Throw e, this')
                    /\ kind_of e = ValidationError)
   <-> exists num, Number_of val = Ok num
                   /\ (isNaN num = true \/ lt num zero = true))
  /\ Product.set_price val this
     = match Number_of val with
       | Throw e => (Throw e, this)
       | Ok num =>
           if isNaN num || lt num zero then (Throw InvalidPrice, this)
           else (Ok tt, Product.with_price (round2 num) this)
       end
  /\ Product.set_price (VStr (js "12.345")) this
     = (Ok tt, Product.with_price (of_decimal false 1235 (-2)) this)
  /\ Product.set_price null this = (Ok tt, Product.with_price zero this)
  /\ Product.set_price (VBool true) this
     = (Ok tt, Product.with_price (Num.of_Z 1) this)
  /\ Product.set_price (VStr (js "abc")) this = (Throw InvalidPrice, this)
  /\ Product.set_price (VStr (js "-1")) this = (Throw InvalidPrice, this)
  /\ match Product.set_price val this with
     | (Ok _, this') =>
         exists num, Number_of val = Ok num
                     /\ isNaN num = false /\ lt num zero = false
                     /\ p_price this' = round2 num
                     /\ p_id this' = p_id this /\ p_name this' = p_name this
                     /\ p_owner this' = p_owner this
                     /\ p_createdAt this' = p_createdAt this
     | (Throw _, this') => p_price this' = p_price this /\ this' = this
     end
  /\ match Number_of val with
     | Ok num =>
         if isNaN num || lt num zero
         then fst (Product.set_price val this) = Throw InvalidPrice
         else fst (Product.set_price val this) = Ok tt
              /\ p_price (snd (Product.set_price val this)) = round2 num
     | Throw e => fst (Product.set_price val this) = Throw e
     end
  /\ p_price (snd (Product.set_price (VStr (js "12.345")) this))
     = of_decimal false 1235 (-2)
  /\ p_price (snd (Product.set_price null this)) = zero
  /\ p_price (snd (Product.set_price (VBool true) this)) = Num.of_Z 1
  /\ p_price (snd (Product.set_price (VStr (js "abc")) this)) = p_price this.
Proof.
  assert (Heq : Product.set_price val this
     = match Number_of val with
       | Throw e => (Throw e, this)
       | Ok num =>
           if isNaN num || lt num zero then (Throw InvalidPrice, this)
           else (Ok tt, Product.with_price (round2 num) this)
       end).
  { unfold Product.set_price, Product.checked_price.
    destruct (Number_of val) as [num|e]; [|done].
    by destruct (isNaN num || lt num zero). }
  split; [|split; [exact Heq|]].
  { rewrite Heq. split.
    - intros (e & this' & Hrun & Hkind).
      destruct (Number_of val) as [num|e0] eqn:Hnum.
      + exists num. split; [done|].
        destruct (isNaN num); [by left|].
        destruct (lt num zero); [by right|]. simpl in Hrun. congruence.
      + injection Hrun as <- <-.
        apply Number_of_throws in Hnum. congruence.
    - intros (num & -> & Hbad). exists InvalidPrice, this.
      split; [|done].
      destruct Hbad as [-> | ->]; [done|]. by rewrite orb_true_r. }
  do 5 (split; [by vm_compute|]).
  split; [|split].
  - rewrite Heq. destruct (Number_of val) as [num|e]; [|done].
    destruct (isNaN num || lt num zero) eqn:Hbad; [done|].
    apply orb_false_elim in Hbad as [Hnan Hlt]. by exists num.
  - rewrite Heq. destruct (Number_of val) as [num|e]; [|done].
    by destruct (isNaN num || lt num zero).
  - repeat split; by vm_compute.
Qed.

End PriceProps.

(** ** Dates: [toISOString] and back *)
Section DateProps.
Import Str Date.

Lemma all_below_spec (n : N) (P : N -> bool) :
  all_below n P = true -> forall k : N, (k < n)%N -> P k = true.
Proof.
  unfold all_below.
  set (f := fun '(k, b) => (N.succ k, b && P k)).
  assert (Hfst : forall n, fst (N.iter n f (0%N, true)) = n).
  { intros m. induction m as [|m IH] using N.peano_ind; [done|].
    rewrite N.iter_succ. destruct (N.iter m f (0%N, true)) as [k b].
    simpl in *. by subst. }
  induction n as [|n IH] using N.peano_ind; intros Hall k Hk; [lia|].
  rewrite N.iter_succ in Hall. specialize (Hfst n).
  destruct (N.iter n f (0%N, true)) as [k0 b]. simpl in *. subst k0.
  apply andb_prop in Hall as [Hb Hn].
  destruct (decide (k = n)) as [->|Hne]; [done|].
  apply IH; [done|lia].
Qed.

Lemma read_digits_app (w : nat) (acc v : Z) (s r rest : jsstring) :
  read_digits w acc s = Some (v, r) ->
  read_digits w acc (s ++ rest) = Some (v, r ++ rest).
Proof.
  revert acc s. induction w as [|w IH]; simpl; intros acc s.
  - by intros [= <- <-].
  - destruct s as [|c s]; [done|]. simpl.
    destruct (digit_value c) as [d|]; [|done]. simpl. apply IH.
Qed.

Lemma read_year_app (v : Z) (s r rest : jsstring) :
  read_year s = Some (v, r) -> read_year (s ++ rest) = Some (v, r ++ rest).
Proof.
  unfold read_year. destruct s as [|c s]; [done|].
  rewrite <- app_comm_cons.
  destruct (c =? 43)%N; [apply read_digits_app|].
  destruct (c =? 45)%N.
  - intros Hr.
    destruct (read_digits 6 0 s) as [[y r0]|] eqn:Hy; [|done].
    rewrite (read_digits_app _ _ _ _ _ rest Hy). simpl in *.
    destruct (y =? 0); [done|]. by injection Hr as <- <-.
  - apply (read_digits_app 4 0 v (c :: s) r rest).
Qed.

Lemma starts_with_app (t s : jsstring) : starts_with (t ++ s) t = true.
Proof.
  induction t as [|c t IH]; simpl; [by destruct s|]. by rewrite N.eqb_refl, IH.
Qed.

Lemma expect_js (c : string) (s : jsstring) : expect c (js c ++ s) = Some s.
Proof.
  unfold expect. rewrite starts_with_app. f_equal. apply drop_app_length.
Qed.

Lemma pad2_reads_back : all_below 100 (reads_back 2) = true.
Proof. vm_cast_no_check (eq_refl true). Qed.

Lemma pad3_reads_back : all_below 1000 (reads_back 3) = true.
Proof. vm_cast_no_check (eq_refl true). Qed.

Lemma pad6_reads_back : all_below 300000 (reads_back 6) = true.
Proof. vm_cast_no_check (eq_refl true). Qed.

Lemma year4_reads_back :
  all_below 10000
    (fun n => bool_decide (read_year (pad 4 n) = Some (Z.of_N n, []))) = true.
Proof. vm_cast_no_check (eq_refl true). Qed.

Lemma read_pad (w : nat) (bound : N) (n : Z) (rest : jsstring) :
  all_below bound (reads_back w) = true ->
  0 <= n < Z.of_N bound ->
  read_digits w 0 (pad w (Z.to_N n) ++ rest) = Some (n, rest).
Proof.
  intros Hall Hn.
  pose proof (all_below_spec _ _ Hall (Z.to_N n) ltac:(lia)) as Hk.
  apply bool_decide_eq_true in Hk.
  rewrite (read_digits_app _ _ _ _ _ rest Hk). simpl. f_equal. f_equal. lia.
Qed.

Lemma read_print_year (y : Z) (rest : jsstring) :
  -300000 < y < 300000 ->
  read_year (print_year y ++ rest) = Some (y, rest).
Proof.
  intros Hy. unfold print_year.
  destruct ((0 <=? y) && (y <=? 9999)) eqn:Hsmall.
  - apply andb_prop in Hsmall as [H0 H1].
    pose proof (all_below_spec _ _ year4_reads_back (Z.to_N y) ltac:(lia)) as Hk.
    apply bool_decide_eq_true in Hk.
    rewrite (read_year_app _ _ _ rest Hk). simpl. f_equal. f_equal. lia.
  - destruct (y <? 0) eqn:Hneg.
    + change (js "-" ++ pad 6 (Z.abs_N y)) with (45%N :: pad 6 (Z.abs_N y)).
      rewrite <- app_comm_cons. unfold read_year.
      replace (Z.abs_N y) with (Z.to_N (- y)) by lia.
      rewrite (read_pad 6 300000 _ _ pad6_reads_back) by lia. simpl.
      destruct (- y =? 0) eqn:Hz; [lia|]. f_equal. f_equal. lia.
    + change (js "+" ++ pad 6 (Z.abs_N y)) with (43%N :: pad 6 (Z.abs_N y)).
      rewrite <- app_comm_cons. unfold read_year.
      replace (Z.abs_N y) with (Z.to_N y) by lia.
      by rewrite (read_pad 6 300000 _ _ pad6_reads_back) by lia.
Qed.

Lemma era_round_trips : all_below 146097 doe_round_trips = true.
Proof. vm_cast_no_check (eq_refl true). Qed.

Lemma is_leap_era (y k : Z) : is_leap (y + k * 400) = is_leap y.
Proof.
  unfold is_leap.
  replace ((y + k * 400) mod 4) with (y mod 4)
    by (replace (k * 400) with (k * 100 * 4) by lia;
        by rewrite Z.mod_add by lia).
  replace ((y + k * 400) mod 100) with (y mod 100)
    by (replace (k * 400) with (k * 4 * 100) by lia;
        by rewrite Z.mod_add by lia).
  by rewrite Z.mod_add by lia.
Qed.

Lemma civil_round_trip (z : Z) :
  let '(y, m, d) := civil_from_days z in
  days_from_civil y m d = z
  /\ 1 <= m <= 12 /\ 1 <= d <= days_in_month y m
  /\ (z + epoch_shift) / era_days * 400 <= y
      <= (z + epoch_shift) / era_days * 400 + 400.
Proof.
  unfold civil_from_days, days_from_civil.
  set (era := (z + epoch_shift) / era_days).
  set (doe := (z + epoch_shift) mod era_days).
  assert (Hdoe : 0 <= doe < era_days)
    by (apply Z.mod_pos_bound; unfold era_days; lia).
  assert (Hz : z = era * era_days + doe - epoch_shift).
  { pose proof (Z.div_mod (z + epoch_shift) era_days) as Hdm.
    unfold era, doe. unfold era_days in *. lia. }
  pose proof (all_below_spec _ _ era_round_trips (Z.to_N doe)
                ltac:(unfold era_days in Hdoe; lia)) as Hrt.
  unfold doe_round_trips in Hrt. rewrite Z2N.id in Hrt by lia.
  destruct (civil_of_doe doe) as [[yoe m] d].
  repeat (apply andb_prop in Hrt as [Hrt ?]).
  set (c := if m <=? 2 then 1 else 0) in *.
  replace (yoe + era * 400 + c - c) with (yoe + era * 400) by lia.
  rewrite Z.div_add, Z.mod_add by lia.
  rewrite Z.div_small, Z.mod_small by lia.
  replace (days_in_month (yoe + era * 400 + c) m)
    with (days_in_month (yoe + c) m).
  2:{ unfold days_in_month.
      replace (yoe + era * 400 + c) with (yoe + c + era * 400) by lia.
      by rewrite is_leap_era. }
  assert (0 <= c <= 1) by (unfold c; destruct (m <=? 2); lia).
  repeat split; try lia.
Qed.

(** A Date's text reads back as its time value. *)
Theorem parse_print_iso (t : Z) :
  in_range t -> parse_iso (print_iso t) = Some t.
Proof.
  unfold in_range, max_time. intros Ht.
  unfold print_iso, parse_iso.
  pose proof (civil_round_trip (t / ms_per_day)) as Hc.
  assert (Hday : -100000000 <= t / ms_per_day <= 100000000).
  { unfold ms_per_day. split.
    - apply Z.div_le_lower_bound; lia.
    - apply Z.div_le_upper_bound; lia. }
  assert (Hera : -685 <= (t / ms_per_day + epoch_shift) / era_days <= 690).
  { unfold epoch_shift, era_days. split.
    - apply Z.div_le_lower_bound; lia.
    - apply Z.div_le_upper_bound; lia. }
  destruct (civil_from_days (t / ms_per_day)) as [[y m] d].
  destruct Hc as (Hdays & Hm & Hd & Hy).
  assert (Hd31 : d <= 31).
  { unfold days_in_month in Hd.
    repeat match type of Hd with context [if ?c then _ else _] => destruct c end;
      lia. }
  set (r := t mod ms_per_day).
  assert (Hr : 0 <= r < ms_per_day)
    by (apply Z.mod_pos_bound; unfold ms_per_day; lia).
  unfold ms_per_day in Hr.
  assert (Hh : 0 <= r / 3600000 < 24)
    by (split; [apply Z.div_pos; lia | apply Z.div_lt_upper_bound; lia]).
  assert (Hmi : 0 <= r / 60000 mod 60 < 60) by (apply Z.mod_pos_bound; lia).
  assert (Hs : 0 <= r / 1000 mod 60 < 60) by (apply Z.mod_pos_bound; lia).
  assert (Hms : 0 <= r mod 1000 < 1000) by (apply Z.mod_pos_bound; lia).
  change (js "Z") with (js "Z" ++ []).
  rewrite read_print_year by lia.
  repeat (rewrite ?expect_js, ?(read_pad 2 100 _ _ pad2_reads_back),
            ?(read_pad 3 1000 _ _ pad3_reads_back) by lia;
          cbn [mbind option_bind]).
  rewrite Hdays.
  assert (Ht' : t / ms_per_day * ms_per_day + r / 3600000 * 3600000
                + r / 60000 mod 60 * 60000 + r / 1000 mod 60 * 1000
                + r mod 1000 = t).
  { pose proof (Z.div_mod t ms_per_day) as Hdm. fold r in Hdm.
    unfold ms_per_day in *. Z.div_mod_to_equations. lia. }
  rewrite Ht'.
  replace ((1 <=? m) && (m <=? 12) && (1 <=? d) && (d <=? days_in_month y m)
           && (r / 60000 mod 60 <=? 59) && (r / 1000 mod 60 <=? 59)) with true
    by (symmetry; repeat (apply andb_true_intro; split); lia).
  replace (r / 3600000 <=? 23) with true by (symmetry; lia).
  simpl.
  assert (Hin : (- max_time <=? t) && (t <=? max_time) = true)
    by (unfold max_time; apply andb_true_intro; split; lia).
  by rewrite Hin.
Qed.

End DateProps.

(** ** Strings: [trim] *)
Section TrimProps.
Import Str.

Lemma drop_white_fixed (s : jsstring) :
  match s with c :: _ => is_white_space c = false | [] => True end ->
  drop_white s = s.
Proof. destruct s as [|c s]; simpl; [done|]. by intros ->. Qed.

Lemma drop_white_head (s : jsstring) :
  match drop_white s with
  | c :: _ => is_white_space c = false
  | [] => True
  end.
Proof.
  induction s as [|c s IH]; simpl; [done|].
  destruct (is_white_space c) eqn:Hc; [done|]. by simpl.
Qed.

Lemma drop_white_suffix (s : jsstring) : drop_white s `suffix_of` s.
Proof.
  induction s as [|c s IH]; simpl; [done|].
  destruct (is_white_space c); [|done]. by apply suffix_cons_r.
Qed.

(** What [trim] returns neither starts nor ends with white space. *)
Lemma trim_trimmed (s : jsstring) :
  drop_white (trim s) = trim s
  /\ drop_white (reverse (trim s)) = reverse (trim s).
Proof.
  unfold trim. rewrite reverse_involutive.
  set (a := drop_white s).
  pose proof (drop_white_head s) as Ha. fold a in Ha.
  pose proof (drop_white_head (reverse a)) as Hb.
  pose proof (drop_white_suffix (reverse a)) as [k Hk].
  set (b := drop_white (reverse a)) in *.
  split; [|by apply drop_white_fixed].
  apply drop_white_fixed.
  destruct (reverse b) as [|c t] eqn:Hrb; [done|].
  assert (Hra : a = reverse b ++ reverse k).
  { rewrite <- reverse_app, <- Hk. by rewrite reverse_involutive. }
  rewrite Hrb in Hra. rewrite Hra in Ha. exact Ha.
Qed.

Lemma trim_idem (s : jsstring) : trim (trim s) = trim s.
Proof.
  destruct (trim_trimmed s) as [H1 H2].
  unfold trim at 1. rewrite H1, H2. apply reverse_involutive.
Qed.

End TrimProps.

(** ** Numbers: multiplying by one *)
Section MulOne.
Import Num.

Lemma succ_iter (k : nat) (p : positive) :
  Zpos (Nat.iter k Pos.succ p) = Zpos p + Z.of_nat k.
Proof. induction k; simpl; lia. Qed.

Lemma digits2_pos_shift52 (m : positive) :
  Zpos (digits2_pos (4503599627370496 * m)) = Zpos (digits2_pos m) + 52.
Proof.
  change (digits2_pos (4503599627370496 * m))
    with (Nat.iter 52 Pos.succ (digits2_pos m)).
  by rewrite succ_iter.
Qed.

Lemma shr_52 (m : positive) :
  SpecFloat.iter_pos shr_1 52
    {| shr_m := Zpos (4503599627370496 * m); shr_r := false; shr_s := false |}
  = {| shr_m := Zpos m; shr_r := false; shr_s := false |}.
Proof. reflexivity. Qed.

(** A product by 1 is exact: the significand, shifted by 52 bits, rounds
    back to itself. *)
Lemma mul_one (x : number) : valid x = true -> mul x one = x.
Proof.
  destruct x as [[]|[]| |s m e]; try reflexivity.
  unfold valid, valid_binary, bounded, canonical_mantissa.
  intros Hb. apply andb_prop in Hb as [Hc He].
  apply Z.eqb_eq in Hc. apply Z.leb_le in He.
  change (mul (S754_finite s m e) one)
    with (binary_round_aux prec emax (xorb s false)
            (Zpos (m * 4503599627370496)) (e + -52) loc_Exact).
  rewrite xorb_false_r, Pos.mul_comm.
  unfold binary_round_aux, shr_fexp.
  unfold Zdigits2 at 1. rewrite digits2_pos_shift52.
  replace (Z.pos (digits2_pos m) + 52 + (e + -52))
    with (Z.pos (digits2_pos m) + e) by lia.
  rewrite Hc. replace (e - (e + -52)) with 52 by lia.
  cbn [shr shr_record_of_loc]. rewrite shr_52.
  cbn [shr_m loc_of_shr_record round_nearest_even Zdigits2].
  replace (e + -52 + 52) with e by lia.
  rewrite Hc, Z.sub_diag. cbn [shr shr_record_of_loc shr_m].
  by rewrite (proj2 (Z.leb_le _ _) He).
Qed.

End MulOne.

(** ** Product *)
Section ProductProps.
Context `{Host}.
Import Num Str Val Date Conv.

Lemma checked_name_ok (val : value) (n : jsstring) :
  Product.checked_name val = Ok n ->
  exists s, val = VStr s /\ n = trim s /\ (2 <= length n)%nat.
Proof.
  unfold Product.checked_name.
  destruct val as [[| | | |s| |]| | |]; try done.
  destruct (negb (to_boolean (VPrim (PStr s))) || (length (trim s) <? 2)%nat)
    eqn:Hbad; [done|].
  intros [= <-]. exists s. repeat split.
  apply orb_false_elim in Hbad as [_ Hlen].
  apply Nat.ltb_ge in Hlen. lia.
Qed.

Lemma checked_name_throws (val : value) (e : exn) :
  Product.checked_name val = Throw e -> e = InvalidName.
Proof.
  unfold Product.checked_name.
  destruct val as [[| | | |s| |]| | |]; try (by intros [= <-]).
  destruct (_ || _); [by intros [= <-]|done].
Qed.

Lemma checked_price_ok (val : value) (x : number) :
  Product.checked_price val = Ok x ->
  exists num, Number_of val = Ok num /\ ge num zero = true /\ x = round2 num.
Proof.
  unfold Product.checked_price.
  destruct (Number_of val) as [num|]; [|done].
  destruct (isNaN num || lt num zero) eqn:Hbad; [done|].
  intros [= <-]. exists num. repeat split.
  apply orb_false_elim in Hbad. by apply ge_zero_iff.
Qed.

(** A text of fewer than two code units once trimmed, and anything that
    is not a text, is no name; NaN and a negative number are no price. *)
Lemma invalid_input_rejected (val : value) :
  ((forall s, val = VStr s -> (length (trim s) < 2)%nat) ->
     Product.checked_name val = Throw InvalidName)
  /\ (forall num, Number_of val = Ok num -> ge num zero = false ->
        Product.checked_price val = Throw InvalidPrice).
Proof.
  split.
  - intros Hs. unfold Product.checked_name.
    destruct val as [[| | | |s| |]| | |]; try done.
    specialize (Hs s eq_refl). apply Nat.ltb_lt in Hs. rewrite Hs.
    by rewrite orb_true_r.
  - intros num Hnum Hneg. unfold Product.checked_price. rewrite Hnum.
    destruct (isNaN num || lt num zero) eqn:Hbad; [done|].
    apply orb_false_elim in Hbad. apply ge_zero_iff in Hbad. congruence.
Qed.

(** The constructor establishes the Product.invariant. *)
Lemma construct_invariant (f : fields) (random : number) (now : date)
    (p : product) :
  Product.construct f random now = Ok p ->
  Product.invariant p /\ trim (p_name p) = p_name p
  /\ p_id p = default (Product.generateId random) (f_id f).
Proof.
  unfold Product.construct.
  destruct (Product.checked_name (f_name f)) as [n|] eqn:Hn; [|done].
  destruct (Product.checked_price (f_price f)) as [x|] eqn:Hx; [|done].
  intros [= <-]. unfold Product.invariant; simpl.
  apply checked_name_ok in Hn as (s & _ & -> & Hlen).
  apply checked_price_ok in Hx as (num & _ & Hge & ->).
  rewrite trim_idem. repeat split; [by apply round2_nonneg|done].
Qed.



(** [applyDiscount] writes the price only, and nothing when it throws. *)
Lemma applyDiscount_atomic (percent : value) (this : product) :
  match Product.applyDiscount percent this with
  | (Ok x, this') =>
      x = p_price this'
      /\ p_id this' = p_id this /\ p_name this' = p_name this
      /\ p_owner this' = p_owner this /\ p_createdAt this' = p_createdAt this
  | (Throw e, this') => this' = this
  end.
Proof.
  unfold Product.applyDiscount.
  destruct (Number_of percent) as [p|]; [|done].
  by destruct (isNaN p || lt p zero || gt p (Num.of_Z 100)).
Qed.

(** C1. A Product can be constructed with the price [Infinity], which is
    [>= 0]; [applyDiscount(100)] then multiplies it by 0: the call
    succeeds, returns NaN and leaves the price NaN, for which
    [price >= 0] is false. *)
Theorem applyDiscount_breaks_price_invariant
    (id : jsstring) (random : number) (now : date) :
  let f := {| f_id := Some id; f_name := VStr (js "Gold");
              f_price := VNum infinity; f_owner := undefined;
              f_createdAt := None |} in
  let p := {| p_id := id; p_name := js "Gold"; p_price := infinity;
              p_owner := VStr (js "unknown"); p_createdAt := now |} in
  Product.construct f random now = Ok p
  /\ Product.invariant p
  /\ Product.applyDiscount (VNum (Num.of_Z 100)) p
     = (Ok nan, Product.with_price nan p)
  /\ ge (p_price (Product.with_price nan p)) zero = false
  /\ ~ Product.invariant (Product.with_price nan p).
Proof.
  intros f p. split; [|split; [|split; [|split]]].
  - reflexivity.
  - unfold Product.invariant. split; [reflexivity|]. vm_compute. lia.
  - reflexivity.
  - reflexivity.
  - intros [Hprice _]. by vm_compute in Hprice.
Qed.

End ProductProps.

(** ** Product: discounts, records and ids *)
Section ProductProps2.
Context `{Host}.
Import Num Str Val Date Conv.

Lemma with_price_same (this : product) :
  Product.with_price (p_price this) this = this.
Proof. by destruct this. Qed.

(** C2 (as amended: the percentage is what [Number] makes of the
    argument).  [applyDiscount(percent)] raises the validation error
    exactly when [Number(percent)] is NaN, below 0 or above 100; if
    [Number(percent)] itself throws, so does the call; otherwise the
    price becomes [price * (1 - percent / 100)] rounded to two decimals and
    is returned.  50 on a price of 10 gives 5, 150 is rejected, and 0
    returns and leaves a price that is rounded to two decimals. *)
Theorem applyDiscount_spec (percent : value) (this : product) :
  Product.applyDiscount percent this
  = match Number_of percent with
    | Throw e => (Throw e, this)
    | Ok p =>
        if isNaN p || lt p zero || gt p (Num.of_Z 100)
        then (Throw InvalidDiscount, this)
        else
          let price :=
            round2 (mul (p_price this)
                        (sub (Num.of_Z 1) (div p (Num.of_Z 100)))) in
          (Ok price, Product.with_price price this)
    end
  /\ ((exists e this', Product.applyDiscount percent this = (Throw e, this')
                       /\ kind_of e = ValidationError)
      <-> exists p, Number_of percent = Ok p
                    /\ (isNaN p = true \/ lt p zero = true
                        \/ gt p (Num.of_Z 100) = true))
  /\ Product.applyDiscount (VNum (Num.of_Z 50))
       (Product.with_price (Num.of_Z 10) this)
     = (Ok (Num.of_Z 5), Product.with_price (Num.of_Z 5) this)
  /\ Product.applyDiscount (VNum (Num.of_Z 150)) this
     = (Throw InvalidDiscount, this)
  /\ (valid (p_price this) = true -> round2 (p_price this) = p_price this ->
      Product.applyDiscount (VNum zero) this = (Ok (p_price this), this)).
Proof.
  assert (Heq : Product.applyDiscount percent this
  = match Number_of percent with
    | Throw e => (Throw e, this)
    | Ok p =>
        if isNaN p || lt p zero || gt p (Num.of_Z 100)
        then (Throw InvalidDiscount, this)
        else
          let price :=
            round2 (mul (p_price this)
                        (sub (Num.of_Z 1) (div p (Num.of_Z 100)))) in
          (Ok price, Product.with_price price this)
    end).
  { unfold Product.applyDiscount.
    destruct (Number_of percent) as [p|]; [|done].
    by destruct (isNaN p || lt p zero || gt p (Num.of_Z 100)). }
  split; [exact Heq|]. split; [|split; [|split]].
  - rewrite Heq. split.
    + intros (e & this' & Hrun & Hkind).
      destruct (Number_of percent) as [p|e0] eqn:Hp.
      * exists p. split; [done|].
        destruct (isNaN p); [by left|].
        destruct (lt p zero); [by right; left|].
        destruct (gt p (Num.of_Z 100)); [by right; right|].
        simpl in Hrun. congruence.
      * injection Hrun as <- <-. apply Number_of_throws in Hp. congruence.
    + intros (p & -> & Hbad). exists InvalidDiscount, this. split; [|done].
      destruct Hbad as [-> | [-> | ->]]; [done| |];
        by rewrite ?orb_true_r.
  - by destruct this.
  - reflexivity.
  - intros Hvalid Hrounded. unfold Product.applyDiscount.
    change (Number_of (VNum zero)) with (Ok zero). cbv beta iota.
    change (isNaN zero || lt zero zero || gt zero (Num.of_Z 100)) with false.
    change (sub (Num.of_Z 1) (div zero (Num.of_Z 100))) with one.
    cbv beta iota. simpl. rewrite (mul_one _ Hvalid), Hrounded.
    by rewrite with_price_same.
Qed.

Lemma checked_name_trimmed (n : jsstring) :
  trim n = n -> (2 <= length n)%nat ->
  Product.checked_name (VPrim (PStr n)) = Ok n.
Proof.
  intros Htrim Hlen. unfold Product.checked_name. rewrite Htrim.
  replace (length n <? 2)%nat with false by (symmetry; apply Nat.ltb_ge; lia).
  destruct n; [simpl in Hlen; lia|done].
Qed.

Lemma checked_price_rounded (x : number) :
  ge x zero = true -> round2 x = x ->
  Product.checked_price (VPrim (PNum x)) = Ok x.
Proof.
  intros Hge Hround. unfold Product.checked_price. simpl.
  apply ge_zero_iff in Hge as [-> ->]. simpl. by rewrite Hround.
Qed.

Lemma print_iso_not_empty (t : Z) : print_iso t <> [].
Proof.
  unfold print_iso. destruct (civil_from_days _) as [[y m] d].
  change (js "-") with [45%N]. by destruct (print_year y).
Qed.

(** C3. [fromJSON(toJSON(p))] of a valid Product is a Product with the
    same id, name, price, owner and creation time; [toJSON] gives the
    time as its ISO text, which [fromJSON] parses back to the same
    millisecond. *)
Theorem fromJSON_toJSON (p : product) (random : number) (now : date) :
  Product.well_formed p ->
  exists (j : json) (t : Z),
    Product.toJSON p = Ok j
    /\ p_createdAt p = Some t
    /\ j_createdAt j = Some (print_iso t)
    /\ date_of_string (print_iso t) = Some t
    /\ Product.fromJSON j random now = Ok p.
Proof.
  intros (Htrim & Hlen & Hge & Hround & Howner & t & Ht & Hrange).
  destruct p as [id name price owner created]; simpl in *. subst created.
  assert (Hparse : date_of_string (print_iso t) = Some t)
    by (unfold date_of_string; by rewrite parse_print_iso).
  eexists _, t. split; [reflexivity|]. repeat split; [done|].
  unfold Product.fromJSON, Product.construct.
  cbn [f_id f_name f_price f_owner f_createdAt j_id j_name j_price j_owner
       j_createdAt Product.createdAt_of_json].
  cbn [p_id p_name p_price p_owner p_createdAt]. unfold VStr, VNum.
  rewrite (checked_name_trimmed name), (checked_price_rounded price) by done.
  rewrite Howner.
  pose proof (print_iso_not_empty t) as Hne.
  destruct (print_iso t) as [|c s] eqn:Hiso; [done|]. simpl.
  by rewrite Hparse.
Qed.


End ProductProps2.

(** ** User and AdminUser *)
Section UserProps.
Context `{Host}.
Import Num Str Val Date Conv.

(** Removing the one occurrence of [x] keeps the others, in order. *)
Lemma delete_filter_NoDup (ps : list loc) (i : nat) (x : loc) :
  NoDup ps -> ps !! i = Some x ->
  base.delete i ps = filter (fun y => y <> x) ps.
Proof.
  intros Hnd. revert i. induction Hnd as [|y ps Hy Hnd IH]; intros i Hi.
  - done.
  - destruct i as [|i]; simpl in *.
    + injection Hi as ->. rewrite filter_cons_False by (intros Hne; by apply Hne).
      symmetry. clear IH Hnd. induction ps as [|z ps IH]; [done|].
      rewrite filter_cons_True by (intros ->; apply Hy; left).
      f_equal. apply IH. intros Hin. apply Hy. by right.
    + rewrite filter_cons_True.
      * f_equal. by apply IH.
      * intros ->. apply Hy. by apply list_elem_of_lookup_2 in Hi.
Qed.

Lemma state_put_back (st : state) (l : loc) (p : product) :
  products st !! l = Some p -> set_products <[l := p]> st = st.
Proof. intros Hl. destruct st. unfold set_products; simpl in *. by rewrite insert_id. Qed.

(** C5. [deleteProduct(id)] throws the not-found error when no product
    of the user has the id; when one has, it returns that product and
    removes it from the collection, which keeps the others in their
    order: [listProducts()] afterwards is the collection without it. *)
Theorem deleteProduct_spec
    (this : loc) (productId : value) (st : state) (u : user) :
  users st !! this = Some u -> NoDup (u_products u) ->
  ((forall l, l ∈ u_products u -> Product.has_id st productId l = false) ->
     User.deleteProduct this productId st = (Throw ProductNotFound, st)
     /\ kind_of ProductNotFound = NotFoundError)
  /\ ((exists l, l ∈ u_products u /\ Product.has_id st productId l = true) ->
      exists (deleted : loc) (st' : state),
        User.deleteProduct this productId st = (Ok deleted, st')
        /\ deleted ∈ u_products u
        /\ Product.has_id st productId deleted = true
        /\ products st' = products st /\ repos st' = repos st
        /\ (forall other, other <> this -> users st' !! other = users st !! other)
        /\ User.listProducts this st'
           = (Ok (filter (fun l => l <> deleted) (u_products u)), st')
        /\ deleted ∉ filter (fun l => l <> deleted) (u_products u)).
Proof.
  intros Hu Hnd. unfold User.deleteProduct, User.listProducts, User.at_,
    User.put_products. run. rewrite Hu.
  destruct (list_find _ (u_products u)) as [[i l]|] eqn:Hfind.
  - apply list_find_Some in Hfind as (Hi & Hl & _).
    split.
    + intros Hnone. apply list_elem_of_lookup_2 in Hi.
      rewrite (Hnone l Hi) in Hl. done.
    + intros _. eexists l, _. split; [reflexivity|]. simpl.
      repeat split; try done.
      * by apply list_elem_of_lookup_2 in Hi.
      * intros other Hne. by rewrite lookup_alter_ne.
      * rewrite lookup_alter_eq, Hu. simpl.
        by rewrite (delete_filter_NoDup _ _ _ Hnd Hi).
      * rewrite list_elem_of_filter. tauto.
  - apply list_find_None in Hfind. split; [done|].
    intros (l & Hin & Hl). rewrite Forall_forall in Hfind.
    by apply Hfind in Hl.
Qed.

(** C7 (as amended: any User can be the target, the admin too).  Called
    on an AdminUser, [deleteProductFromUser(targetUser, id)] throws the
    type-mismatch error when [targetUser] is no instance of [User], and
    is [targetUser.deleteProduct(id)] otherwise, with its not-found
    error; the admin's own collection is a target as any other. *)
Theorem deleteProductFromUser_spec
    (this : loc) (targetUser productId : value) (st : state) (a : user) :
  users st !! this = Some a -> u_admin a = true ->
  AdminUser.deleteProductFromUser this targetUser productId st
  = match targetUser with
    | VUser target => User.deleteProduct target productId st
    | _ => (Throw TargetNotUser, st)
    end
  /\ kind_of TargetNotUser = TypeMismatchError
  /\ AdminUser.deleteProductFromUser this (VUser this) productId st
     = User.deleteProduct this productId st.
Proof.
  intros Ha Hadmin.
  unfold AdminUser.deleteProductFromUser, User.at_. run.
  rewrite Ha, Hadmin. simpl. by destruct targetUser.
Qed.

End UserProps.

(** ** ProductService *)
Section ServiceProps.
Context `{Host}.
Import Num Str Val Date Conv ProductRepository ProductService.

Lemma state_put_store_back (st : state) (r : loc) (s : store) :
  repos st !! r = Some s -> set_repos <[r := s]> st = st.
Proof. intros Hr. destruct st. unfold set_repos; simpl in *. by rewrite insert_id. Qed.

Lemma new_ok (f : fields) (random : number) (now : date) (st : state)
    (p : product) :
  Product.construct f random now = Ok p ->
  Product.new f random now st
  = (Ok (fresh (dom (products st))),
     set_products <[fresh (dom (products st)) := p]> st).
Proof. intros Hp. unfold Product.new. by rewrite Hp. Qed.

Lemma on_ok {A} (l : loc) (m : M product A) (st : state) (p : product) :
  products st !! l = Some p ->
  Product.on l m st = let '(r, p') := m p in (r, set_products <[l := p']> st).
Proof. intros Hp. unfold Product.on. by rewrite Hp. Qed.

Lemma create_ok (r l : loc) (st : state) (p : product) (s : store) :
  products st !! l = Some p -> repos st !! r = Some s ->
  create r (VProduct l) st
  = (Ok l, set_repos <[r := map_set (p_id p) l s]> st).
Proof.
  intros Hp Hs. unfold create, id_of, at_, put_store. run. by rewrite Hp, Hs.
Qed.

Lemma getById_ok (r : loc) (id : value) (st : state) (s : store) :
  repos st !! r = Some s ->
  getById r id st = (Ok (k ← Product.key_of id; map_get k s), st).
Proof. intros Hs. unfold getById, at_. run. by rewrite Hs. Qed.

Lemma update_ok (r l : loc) (st : state) (p : product) (s : store) (l' : loc) :
  products st !! l = Some p -> repos st !! r = Some s ->
  map_get (p_id p) s = Some l' ->
  update r (VProduct l) st
  = (Ok l, set_repos <[r := map_set (p_id p) l s]> st).
Proof.
  intros Hp Hs Hk. unfold update, id_of, at_, put_store, map_has. run.
  by rewrite Hp, Hs, Hk.
Qed.

(** A discount of 10 per cent on 120 is 108. *)
Lemma discount_120_by_10 (p : product) :
  p_price p = Num.of_Z 120 ->
  Product.applyDiscount (VNum (Num.of_Z 10)) p
  = (Ok (Num.of_Z 108), Product.with_price (Num.of_Z 108) p).
Proof.
  intros Hp. unfold Product.applyDiscount.
  change (Number_of (VNum (Num.of_Z 10))) with (Ok (Num.of_Z 10)).
  cbv beta iota.
  change (isNaN (Num.of_Z 10) || lt (Num.of_Z 10) zero
          || gt (Num.of_Z 10) (Num.of_Z 100)) with false.
  cbv beta iota zeta. rewrite Hp.
  change (round2 (mul (Num.of_Z 120)
                    (sub (Num.of_Z 1) (div (Num.of_Z 10) (Num.of_Z 100)))))
    with (Num.of_Z 108).
  reflexivity.
Qed.

(** What [applyDiscount] leaves as the price when it returns. *)
Lemma applyDiscount_price (percent : value) (this : product) :
  match Product.applyDiscount percent this with
  | (Ok x, this') =>
      exists pct, Number_of percent = Ok pct
        /\ x = round2 (mul (p_price this)
                           (sub (Num.of_Z 1) (div pct (Num.of_Z 100))))
        /\ p_price this' = x
  | (Throw _, _) => True
  end.
Proof.
  unfold Product.applyDiscount.
  destruct (Number_of percent) as [pct|]; [|done].
  destruct (isNaN pct || lt pct zero || gt pct (Num.of_Z 100)); [done|].
  by exists pct.
Qed.

(** C6. [discount(id, percent)] throws the not-found error when the
    repository has no product under [id]; otherwise it calls the
    product's [applyDiscount] and, with [update], keeps the product so
    discounted under its id: the product found under the id afterwards
    has the price [price * (1 - percent / 100)] rounded to two decimals,
    and its id, name, owner and Date as before.  After
    [addNewProduct("Watch", 120, "Mona")], [discount(id, 10)] leaves the
    price 108 stored under the id. *)
Theorem discount_spec
    (this : service) (id percent : value) (st : state) (s : store)
    (random : number) (now : date) :
  repos st !! repo this = Some s ->
  (forall k l, map_get k s = Some l ->
               exists p, products st !! l = Some p /\ p_id p = k) ->
  match k ← Product.key_of id; map_get k s with
  | None =>
      discount this id percent st = (Throw ProductNotFound, st)
      /\ kind_of ProductNotFound = NotFoundError
  | Some l =>
      exists p, products st !! l = Some p /\
        match Product.applyDiscount percent p with
        | (Throw e, _) => discount this id percent st = (Throw e, st)
        | (Ok _, p') =>
            discount this id percent st = (Ok l, set_products <[l := p']> st)
            /\ getById (repo this) id (set_products <[l := p']> st)
               = (Ok (Some l), set_products <[l := p']> st)
            /\ products (set_products <[l := p']> st) !! l = Some p'
            /\ (exists pct, Number_of percent = Ok pct
                  /\ p_price p'
                     = round2 (mul (p_price p)
                                   (sub (Num.of_Z 1) (div pct (Num.of_Z 100)))))
            /\ p_id p' = p_id p /\ p_name p' = p_name p
            /\ p_owner p' = p_owner p /\ p_createdAt p' = p_createdAt p
        end
  end
  /\ exists (l : loc) (p : product) (st1 st2 : state),
       addNewProduct this (VStr (js "Watch")) (VNum (Num.of_Z 120))
                     (VStr (js "Mona")) random now st = (Ok l, st1)
       /\ products st1 !! l = Some p
       /\ p_name p = js "Watch" /\ p_price p = Num.of_Z 120
       /\ discount this (VStr (p_id p)) (VNum (Num.of_Z 10)) st1 = (Ok l, st2)
       /\ getById (repo this) (VStr (p_id p)) st2 = (Ok (Some l), st2)
       /\ products st2 !! l = Some (Product.with_price (Num.of_Z 108) p)
       /\ exists stored : product,
            products st2 !! l = Some stored
            /\ p_price stored = Num.of_Z 108
            /\ p_name stored = js "Watch" /\ p_id stored = p_id p.
Proof.
  intros Hs Hwf. split.
  - unfold discount, getById, update, at_, id_of, put_store, Product.on. run.
    rewrite Hs.
    destruct (Product.key_of id) as [k|] eqn:Hk; simpl; [|done].
    destruct (map_get k s) as [l|] eqn:Hl; simpl; [|done].
    destruct (Hwf k l Hl) as (p & Hp & Hid). exists p. split; [done|].
    rewrite Hp.
    pose proof (applyDiscount_atomic percent p) as Hat.
    pose proof (applyDiscount_price percent p) as Hprice.
    destruct (Product.applyDiscount percent p) as [[x|e] p'].
    + destruct Hat as (_ & Hid' & Hname' & Howner' & Hdate').
      destruct Hprice as (pct & Hpct & Hx & Hp').
      assert (Hpr : p_price p'
                    = round2 (mul (p_price p)
                                  (sub (Num.of_Z 1) (div pct (Num.of_Z 100)))))
        by congruence.
      simpl.
      rewrite lookup_insert_eq. simpl. rewrite Hs, Hid', Hid. simpl.
      unfold map_has. rewrite Hl. simpl.
      rewrite (map_set_same _ _ _ Hl).
      rewrite (state_put_store_back (set_products _ st)) by done.
      do 3 (split; [done|]).
      split; [exists pct; split; [exact Hpct|exact Hpr]|].
      done.
    + subst p'. by rewrite state_put_back.
  - set (l := fresh (dom (products st))).
    set (p := {| p_id := Product.generateId random; p_name := js "Watch";
                 p_price := Num.of_Z 120; p_owner := VStr (js "Mona");
                 p_createdAt := now |}).
    set (st0 := set_products <[l := p]> st).
    set (st1 := set_repos <[repo this := map_set (p_id p) l s]> st0).
    set (p2 := Product.with_price (Num.of_Z 108) p).
    assert (Hl1 : products st1 !! l = Some p) by apply lookup_insert_eq.
    assert (Hr1 : repos st1 !! repo this = Some (map_set (p_id p) l s))
      by apply lookup_insert_eq.
    assert (Hget : map_get (p_id p) (map_set (p_id p) l s) = Some l)
      by (by rewrite map_get_set, decide_True).
    exists l, p, st1, (set_products <[l := p2]> st1).
    split; [|split; [done|split; [done|split; [done|split; [|split; [|split]]]]]].
    + unfold addNewProduct. unfold bind at 1.
      rewrite (new_ok _ _ _ _ p) by done. fold l st0.
      by rewrite (create_ok _ l st0 p s) by (done || apply lookup_insert_eq).
    + unfold discount. unfold bind at 1.
      rewrite (getById_ok _ _ _ _ Hr1). cbn [Product.key_of VStr mbind option_bind].
      rewrite Hget. unfold bind at 1.
      rewrite (on_ok _ _ _ _ Hl1), (discount_120_by_10 p) by done.
      rewrite (update_ok _ l _ p2 (map_set (p_id p) l s) l);
        [|apply lookup_insert_eq|done|done].
      change (p_id p2) with (p_id p). rewrite (map_set_same _ _ _ Hget).
      by rewrite (state_put_store_back (set_products _ st1)) by done.
    + by rewrite (getById_ok _ _ _ (map_set (p_id p) l s)), <- Hget.
    + apply lookup_insert_eq.
    + exists p2. split; [apply lookup_insert_eq|done].
Qed.

End ServiceProps.

(** ** Search by name *)
Section SearchProps.
Context `{Host}.
Import Num Str Val Date Conv.

(** [String(v)] of a primitive value never throws. *)
Lemma String_of_prim (p : prim) : is_ok (String_of (VPrim p)) = true.
Proof. by destruct p. Qed.

(** C10 (as amended: the query is any primitive value, or an object
    that converts to one).  [findProductsByName(q)] and
    [findByNameLike(q)] turn [q] into a string with [String] and keep, in
    order, the products whose name in lower case includes the string in
    lower case; they throw only if [String(q)] does, which it does for no
    primitive value: [null] is looked up as ["null"], a number as its
    digits; an object whose conversion throws makes them throw. *)
Theorem search_spec (this : loc) (q : value) (st : state) :
  match users st !! this with
  | Some u =>
      User.findProductsByName this q st
      = match String_of q with
        | Ok s =>
            (Ok (filter (fun l => Product.name_includes st (toLowerCase s) l = true)
                        (u_products u)), st)
        | Throw e => (Throw e, st)
        end
  | None => True
  end
  /\ match repos st !! this with
     | Some s =>
         ProductRepository.findByNameLike this q st
         = match String_of q with
           | Ok t =>
               (Ok (filter (fun l => Product.name_includes st (toLowerCase t) l = true)
                           (s.*2)), st)
           | Throw e => (Throw e, st)
           end
     | None => True
     end
  /\ (forall p : prim, is_ok (String_of (VPrim p)) = true)
  /\ String_of null = Ok (js "null")
  /\ (forall x : number, String_of (VNum x) = Ok (number_to_string x))
  /\ (forall c : conversion, String_of (VObject c Throws) = Throw Foreign).
Proof.
  split; [|split].
  - destruct (users st !! this) as [u|] eqn:Hu; [|done].
    unfold User.findProductsByName, User.at_. run.
    destruct (String_of q); [|done]. by rewrite Hu.
  - destruct (repos st !! this) as [s|] eqn:Hs; [|done].
    unfold ProductRepository.findByNameLike, ProductRepository.getAll,
      ProductRepository.at_. run.
    destruct (String_of q); [|done]. by rewrite Hs.
  - repeat split; try done. apply String_of_prim.
Qed.

End SearchProps.

(** * Examples on a sample host *)

Section Examples.
Import Num Str Val Date Conv SampleHost Demo.

Lemma world_objects :
  fst (setup empty_state) = Ok (1, 2, 1, 1)%positive
  /\ users world !! 1%positive = Some mona
  /\ users world !! 2%positive = Some ziad
  /\ products world !! 1%positive = Some phone_case
  /\ repos world !! 1%positive = Some shelf.
Proof. computed. Qed.


(** The repository of the demo: ["p_i"] is deleted once. *)
Lemma delete_returns_whether_stored_witness :
  repos world !! 1%positive = Some shelf
  /\ exists st',
       ProductRepository.delete 1 (VStr (js "p_i")) world = (Ok true, st')
       /\ ProductRepository.getAll 1 st' = (Ok [2%positive], st')
       /\ exists st'',
            ProductRepository.delete 1 (VStr (js "p_i")) st' = (Ok false, st'').
Proof.
  assert (Hs : repos world !! 1%positive = Some shelf)
    by (vm_compute; reflexivity).
  split; [exact Hs|].
  destruct (delete_returns_whether_stored 1%positive (VStr (js "p_i"))
              world shelf Hs)
    as (st' & Hdel & _ & _ & _ & _ & Hall & Hagain).
  exists st'. split; [exact Hdel|]. split; [exact Hall|exact Hagain].
Defined.

(** Mona deletes her Power Bank. *)
Lemma deleteProduct_spec_witness :
  users world !! 1%positive = Some mona /\ NoDup (u_products mona)
  /\ exists (deleted : loc) (st' : state),
       User.deleteProduct 1 (VStr (js "p_9")) world = (Ok deleted, st')
       /\ Product.has_id world (VStr (js "p_9")) deleted = true
       /\ User.listProducts 1 st'
          = (Ok (filter (fun l => l <> deleted) [1; 2]%positive), st').
Proof.
  assert (Hu : users world !! 1%positive = Some mona)
    by (vm_compute; reflexivity).
  assert (Hnd : NoDup (u_products mona))
    by compute_done.
  split; [exact Hu|]. split; [exact Hnd|].
  destruct (deleteProduct_spec 1%positive (VStr (js "p_9")) world mona Hu Hnd)
    as [_ Hpresent].
  destruct Hpresent as (deleted & st' & Hdel & _ & Hid & _ & _ & _ & Hlist & _).
  { exists 2%positive. split.
    - compute_done.
    - vm_compute. reflexivity. }
  exists deleted, st'. split; [exact Hdel|]. split; [exact Hid|exact Hlist].
Defined.

(** Ziad, an admin, deletes Mona's Phone Case; a text is no target. *)
Lemma deleteProductFromUser_spec_witness :
  users world !! 2%positive = Some ziad /\ u_admin ziad = true
  /\ AdminUser.deleteProductFromUser 2 (VUser 1) (VStr (js "p_i")) world
     = User.deleteProduct 1 (VStr (js "p_i")) world
  /\ AdminUser.deleteProductFromUser 2 (VStr (js "Mona")) (VStr (js "p_i")) world
     = (Throw TargetNotUser, world).
Proof.
  assert (Hz : users world !! 2%positive = Some ziad)
    by (vm_compute; reflexivity).
  split; [exact Hz|]. split; [reflexivity|]. split.
  - exact (proj1 (deleteProductFromUser_spec 2%positive (VUser 1)
                    (VStr (js "p_i")) world ziad Hz eq_refl)).
  - exact (proj1 (deleteProductFromUser_spec 2%positive (VStr (js "Mona"))
                    (VStr (js "p_i")) world ziad Hz eq_refl)).
Defined.

(** The admin adds a product of its own and deletes it through
    [deleteProductFromUser], with itself as the target. *)
Lemma admin_deletes_from_own_collection :
  let added := User.addProduct 2 (VStr (js "Mug")) (VNum (Num.of_Z 7))
                               eighth noon world in
  let deleted := AdminUser.deleteProductFromUser 2 (VUser 2) (VStr (js "p_4i"))
                                                 (snd added) in
  fst added = Ok 3%positive
  /\ User.listProducts 2 (snd added) = (Ok [3%positive], snd added)
  /\ fst deleted = Ok 3%positive
  /\ User.listProducts 2 (snd deleted) = (Ok [], snd deleted).
Proof. computed. Qed.

(** The service of the demo halves the price of the Phone Case. *)
Lemma discount_spec_witness :
  repos world !! 1%positive = Some shelf
  /\ (forall k l, ProductRepository.map_get k shelf = Some l ->
                  exists p, products world !! l = Some p /\ p_id p = k)
  /\ ProductService.discount {| ProductService.repo := 1 |}
       (VStr (js "p_i")) (VNum (Num.of_Z 50)) world
     = (Ok 1%positive,
        set_products <[1%positive := Product.with_price (Num.of_Z 5) phone_case]>
                     world)
  /\ exists stored : product,
       products (snd (ProductService.discount {| ProductService.repo := 1 |}
                        (VStr (js "p_i")) (VNum (Num.of_Z 50)) world))
         !! 1%positive = Some stored
       /\ p_price stored = Num.of_Z 5 /\ p_name stored = js "Phone Case".
Proof.
  assert (Hs : repos world !! 1%positive = Some shelf)
    by (vm_compute; reflexivity).
  assert (Hwf : forall k l, ProductRepository.map_get k shelf = Some l ->
                  exists p, products world !! l = Some p /\ p_id p = k).
  { intros k l. unfold shelf. simpl.
    repeat case_decide; try done; intros [= <-]; subst k;
      eexists; (split; [vm_compute; reflexivity|reflexivity]). }
  split; [exact Hs|]. split; [exact Hwf|].
  destruct (discount_spec {| ProductService.repo := 1 |} (VStr (js "p_i"))
              (VNum (Num.of_Z 50)) world shelf half noon Hs Hwf)
    as [(p & Hp & Hrun) _].
  assert (p = phone_case) as ->.
  { assert (Hpc : products world !! 1%positive = Some phone_case)
      by (vm_compute; reflexivity).
    rewrite Hpc in Hp. by injection Hp. }
  split; [exact (proj1 Hrun)|].
  rewrite (proj1 Hrun).
  exists (Product.with_price (Num.of_Z 5) phone_case).
  split; [exact (proj1 (proj2 (proj2 Hrun)))|].
  split; [vm_compute; reflexivity|reflexivity].
Defined.

(** The Phone Case goes through [toJSON] and [fromJSON]. *)
Lemma fromJSON_toJSON_witness :
  Product.well_formed phone_case
  /\ exists (j : json) (t : Z),
       Product.toJSON phone_case = Ok j
       /\ p_createdAt phone_case = Some t
       /\ j_createdAt j = Some (print_iso t)
       /\ date_of_string (print_iso t) = Some t
       /\ Product.fromJSON j quarter None = Ok phone_case.
Proof.
  assert (Hwf : Product.well_formed phone_case).
  { unfold Product.well_formed.
  split; [vm_compute; reflexivity|].
  split; [vm_compute; lia|].
  split; [vm_compute; reflexivity|].
  split; [vm_compute; reflexivity|].
  split; [vm_compute; reflexivity|].
  exists 1700000000123. split; [reflexivity|]. unfold in_range, max_time. lia. }
split; [exact Hwf|].
  exact (fromJSON_toJSON phone_case quarter None Hwf).
Defined.

Example toJSON_phone_case :
  Product.toJSON phone_case
  = Ok {| j_id := Some (js "p_i"); j_name := VStr (js "Phone Case");
          j_price := VNum (Num.of_Z 10); j_owner := VStr (js "Mona");
          j_createdAt := Some (js "2023-11-14T22:13:20.123Z") |}.
Proof. vm_compute. reflexivity. Qed.

(** The text ["50"] is no number, yet it is a discount of 50 per cent;
    [null] is one of 0 per cent. *)
Lemma applyDiscount_accepts_text :
  typeof (VStr (js "50")) = js "string"
  /\ Product.applyDiscount (VStr (js "50")) phone_case
     = (Ok (Num.of_Z 5), Product.with_price (Num.of_Z 5) phone_case)
  /\ Product.applyDiscount null phone_case = (Ok (Num.of_Z 10), phone_case).
Proof. computed. Qed.

(** A discount of 0 leaves the price of the Phone Case. *)
Lemma applyDiscount_spec_witness :
  valid (p_price phone_case) = true
  /\ round2 (p_price phone_case) = p_price phone_case
  /\ Product.applyDiscount (VNum zero) phone_case
     = (Ok (p_price phone_case), phone_case).
Proof.
  split; [reflexivity|]. split; [reflexivity|].
  apply (applyDiscount_spec (VNum zero) phone_case); reflexivity.
Defined.


(** An object with no conversion to a primitive value, such as
    [Object.create(null)], as the query: both searches throw. *)
Lemma search_throws_on_object :
  String_of (VObject Throws Throws) = Throw Foreign
  /\ User.findProductsByName 1 (VObject Throws Throws) world
     = (Throw Foreign, world)
  /\ ProductRepository.findByNameLike 1 (VObject Throws Throws) world
     = (Throw Foreign, world).
Proof. computed. Qed.

(** The searches of the demo: ["PHONE"] finds the Phone Case, [null]
    and [10] find nothing, as no name contains ["null"] or ["10"]. *)
Example search_examples :
  User.findProductsByName 1 (VStr (js "PHONE")) world = (Ok [1%positive], world)
  /\ ProductRepository.findByNameLike 1 (VStr (js "p")) world
     = (Ok [1; 2]%positive, world)
  /\ User.findProductsByName 1 null world = (Ok [], world)
  /\ User.findProductsByName 1 (VNum (Num.of_Z 10)) world = (Ok [], world).
Proof. computed. Qed.

End Examples.

(** * More properties: what the methods keep and how they compose *)

(** ** Consistent states *)
Section Consistency.
Context `{Host}.
Import Num Str Val Date Conv Inv.

Ltac insert_cases i j :=
  simpl; destruct (decide (i = j)) as [<-|?];
  [rewrite ?lookup_insert_eq, ?lookup_alter_eq
  |rewrite ?lookup_insert_ne, ?lookup_alter_ne by done].

Lemma fresh_product (st : state) : products st !! fresh (dom (products st)) = None.
Proof. apply not_elem_of_dom. apply is_fresh. Qed.

Lemma name_ok_checked (val : value) (n : jsstring) (p : product) :
  Product.checked_name val = Ok n -> p_name p = n -> name_ok p.
Proof.
  intros Hn Hp. apply checked_name_ok in Hn as (s & _ & -> & Hlen).
  unfold name_ok. rewrite Hp, trim_idem. by split.
Qed.

Lemma construct_name_ok (f : fields) (random : number) (now : date) (p : product) :
  Product.construct f random now = Ok p -> name_ok p.
Proof.
  unfold Product.construct.
  destruct (Product.checked_name (f_name f)) as [n|] eqn:Hn; [|done].
  destruct (Product.checked_price (f_price f)) as [x|]; [|done].
  intros [= <-]. by eapply name_ok_checked.
Qed.

(** The three methods that write to a Product keep its id and leave a
    name that is trimmed. *)
Lemma set_name_keeps (val : value) : keeps_id_and_name (Product.set_name val).
Proof.
  intros p. unfold Product.set_name.
  destruct (Product.checked_name val) as [n|] eqn:Hn; simpl; [|done].
  split; [done|]. intros _. by eapply name_ok_checked.
Qed.

Lemma set_price_keeps (val : value) : keeps_id_and_name (Product.set_price val).
Proof.
  intros p. unfold Product.set_price.
  by destruct (Product.checked_price val).
Qed.

Lemma applyDiscount_keeps (percent : value) :
  keeps_id_and_name (Product.applyDiscount percent).
Proof.
  intros p. unfold Product.applyDiscount.
  destruct (Number_of percent) as [x|]; [|done].
  by destruct (isNaN x || lt x zero || gt x (Num.of_Z 100)).
Qed.

Lemma consistent_empty : consistent empty_state.
Proof. split; [|split]; intros ? ?; simpl; by rewrite lookup_empty. Qed.

(** A write to a Product that keeps its id. *)
Lemma consistent_put_product (st : state) (l : loc) (p p' : product) :
  consistent st -> products st !! l = Some p ->
  p_id p' = p_id p -> name_ok p' ->
  consistent (set_products <[l := p']> st).
Proof.
  intros (Hp & Hu & Hr) Hl Hid Hname. split; [|split]; simpl.
  - intros l0 p0. insert_cases l l0; [by intros [= <-]|apply Hp].
  - intros l0 u Hu0. destruct (Hu l0 u Hu0) as [Hnd Hin]. split; [done|].
    intros l1 Hl1. insert_cases l l1; [by eexists|by apply Hin].
  - intros r s Hs. destruct (Hr r s Hs) as [Hnd Hin]. split; [done|].
    intros k l1 Hkl. destruct (Hin k l1 Hkl) as (p1 & Hp1 & Hk).
    insert_cases l l1.
    + exists p'. split; [done|]. congruence.
    + by exists p1.
Qed.

(** A new Product. *)
Lemma consistent_alloc_product (st : state) (l : loc) (p : product) :
  consistent st -> products st !! l = None -> name_ok p ->
  consistent (set_products <[l := p]> st).
Proof.
  intros (Hp & Hu & Hr) Hl Hname. split; [|split]; simpl.
  - intros l0 p0. insert_cases l l0; [by intros [= <-]|apply Hp].
  - intros l0 u Hu0. destruct (Hu l0 u Hu0) as [Hnd Hin]. split; [done|].
    intros l1 Hl1. insert_cases l l1; [by eexists|by apply Hin].
  - intros r s Hs. destruct (Hr r s Hs) as [Hnd Hin]. split; [done|].
    intros k l1 Hkl. destruct (Hin k l1 Hkl) as (p1 & Hp1 & Hk).
    insert_cases l l1; [congruence|by exists p1].
Qed.

Lemma consistent_on {A} (m : M product A) (l : loc) (st : state) :
  keeps_id_and_name m -> consistent st -> consistent (snd (Product.on l m st)).
Proof.
  intros Hm Hst. unfold Product.on.
  destruct (products st !! l) as [p|] eqn:Hl; [|done].
  destruct (Hm p) as [Hid Hname]. destruct (m p) as [r p']; simpl in *.
  apply (consistent_put_product st l p p'); try done.
  apply Hname. by apply (proj1 Hst l p).
Qed.

Lemma consistent_new (f : fields) (random : number) (now : date) (st : state) :
  consistent st -> consistent (snd (Product.new f random now st)).
Proof.
  intros Hst. unfold Product.new.
  destruct (Product.construct f random now) as [p|] eqn:Hp; [|done]. simpl.
  apply consistent_alloc_product; [done|apply fresh_product|].
  by eapply construct_name_ok.
Qed.

(** A user's collection replaced by products that are there, each once. *)
Lemma consistent_put_products (st : state) (this : loc) (ps : list loc) :
  consistent st -> NoDup ps ->
  (forall l, l ∈ ps -> is_Some (products st !! l)) ->
  consistent (set_users (alter (User.with_products ps) this) st).
Proof.
  intros (Hp & Hu & Hr) Hnd Hin. split; [done|split; [|done]]; simpl.
  intros l0 u. insert_cases this l0; [|apply Hu].
  destruct (users st !! this); [|done]. by intros [= <-].
Qed.

Lemma consistent_alloc_user (st : state) (l : loc) (u : user) :
  consistent st -> u_products u = [] ->
  consistent (set_users <[l := u]> st).
Proof.
  intros (Hp & Hu & Hr) Hnil. split; [done|split; [|done]]; simpl.
  intros l0 u0. insert_cases l l0; [|apply Hu].
  intros [= <-]. split; rewrite Hnil; [constructor|]. by intros l1 ?%elem_of_nil.
Qed.

Lemma consistent_put_store (st : state) (r : loc) (s : store) :
  consistent st -> store_ok st s -> consistent (set_repos <[r := s]> st).
Proof.
  intros (Hp & Hu & Hr) Hs. split; [done|split; [done|]]; simpl.
  intros r0 s0. insert_cases r r0; [by intros [= <-]|apply Hr].
Qed.

(** *** The map of a repository *)

Lemma map_set_keys (k : jsstring) (v : loc) (s : store) :
  (ProductRepository.map_set k v s).*1
  = if decide (k ∈ s.*1) then s.*1 else s.*1 ++ [k].
Proof.
  induction s as [|[k0 v0] s IH]; [done|].
  cbn [ProductRepository.map_set]. rewrite fmap_cons.
  destruct (decide (k0 = k)) as [->|Hne]; rewrite fmap_cons; cbn [fst].
  - by rewrite decide_True by left.
  - rewrite IH. destruct (decide (k ∈ s.*1)) as [Hin|Hnin].
    + by rewrite decide_True by (by right).
    + rewrite decide_False; [done|].
      intros [?|?]%elem_of_cons; congruence.
Qed.

Lemma map_set_NoDup (k : jsstring) (v : loc) (s : store) :
  NoDup (s.*1) -> NoDup ((ProductRepository.map_set k v s).*1).
Proof.
  intros Hnd. rewrite map_set_keys. case_decide; [done|].
  apply NoDup_app. split; [done|]. split; [|apply NoDup_singleton].
  intros x Hx ->%list_elem_of_singleton. done.
Qed.

(** An entry of the map after [set(k, v)] is the new one, or an old one
    under another key. *)
Lemma map_set_entry (k k' : jsstring) (v v' : loc) (s : store) :
  NoDup (s.*1) ->
  (k', v') ∈ ProductRepository.map_set k v s ->
  (k' = k /\ v' = v) \/ (k' <> k /\ (k', v') ∈ s).
Proof.
  induction s as [|[k0 v0] s IH]; simpl; intros Hnd.
  - intros [= -> ->]%list_elem_of_singleton. by left.
  - apply NoDup_cons in Hnd as [Hk0 Hnd]. case_decide as Hk.
    + subst k0. intros [[= -> ->]|Hin]%elem_of_cons; [by left|].
      right. split; [|by right].
      intros ->. apply Hk0. apply list_elem_of_fmap. by exists (k, v').
    + intros [[= -> ->]|Hin]%elem_of_cons.
      * right. split; [done|]. by left.
      * destruct (IH Hnd Hin) as [?|[? ?]]; [by left|].
        right. split; [done|]. by right.
Qed.

Lemma store_ok_nil (st : state) : store_ok st [].
Proof. split; [constructor|]. by intros k l ?%elem_of_nil. Qed.

Lemma store_ok_set (st : state) (s : store) (l : loc) (p : product) :
  store_ok st s -> products st !! l = Some p ->
  store_ok st (ProductRepository.map_set (p_id p) l s).
Proof.
  intros [Hnd Hin] Hl. split; [by apply map_set_NoDup|].
  intros k l' Hkl.
  destruct (map_set_entry _ _ _ _ _ Hnd Hkl) as [[-> ->]|[_ Hkl']].
  - by exists p.
  - by apply Hin.
Qed.

Lemma store_ok_delete (st : state) (s : store) (k : jsstring) :
  store_ok st s -> store_ok st (ProductRepository.map_delete k s).
Proof.
  intros [Hnd Hin]. unfold ProductRepository.map_delete. split.
  - eapply sublist_NoDup; [done|]. apply fmap_sublist, sublist_filter.
  - intros k' l' [_ Hkl]%list_elem_of_filter. by apply Hin.
Qed.

(** *** Every method keeps the state consistent *)

Lemma keeps_ret {A} (a : A) : keeps (ret a).
Proof. by intros st. Qed.

Lemma keeps_throw {A} (e : exn) : keeps (@throw state A e).
Proof. by intros st. Qed.

Lemma keeps_bind {A B} (m : M state A) (k : A -> M state B) :
  keeps m -> (forall a, keeps (k a)) -> keeps (bind m k).
Proof.
  intros Hm Hk st Hst. unfold bind. specialize (Hm st Hst).
  destruct (m st) as [[a|e] st']; [by apply Hk|done].
Qed.

Lemma keeps_on {A} (m : M product A) (l : loc) :
  keeps_id_and_name m -> keeps (Product.on l m).
Proof. intros Hm st. by apply consistent_on. Qed.

Lemma keeps_new (f : fields) (random : number) (now : date) :
  keeps (Product.new f random now).
Proof. intros st. apply consistent_new. Qed.

Lemma keeps_fromJSON_new (j : json) (random : number) (now : date) :
  keeps (fromJSON_new j random now).
Proof. intros st. apply consistent_new. Qed.

Lemma keeps_alloc (u : user) : u_products u = [] -> keeps (User.alloc u).
Proof. intros Hu st Hst. by apply consistent_alloc_user. Qed.

Lemma keeps_addProduct (this : loc) (name price : value)
    (random : number) (now : date) :
  keeps (User.addProduct this name price random now).
Proof.
  intros st Hst. unfold User.addProduct, User.at_, User.put_products, Product.new.
  run. destruct (users st !! this) as [u|] eqn:Hu; [|done].
  destruct (Product.construct _ random now) as [p|] eqn:Hp; [|done]. simpl.
  set (l := fresh (dom (products st))).
  assert (Hst' : consistent (set_products <[l := p]> st)).
  { apply consistent_alloc_product; [done|apply fresh_product|].
    by eapply construct_name_ok. }
  destruct (proj1 (proj2 Hst) this u Hu) as [Hnd Hin].
  apply (consistent_put_products (set_products <[l := p]> st)); [done| |].
  - apply NoDup_app. split; [done|]. split; [|apply NoDup_singleton].
    intros x Hx ->%list_elem_of_singleton.
    apply Hin in Hx as [p0 Hp0]. pose proof (fresh_product st) as Hf.
    fold l in Hf. congruence.
  - intros x [Hx|Hx]%elem_of_app; simpl.
    + insert_cases l x; [by eexists|by apply Hin].
    + apply list_elem_of_singleton in Hx as ->.
      rewrite lookup_insert_eq. by eexists.
Qed.

Lemma keeps_updateProductPrice (this : loc) (productId newPrice : value) :
  keeps (User.updateProductPrice this productId newPrice).
Proof.
  intros st Hst. unfold User.updateProductPrice, User.at_. run.
  destruct (users st !! this) as [u|]; [|done].
  destruct (list_find _ (u_products u)) as [[i l]|]; [|done].
  pose proof (consistent_on (Product.set_price newPrice) l st
                (set_price_keeps newPrice) Hst) as Hon.
  by destruct (Product.on l (Product.set_price newPrice) st) as [[] ?].
Qed.

Lemma keeps_deleteProduct (this : loc) (productId : value) :
  keeps (User.deleteProduct this productId).
Proof.
  intros st Hst. unfold User.deleteProduct, User.at_, User.put_products. run.
  destruct (users st !! this) as [u|] eqn:Hu; [|done].
  destruct (list_find _ (u_products u)) as [[i l]|]; [|done]. simpl.
  destruct (proj1 (proj2 Hst) this u Hu) as [Hnd Hin].
  apply consistent_put_products; [done| |].
  - eapply sublist_NoDup; [done|apply sublist_delete].
  - intros x Hx. apply Hin. eapply elem_of_sublist; [done|apply sublist_delete].
Qed.

Lemma keeps_deleteProductFromUser (this : loc) (targetUser productId : value) :
  keeps (AdminUser.deleteProductFromUser this targetUser productId).
Proof.
  intros st Hst. unfold AdminUser.deleteProductFromUser, User.at_. run.
  destruct (users st !! this) as [a|]; [|done].
  destruct (u_admin a); simpl; [|done].
  destruct targetUser; try done. by apply keeps_deleteProduct.
Qed.

Lemma keeps_repository_new : keeps ProductRepository.new.
Proof.
  intros st Hst. unfold ProductRepository.new. simpl.
  apply consistent_put_store; [done|apply store_ok_nil].
Qed.

Lemma keeps_create (this : loc) (product : value) :
  keeps (ProductRepository.create this product).
Proof.
  intros st Hst. unfold ProductRepository.create.
  destruct product as [| l | |]; try done.
  unfold ProductRepository.id_of, ProductRepository.at_,
    ProductRepository.put_store. run.
  destruct (products st !! l) as [p|] eqn:Hl; [|done].
  destruct (repos st !! this) as [s|] eqn:Hs; [|done]. simpl.
  apply consistent_put_store; [done|].
  apply store_ok_set; [|done]. by apply (proj2 (proj2 Hst) this).
Qed.

Lemma keeps_update (this : loc) (product : value) :
  keeps (ProductRepository.update this product).
Proof.
  intros st Hst. unfold ProductRepository.update.
  destruct product as [| l | |]; try done.
  unfold ProductRepository.id_of, ProductRepository.at_,
    ProductRepository.put_store. run.
  destruct (products st !! l) as [p|] eqn:Hl; [|done].
  destruct (repos st !! this) as [s|] eqn:Hs; [|done].
  destruct (ProductRepository.map_has (p_id p) s); simpl; [|done].
  apply consistent_put_store; [done|].
  apply store_ok_set; [|done]. by apply (proj2 (proj2 Hst) this).
Qed.

Lemma keeps_delete (this : loc) (id : value) :
  keeps (ProductRepository.delete this id).
Proof.
  intros st Hst. unfold ProductRepository.delete, ProductRepository.at_,
    ProductRepository.put_store. run.
  destruct (repos st !! this) as [s|] eqn:Hs; [|done].
  destruct (Product.key_of id) as [k|]; simpl; [|done].
  apply consistent_put_store; [done|].
  apply store_ok_delete. by apply (proj2 (proj2 Hst) this).
Qed.

Lemma keeps_getById (this : loc) (id : value) :
  keeps (ProductRepository.getById this id).
Proof.
  intros st Hst. unfold ProductRepository.getById, ProductRepository.at_. run.
  by destruct (repos st !! this).
Qed.

(** A call on a consistent state leaves a consistent state, whether it
    returns or throws. *)
Lemma exec_consistent (c : call) (st : state) :
  consistent st -> consistent (exec c st).
Proof.
  destruct c; simpl.
  - apply keeps_new.
  - apply keeps_fromJSON_new.
  - apply keeps_on, set_name_keeps.
  - apply keeps_on, set_price_keeps.
  - apply keeps_on, applyDiscount_keeps.
  - by apply keeps_alloc.
  - by apply keeps_alloc.
  - apply keeps_addProduct.
  - apply keeps_updateProductPrice.
  - apply keeps_deleteProduct.
  - apply keeps_deleteProductFromUser.
  - apply keeps_repository_new.
  - apply keeps_create.
  - apply keeps_update.
  - apply keeps_delete.
  - apply keeps_bind; [apply keeps_new|intros l; apply keeps_create].
  - apply keeps_bind; [apply keeps_getById|]. intros [l|]; [|apply keeps_throw].
    apply keeps_bind; [apply keeps_on, set_price_keeps|intros _; apply keeps_update].
  - apply keeps_bind; [apply keeps_getById|]. intros [l|]; [|apply keeps_throw].
    apply keeps_bind; [apply keeps_on, applyDiscount_keeps|intros _; apply keeps_update].
  - apply keeps_bind; [apply keeps_delete|].
    intros []; [apply keeps_ret|apply keeps_throw].
Qed.

(** X1. Whatever constructors and methods of the five classes are
    called, with whatever arguments and whether they return or throw, the
    state reached from no object at all is consistent: every Product has
    a trimmed name of two code units or more, a user's collection holds
    each product once, and a repository has one entry per key, which is
    the id of the product stored under it. *)
Theorem run_consistent (cs : list call) : consistent (run cs).
Proof.
  unfold run. induction cs as [|c cs IH] using rev_ind; [apply consistent_empty|].
  rewrite foldl_snoc. by apply exec_consistent.
Qed.

End Consistency.

(** ** Product: the constructor and the name setter *)
Section ConstructorProps.
Context `{Host}.
Import Num Str Val Date Conv Inv.

(** X2. [new Product(f)] succeeds exactly when the name is a text of two
    code units or more once trimmed and [Number(price)] is a number that is
    neither NaN nor negative.  The Product then has the id given or a
    generated one, the name trimmed, the price rounded to two decimals,
    the owner given or ["unknown"], the Date given or the current one.  An
    invalid name is reported before an invalid price. *)
Theorem construct_spec (f : fields) (random : number) (now : date) :
  match Product.construct f random now with
  | Ok p =>
      exists (s : jsstring) (num : number),
        f_name f = VStr s /\ (2 <= length (trim s))%nat
        /\ Number_of (f_price f) = Ok num /\ ge num zero = true
        /\ p = {| p_id := default (Product.generateId random) (f_id f);
                  p_name := trim s; p_price := round2 num;
                  p_owner := Product.owner_or_unknown (f_owner f);
                  p_createdAt := default now (f_createdAt f) |}
        /\ Product.invariant p /\ name_ok p
  | Throw e =>
      (e = InvalidName
       /\ forall s, f_name f = VStr s -> (length (trim s) < 2)%nat)
      \/ ((exists s, f_name f = VStr s /\ (2 <= length (trim s))%nat)
          /\ match Number_of (f_price f) with
             | Ok num => e = InvalidPrice /\ ge num zero = false
             | Throw e' => e = e'
             end)
  end.
Proof.
  pose proof (construct_invariant f random now) as Hinv.
  pose proof (construct_name_ok f random now) as Hname.
  unfold Product.construct in *.
  destruct (Product.checked_name (f_name f)) as [n|e] eqn:Hn.
  - apply checked_name_ok in Hn as (s & Hs & -> & Hlen).
    unfold Product.checked_price in *.
    destruct (Number_of (f_price f)) as [num|e] eqn:Hnum.
    + destruct (isNaN num || lt num zero) eqn:Hbad.
      * right. split; [by exists s|]. split; [done|].
        destruct (ge num zero) eqn:Hge; [|done].
        apply ge_zero_iff in Hge as [Hnan Hlt]. by rewrite Hnan, Hlt in Hbad.
      * exists s, num. do 3 (split; [done|]).
        split; [apply orb_false_elim in Hbad; by apply ge_zero_iff|].
        split; [done|]. split; [apply (Hinv _ eq_refl)|apply (Hname _ eq_refl)].
    + right. split; [by exists s|done].
  - left. split; [by apply checked_name_throws in Hn|].
    intros s Hs. unfold Product.checked_name in Hn. rewrite Hs in Hn.
    unfold VStr in Hn.
    destruct (negb _ || (length (trim s) <? 2)%nat) eqn:Hbad; [|done].
    apply orb_true_elim in Hbad as [Hempty|Hlen].
    + destruct s; [|done]. vm_compute. lia.
    + by apply Nat.ltb_lt.
Qed.

(** X3. The name setter stores a text, trimmed, when it has two code
    units or more once trimmed, and throws the name error for any other
    value without writing; it never converts its argument.  The name it
    stores is stable: trimming it again changes nothing. *)
Theorem set_name_spec (val : value) (this : product) :
  match Product.set_name val this with
  | (Ok _, this') =>
      exists s, val = VStr s /\ (2 <= length (trim s))%nat
                /\ p_name this' = trim s /\ trim (p_name this') = p_name this'
                /\ p_id this' = p_id this /\ p_price this' = p_price this
                /\ p_owner this' = p_owner this
                /\ p_createdAt this' = p_createdAt this
  | (Throw e, this') =>
      e = InvalidName /\ this' = this
      /\ forall s, val = VStr s -> (length (trim s) < 2)%nat
  end.
Proof.
  unfold Product.set_name.
  destruct (Product.checked_name val) as [n|e] eqn:Hn.
  - apply checked_name_ok in Hn as (s & Hs & -> & Hlen).
    exists s. simpl. rewrite trim_idem. by repeat split.
  - split; [by apply checked_name_throws in Hn|]. split; [done|].
    intros s Hs. unfold Product.checked_name in Hn. rewrite Hs in Hn.
    unfold VStr in Hn.
    destruct (negb _ || (length (trim s) <? 2)%nat) eqn:Hbad; [|done].
    apply orb_true_elim in Hbad as [Hempty|Hlen].
    + destruct s; [|done]. vm_compute. lia.
    + by apply Nat.ltb_lt.
Qed.

End ConstructorProps.

(** ** User: adding, repricing and deleting *)
Section UserProps2.
Context `{Host}.
Import Num Str Val Date Conv Inv.

Lemma construct_throws (f : fields) (random : number) (now : date) (e : exn) :
  Product.construct f random now = Throw e ->
  e = InvalidName \/ e = InvalidPrice \/ kind_of e = EngineError.
Proof.
  unfold Product.construct, Product.checked_price.
  destruct (Product.checked_name (f_name f)) as [n|e0] eqn:Hn.
  - destruct (Number_of (f_price f)) as [num|e1] eqn:Hnum.
    + destruct (isNaN num || lt num zero); [|done]. intros [= <-]. auto.
    + intros [= <-]. apply Number_of_throws in Hnum. auto.
  - intros [= <-]. apply checked_name_throws in Hn. auto.
Qed.

Lemma construct_fields (f : fields) (random : number) (now : date) (p : product) :
  Product.construct f random now = Ok p ->
  p_id p = default (Product.generateId random) (f_id f)
  /\ p_owner p = Product.owner_or_unknown (f_owner f)
  /\ p_createdAt p = default now (f_createdAt f).
Proof.
  unfold Product.construct.
  destruct (Product.checked_name (f_name f)); [|done].
  destruct (Product.checked_price (f_price f)); [|done].
  by intros [= <-].
Qed.

(** The two outcomes of the constructor, by its arguments. *)
Lemma construct_cases (f : fields) (random : number) (now : date) :
  match Product.construct f random now with
  | Ok p =>
      exists (s : jsstring) (num : number),
        f_name f = VStr s /\ (2 <= length (trim s))%nat
        /\ Number_of (f_price f) = Ok num /\ ge num zero = true
        /\ p = {| p_id := default (Product.generateId random) (f_id f);
                  p_name := trim s; p_price := round2 num;
                  p_owner := Product.owner_or_unknown (f_owner f);
                  p_createdAt := default now (f_createdAt f) |}
  | Throw e =>
      (e = InvalidName
       /\ forall s, f_name f = VStr s -> (length (trim s) < 2)%nat)
      \/ ((exists s, f_name f = VStr s /\ (2 <= length (trim s))%nat)
          /\ match Number_of (f_price f) with
             | Ok num => e = InvalidPrice /\ ge num zero = false
             | Throw e' => e = e'
             end)
  end.
Proof.
  unfold Product.construct.
  destruct (Product.checked_name (f_name f)) as [n|e] eqn:Hn.
  - apply checked_name_ok in Hn as (s & Hs & -> & Hlen).
    unfold Product.checked_price.
    destruct (Number_of (f_price f)) as [num|e] eqn:Hnum.
    + destruct (isNaN num || lt num zero) eqn:Hbad.
      * right. split; [by exists s|]. split; [done|].
        destruct (ge num zero) eqn:Hge; [|done].
        apply ge_zero_iff in Hge as [Hnan Hlt]. by rewrite Hnan, Hlt in Hbad.
      * exists s, num. do 3 (split; [done|]).
        split; [apply orb_false_elim in Hbad; by apply ge_zero_iff|done].
    + right. split; [by exists s|done].
  - left. split; [by apply checked_name_throws in Hn|].
    intros s Hs. unfold Product.checked_name in Hn. rewrite Hs in Hn.
    unfold VStr in Hn.
    destruct (negb _ || (length (trim s) <? 2)%nat) eqn:Hbad; [|done].
    apply orb_true_elim in Hbad as [Hempty|Hlen].
    + destruct s; [|done]. vm_compute. lia.
    + by apply Nat.ltb_lt.
Qed.

(** The two outcomes of the check of the price setter, by its argument. *)
Lemma checked_price_cases (val : value) :
  match Product.checked_price val with
  | Ok x => exists num, Number_of val = Ok num /\ ge num zero = true
                        /\ x = round2 num
  | Throw e => match Number_of val with
               | Ok num => e = InvalidPrice /\ ge num zero = false
               | Throw e' => e = e'
               end
  end.
Proof.
  unfold Product.checked_price.
  destruct (Number_of val) as [num|e]; [|done].
  destruct (isNaN num || lt num zero) eqn:Hbad.
  - split; [done|]. destruct (ge num zero) eqn:Hge; [|done].
    apply ge_zero_iff in Hge as [Hnan Hlt]. by rewrite Hnan, Hlt in Hbad.
  - exists num. split; [done|]. split; [|done].
    apply orb_false_elim in Hbad. by apply ge_zero_iff.
Qed.

(** X4. [addProduct(name, price)] constructs a Product owned by the user
    and puts it last in the collection.  It returns exactly when [name]
    is a text of two code units or more once trimmed and [Number(price)]
    is a number that is neither NaN nor negative: the Product is then a
    new object with the generated id, the name trimmed, the price rounded
    to two decimals, the user's name as owner and the current Date; the
    others are untouched, and [listProducts()] afterwards is the old
    collection followed by it.  Otherwise it throws what the constructor
    throws (the name error, else the price error or the error of
    converting the price) and nothing has changed. *)
Theorem addProduct_spec (this : loc) (name price : value)
    (random : number) (now : date) (st : state) (u : user) :
  users st !! this = Some u ->
  (forall l, l ∈ u_products u -> is_Some (products st !! l)) ->
  match User.addProduct this name price random now st with
  | (Ok l, st') =>
      products st !! l = None /\ (l ∉ u_products u)
      /\ (exists p, products st' !! l = Some p
                    /\ p_id p = Product.generateId random
                    /\ p_owner p = Product.owner_or_unknown (u_name u)
                    /\ p_createdAt p = now /\ name_ok p)
      /\ (forall l', l' <> l -> products st' !! l' = products st !! l')
      /\ User.listProducts this st' = (Ok (u_products u ++ [l]), st')
      /\ repos st' = repos st
      /\ (forall other, other <> this -> users st' !! other = users st !! other)
      /\ exists (s : jsstring) (num : number),
           name = VStr s /\ (2 <= length (trim s))%nat
           /\ Number_of price = Ok num /\ ge num zero = true
           /\ products st' !! l
              = Some {| p_id := Product.generateId random;
                        p_name := trim s; p_price := round2 num;
                        p_owner := Product.owner_or_unknown (u_name u);
                        p_createdAt := now |}
           /\ Product.construct
                {| f_id := None; f_name := name; f_price := price;
                   f_owner := u_name u; f_createdAt := None |} random now
              = Ok {| p_id := Product.generateId random;
                      p_name := trim s; p_price := round2 num;
                      p_owner := Product.owner_or_unknown (u_name u);
                      p_createdAt := now |}
  | (Throw e, st') =>
      st' = st /\ (e = InvalidName \/ e = InvalidPrice \/ kind_of e = EngineError)
      /\ Product.construct
           {| f_id := None; f_name := name; f_price := price;
              f_owner := u_name u; f_createdAt := None |} random now
         = Throw e
      /\ ((e = InvalidName
           /\ forall s, name = VStr s -> (length (trim s) < 2)%nat)
          \/ ((exists s, name = VStr s /\ (2 <= length (trim s))%nat)
              /\ match Number_of price with
                 | Ok num => e = InvalidPrice /\ ge num zero = false
                 | Throw e' => e = e'
                 end))
  end.
Proof.
  intros Hu Hin. unfold User.addProduct, User.listProducts, User.at_,
    User.put_products, Product.new. run. rewrite Hu.
  pose proof (construct_cases
                {| f_id := None; f_name := name; f_price := price;
                   f_owner := u_name u; f_createdAt := None |} random now)
    as Hcases.
  destruct (Product.construct _ random now) as [p|e] eqn:Hp; simpl.
  - pose proof (fresh_product st) as Hf. set (l := fresh (dom (products st))) in *.
    split; [done|]. split.
    { intros Hl. apply Hin in Hl as [? ?]. congruence. }
    split.
    { exists p. rewrite lookup_insert_eq. split; [done|].
      pose proof (construct_name_ok _ _ _ _ Hp) as Hname.
      by apply construct_fields in Hp as (-> & -> & ->). }
    split; [intros l' Hne; by rewrite lookup_insert_ne|].
    split; [by rewrite lookup_alter_eq, Hu|]. split; [done|].
    split; [intros other Hne; by rewrite lookup_alter_ne|].
    destruct Hcases as (s & num & Hs & Hlen & Hnum & Hge & ->).
    simpl in Hs, Hnum. exists s, num.
    do 4 (split; [done|]). split; [by rewrite lookup_insert_eq|done].
  - split; [done|]. split; [by apply construct_throws in Hp|].
    split; [done|]. exact Hcases.
Qed.

(** X5. A product just added is deleted by its id, which restores the
    collection, provided no product of the user already had that id;
    [deleteProduct] takes the first product with the id. *)
Theorem addProduct_deleteProduct (this : loc) (name price : value)
    (random : number) (now : date) (st st1 : state) (u : user) (l : loc) :
  users st !! this = Some u ->
  (forall l0, l0 ∈ u_products u -> is_Some (products st !! l0)) ->
  (forall l0, l0 ∈ u_products u ->
     Product.has_id st (VStr (Product.generateId random)) l0 = false) ->
  User.addProduct this name price random now st = (Ok l, st1) ->
  exists st2,
    User.deleteProduct this (VStr (Product.generateId random)) st1 = (Ok l, st2)
    /\ User.listProducts this st2 = (Ok (u_products u), st2)
    /\ products st2 = products st1.
Proof.
  intros Hu Hin Hfree Hadd.
  unfold User.addProduct, User.listProducts, User.at_,
    User.put_products, Product.new in Hadd. run. rewrite Hu in Hadd.
  destruct (Product.construct _ random now) as [p|e] eqn:Hp; [|done].
  simpl in Hadd. injection Hadd as <- Hst1.
  apply construct_fields in Hp as (Hid & _). simpl in Hid.
  pose proof (fresh_product st) as Hf. set (l := fresh (dom (products st))) in *.
  assert (Hps : products st1 = <[l := p]> (products st)) by by rewrite <- Hst1.
  assert (Hu1 : users st1 !! this
                = Some (User.with_products (u_products u ++ [l]) u)).
  { rewrite <- Hst1. simpl. by rewrite lookup_alter_eq, Hu. }
  clear Hst1.
  unfold User.deleteProduct, User.listProducts, User.at_, User.put_products.
  run. rewrite Hu1. simpl.
  assert (Hfind : list_find (fun l0 => Product.has_id st1
                     (VStr (Product.generateId random)) l0 = true)
                    (u_products u ++ [l]) = Some (length (u_products u), l)).
  { apply list_find_Some. split; [by rewrite lookup_app_r, Nat.sub_diag|].
    split.
    - unfold Product.has_id. rewrite Hps, lookup_insert_eq. simpl. rewrite Hid.
      by apply bool_decide_eq_true.
    - intros j y Hj Hlt. rewrite lookup_app_l in Hj by done.
      apply list_elem_of_lookup_2 in Hj.
      assert (y <> l) by (intros ->; apply Hin in Hj as [? ?]; congruence).
      unfold Product.has_id. rewrite Hps, lookup_insert_ne by done.
      specialize (Hfree y Hj). unfold Product.has_id in Hfree.
      by rewrite Hfree. }
  rewrite Hfind. simpl. eexists. split; [reflexivity|]. simpl.
  rewrite lookup_alter_eq, Hu1. simpl.
  replace (u_products u ++ [l]) with (u_products u ++ l :: []) by done.
  by rewrite delete_middle, app_nil_r.
Qed.

(** X6. [updateProductPrice(id, newPrice)] throws the not-found error when
    no product of the user has the id; otherwise it takes the first
    product of the collection with the id and assigns [newPrice] to its
    price: it returns that product, whose price is then
    [Number(newPrice)] rounded to two decimals, exactly when the price
    setter accepts [newPrice], and throws the setter's error when it
    does not.  When it throws, nothing has changed; it never touches the
    collection, another product, or the id, name, owner and Date of the
    product. *)
Theorem updateProductPrice_spec
    (this : loc) (productId newPrice : value) (st : state) (u : user) :
  users st !! this = Some u ->
  match User.updateProductPrice this productId newPrice st with
  | (Ok l, st') =>
      l ∈ u_products u /\ Product.has_id st productId l = true
      /\ (exists p num,
            products st !! l = Some p /\ Number_of newPrice = Ok num
            /\ ge num zero = true
            /\ products st' = <[l := Product.with_price (round2 num) p]> (products st))
      /\ users st' = users st /\ repos st' = repos st
      /\ (exists i : nat,
            u_products u !! i = Some l
            /\ forall j l', (j < i)%nat -> u_products u !! j = Some l' ->
                 Product.has_id st productId l' = false)
      /\ (exists p p' num,
            products st !! l = Some p /\ products st' !! l = Some p'
            /\ Number_of newPrice = Ok num
            /\ p_price p' = round2 num
            /\ p_id p' = p_id p /\ p_name p' = p_name p
            /\ p_owner p' = p_owner p /\ p_createdAt p' = p_createdAt p)
      /\ (forall l', l' <> l -> products st' !! l' = products st !! l')
  | (Throw e, st') =>
      st' = st
      /\ (e = ProductNotFound <->
          forall l, l ∈ u_products u -> Product.has_id st productId l = false)
      /\ ((e = ProductNotFound
           /\ forall l, l ∈ u_products u -> Product.has_id st productId l = false)
          \/ ((exists l, l ∈ u_products u /\ Product.has_id st productId l = true)
              /\ match Number_of newPrice with
                 | Ok num => e = InvalidPrice /\ ge num zero = false
                 | Throw e' => e = e'
                 end))
  end.
Proof.
  intros Hu. unfold User.updateProductPrice, User.at_. run. rewrite Hu.
  destruct (list_find _ (u_products u)) as [[i l]|] eqn:Hfind.
  - apply list_find_Some in Hfind as (Hi & Hl & Hfirst).
    pose proof (list_elem_of_lookup_2 _ _ _ Hi) as Hin.
    unfold Product.on.
    assert (Hhas : Product.has_id st productId l = true) by exact Hl.
    unfold Product.has_id in Hl.
    destruct (products st !! l) as [p|] eqn:Hp; [|done].
    unfold Product.set_price.
    pose proof (checked_price_cases newPrice) as Hcases.
    destruct (Product.checked_price newPrice) as [x|e] eqn:Hx; simpl.
    + destruct Hcases as (num & Hnum & Hge & ->).
      split; [done|]. split; [done|].
      split; [by exists p, num|]. split; [done|]. split; [done|].
      split.
      { exists i. split; [done|]. intros j l' Hlt Hj.
        specialize (Hfirst j l' Hj Hlt).
        by destruct (Product.has_id st productId l'). }
      split.
      { exists p, (Product.with_price (round2 num) p), num.
        rewrite lookup_insert_eq. by repeat split. }
      intros l' Hne. by rewrite lookup_insert_ne.
    + split; [by apply state_put_back|]. split.
      { split.
        - intros ->. destruct (Number_of newPrice) as [num|e0] eqn:Hnum.
          + by destruct Hcases.
          + subst e0. by apply Number_of_throws in Hnum.
        - intros Hnone. specialize (Hnone l Hin). congruence. }
      right. split; [by exists l|done].
  - apply list_find_None in Hfind. rewrite Forall_forall in Hfind.
    assert (Hnone : forall l, l ∈ u_products u ->
                      Product.has_id st productId l = false).
    { intros l Hl. specialize (Hfind l Hl).
      by destruct (Product.has_id st productId l). }
    split; [done|]. split; [done|]. left. by split.
Qed.

End UserProps2.

(** ** ProductRepository: storing and replacing *)
Section RepositoryProps2.
Context `{Host}.
Import Num Str Val Date Conv Inv ProductRepository.

Lemma map_set_values (k : jsstring) (v : loc) (s : store) :
  (map_set k v s).*2
  = match list_find (fun e => e.1 = k) s with
    | Some (i, _) => <[i := v]> (s.*2)
    | None => s.*2 ++ [v]
    end.
Proof.
  induction s as [|[k0 v0] s IH]; [done|].
  cbn [map_set list_find]. simpl (_.1).
  destruct (decide (k0 = k)) as [->|Hne]; [done|].
  rewrite !fmap_cons, IH. simpl (_.2).
  by destruct (list_find _ s) as [[i e]|].
Qed.

Lemma map_get_elem (k : jsstring) (l : loc) (s : store) :
  map_get k s = Some l -> (k, l) ∈ s.
Proof.
  induction s as [|[k0 v0] s IH]; simpl; [done|].
  destruct (decide (k0 = k)) as [->|Hne].
  - intros [= ->]. apply list_elem_of_here.
  - intros Hget. apply list_elem_of_further. by apply IH.
Qed.

Lemma map_get_None (k : jsstring) (s : store) :
  map_get k s = None <-> k ∉ s.*1.
Proof.
  induction s as [|[k0 v0] s IH]; simpl.
  - split; [intros _; apply not_elem_of_nil|done].
  - rewrite not_elem_of_cons. destruct (decide (k0 = k)) as [->|Hne].
    + split; [done|]. by intros [? _].
    + rewrite IH. split; [by intros ?; split|by intros [_ ?]].
Qed.

Lemma map_delete_absent (k : jsstring) (s : store) :
  map_get k s = None -> map_delete k s = s.
Proof.
  unfold map_delete. induction s as [|[k0 v0] s IH]; simpl; [done|].
  destruct (decide (k0 = k)) as [->|Hne]; [done|].
  intros Hget. rewrite filter_cons, decide_True by done. by rewrite IH.
Qed.

(** X7. [create(product)] throws the type-mismatch error exactly when
    its argument is no Product, and then changes nothing.  Otherwise it
    stores the product under its id whether or not the id is already a
    key: afterwards [getById] returns the product for that id and what it
    returned before for any other, and [getAll()] is the old list with the
    product in the place of the one that had the id, or at the end when
    the id is new. *)
Theorem create_spec (this : loc) (product : value) (st : state) (s : store) :
  repos st !! this = Some s ->
  (forall l, product = VProduct l -> is_Some (products st !! l)) ->
  match create this product st with
  | (Ok l, st') =>
      exists p, product = VProduct l /\ products st !! l = Some p
        /\ products st' = products st /\ users st' = users st
        /\ (forall other, other <> this -> repos st' !! other = repos st !! other)
        /\ (forall id,
              getById this id st'
              = (Ok (if decide (Product.key_of id = Some (p_id p)) then Some l
                     else k ← Product.key_of id; map_get k s), st'))
        /\ getAll this st'
           = (Ok (match list_find (fun e => e.1 = p_id p) s with
                  | Some (i, _) => <[i := l]> (s.*2)
                  | None => s.*2 ++ [l]
                  end), st')
  | (Throw e, st') =>
      st' = st /\ e = ExpectedProduct /\ kind_of e = TypeMismatchError
      /\ forall l, product <> VProduct l
  end.
Proof.
  intros Hs Hlive.
  destruct product as [pr|l|u|c1 c2]; try by (simpl; repeat split).
  destruct (Hlive l eq_refl) as [p Hp].
  rewrite (create_ok _ _ _ p s) by done.
  exists p. do 4 (split; [done|]).
  split; [intros other Hne; simpl; by rewrite lookup_insert_ne|].
  split.
  - intros id. rewrite (getById_ok _ _ _ (map_set (p_id p) l s))
      by (simpl; apply lookup_insert_eq).
    destruct (Product.key_of id) as [k|]; simpl.
    + rewrite map_get_set. repeat case_decide; congruence.
    + done.
  - unfold getAll, at_. run. simpl. rewrite lookup_insert_eq.
    by rewrite map_set_values.
Qed.

(** X8. [update(product)] differs from [create] only in refusing an id
    that is not stored: it throws the type-mismatch error for an argument
    that is no Product and the not-found error for a Product whose id is
    no key, changing nothing; otherwise it does what [create] does. *)
Theorem update_spec (this : loc) (product : value) (st : state) (s : store) :
  repos st !! this = Some s ->
  (forall l, product = VProduct l -> is_Some (products st !! l)) ->
  match update this product st with
  | (Ok l, st') =>
      exists p, product = VProduct l /\ products st !! l = Some p
        /\ map_has (p_id p) s = true
        /\ create this product st = (Ok l, st')
  | (Throw e, st') =>
      st' = st
      /\ match product with
         | VProduct l =>
             e = ProductNotFound /\ kind_of e = NotFoundError
             /\ exists p, products st !! l = Some p /\ map_has (p_id p) s = false
         | _ => e = ExpectedProduct /\ kind_of e = TypeMismatchError
         end
  end.
Proof.
  intros Hs Hlive.
  destruct product as [pr|l|u|c1 c2]; try by (simpl; repeat split).
  destruct (Hlive l eq_refl) as [p Hp].
  rewrite (create_ok _ _ _ p s) by done.
  unfold update, id_of, at_, put_store. run. rewrite Hp, Hs.
  destruct (map_has (p_id p) s) eqn:Hhas; simpl.
  - by exists p.
  - do 3 (split; [done|]). by exists p.
Qed.

End RepositoryProps2.

(** ** ProductService *)
Section ServiceProps2.
Context `{Host}.
Import Num Str Val Date Conv Inv ProductRepository ProductService.

Lemma store_ok_get (st : state) (s : store) (k : jsstring) (l : loc) :
  store_ok st s -> map_get k s = Some l ->
  exists p, products st !! l = Some p /\ p_id p = k.
Proof. intros [_ Hs] Hget. by apply Hs, map_get_elem. Qed.

Lemma map_get_NoDup (k : jsstring) (l : loc) (s : store) :
  NoDup (s.*1) -> (k, l) ∈ s -> map_get k s = Some l.
Proof.
  induction s as [|[k0 v0] s IH]; simpl; [by intros _ ?%elem_of_nil|].
  rewrite NoDup_cons. intros [Hout Hnd] Hin.
  apply elem_of_cons in Hin as [[= <- <-]|Hin].
  - by rewrite decide_True.
  - rewrite decide_False; [by apply IH|].
    intros ->. apply Hout. apply list_elem_of_fmap. by exists (k, l).
Qed.

Lemma filter_keys_values (k : jsstring) (l : loc) (s : store) :
  (forall k' l', (k', l') ∈ s -> k' <> k <-> l' <> l) ->
  (filter (fun e : jsstring * positive => e.1 <> k) s).*2
  = filter (fun l' => l' <> l) (s.*2).
Proof.
  induction s as [|[k0 v0] s IH]; [done|]. intros Hiff.
  rewrite fmap_cons, !filter_cons. simpl.
  pose proof (Hiff k0 v0 (list_elem_of_here _ _)) as H0.
  rewrite <- IH by (intros k' l' Hin; by apply Hiff, list_elem_of_further).
  destruct (decide (k0 <> k)), (decide (v0 <> l)); try tauto; done.
Qed.

(** In a store whose keys are the ids of its products, removing a key
    removes its product from the values. *)
Lemma store_ok_delete_values (st : state) (s : store) (k : jsstring) (l : loc) :
  store_ok st s -> map_get k s = Some l ->
  (map_delete k s).*2 = filter (fun l' => l' <> l) (s.*2).
Proof.
  intros Hok Hget. destruct (store_ok_get _ _ _ _ Hok Hget) as (p & Hp & Hid).
  destruct Hok as [Hnd Hs]. apply filter_keys_values.
  intros k' l' Hin. destruct (Hs k' l' Hin) as (p' & Hp' & Hid').
  split.
  - intros Hne ->. congruence.
  - intros Hne ->. apply map_get_NoDup in Hin; [|done]. congruence.
Qed.

(** X9. [changePrice(id, newPrice)] on a repository whose keys are the
    ids of its products: the not-found error when nothing is stored under
    [id]; otherwise the price setter runs on the stored product.  When
    the setter accepts [newPrice] the call returns the product, which
    stays under its id with the price [Number(newPrice)] rounded to two
    decimals and its id, name, owner and Date as before; when it does
    not, the call throws the setter's error.  Nothing changes when it
    throws, and the entries of the repository never do. *)
Theorem changePrice_spec
    (this : service) (id newPrice : value) (st : state) (s : store) :
  repos st !! repo this = Some s -> store_ok st s ->
  match changePrice this id newPrice st with
  | (Ok l, st') =>
      exists k p num,
        Product.key_of id = Some k /\ map_get k s = Some l
        /\ products st !! l = Some p
        /\ Number_of newPrice = Ok num /\ ge num zero = true
        /\ st' = set_products <[l := Product.with_price (round2 num) p]> st
        /\ listAll this st' = (Ok (s.*2), st')
        /\ getById (repo this) id st' = (Ok (Some l), st')
        /\ (forall l', l' <> l -> products st' !! l' = products st !! l')
        /\ exists p',
             products st' !! l = Some p'
             /\ p_price p' = round2 num
             /\ p_id p' = p_id p /\ p_name p' = p_name p
             /\ p_owner p' = p_owner p /\ p_createdAt p' = p_createdAt p
  | (Throw e, st') =>
      st' = st
      /\ (e = ProductNotFound <-> (k ← Product.key_of id; map_get k s) = None)
      /\ match k ← Product.key_of id; map_get k s with
         | None => e = ProductNotFound
         | Some _ =>
             match Number_of newPrice with
             | Ok num => e = InvalidPrice /\ ge num zero = false
             | Throw e' => e = e'
             end
         end
  end.
Proof.
  intros Hs Hok.
  unfold changePrice, listAll, getById, getAll, update, at_, id_of, put_store,
    Product.on. run. rewrite Hs.
  destruct (Product.key_of id) as [k|] eqn:Hk; simpl; [|done].
  destruct (map_get k s) as [l|] eqn:Hl; simpl; [|done].
  destruct (store_ok_get _ _ _ _ Hok Hl) as (p & Hp & Hid). rewrite Hp.
  unfold Product.set_price.
  pose proof (checked_price_cases newPrice) as Hcases.
  destruct (Product.checked_price newPrice) as [x|e] eqn:Hx; simpl.
  - rewrite lookup_insert_eq. simpl. rewrite Hs, Hid. simpl.
    unfold map_has. rewrite Hl. simpl. rewrite (map_set_same _ _ _ Hl).
    rewrite (state_put_store_back (set_products _ st)) by done.
    destruct Hcases as (num & Hnum & Hge & ->).
    exists k, p, num. do 6 (split; [done|]). simpl.
    rewrite !lookup_insert_eq. rewrite Hl.
    split; [done|]. split; [done|].
    split; [intros l' Hne; by rewrite lookup_insert_ne|].
    by exists (Product.with_price (round2 num) p).
  - rewrite state_put_back by done. split; [done|]. split; [|done].
    split; [|done].
    intros ->. destruct (Number_of newPrice) as [num|e0] eqn:Hnum.
    + by destruct Hcases.
    + subst e0. by apply Number_of_throws in Hnum.
Qed.

(** X10. [remove(id)] throws the not-found error, changing nothing, when
    nothing is stored under [id]; otherwise it returns [true], the id is
    no longer found and [listAll()] is the old list without the product
    that was stored under it, in order. *)
Theorem remove_spec (this : service) (id : value) (st : state) (s : store) :
  repos st !! repo this = Some s -> store_ok st s ->
  match remove this id st with
  | (Ok b, st') =>
      b = true
      /\ exists k l,
           Product.key_of id = Some k /\ map_get k s = Some l
           /\ products st' = products st /\ users st' = users st
           /\ getById (repo this) id st' = (Ok None, st')
           /\ listAll this st' = (Ok (filter (fun l' => l' <> l) (s.*2)), st')
  | (Throw e, st') =>
      st' = st /\ e = ProductNotFound /\ kind_of e = NotFoundError
      /\ (k ← Product.key_of id; map_get k s) = None
  end.
Proof.
  intros Hs Hok.
  unfold remove, listAll, getById, getAll, delete, at_, put_store. run.
  rewrite Hs.
  destruct (Product.key_of id) as [k|] eqn:Hk; simpl; [|done].
  unfold map_has.
  destruct (map_get k s) as [l|] eqn:Hl; simpl.
  - split; [done|]. exists k, l. do 4 (split; [done|]).
    rewrite lookup_insert_eq. simpl. rewrite map_get_delete, decide_True by done.
    split; [done|]. by rewrite (store_ok_delete_values st _ _ l).
  - rewrite map_delete_absent by done.
    by rewrite state_put_store_back by done.
Qed.

(** X11. [addNewProduct(name, price, owner)] constructs a Product and
    stores it under its generated id.  It returns exactly when [name] is
    a text of two code units or more once trimmed and [Number(price)] is
    a number that is neither NaN nor negative: the Product is then a new
    object with the name trimmed, the price rounded to two decimals, the
    owner given (or ["unknown"]) and the current Date, found by [getById]
    under its id, and [listAll()] is the old list with it at the end, or
    in the place of an older product with the same generated id, which it
    replaces.  Otherwise it throws what the constructor throws (the name
    error, else the price error or the error of converting the price)
    and nothing has changed. *)
Theorem addNewProduct_spec
    (this : service) (name price owner : value) (random : number) (now : date)
    (st : state) (s : store) :
  repos st !! repo this = Some s ->
  match addNewProduct this name price owner random now st with
  | (Ok l, st') =>
      products st !! l = None
      /\ (exists p, products st' !! l = Some p
                    /\ p_id p = Product.generateId random
                    /\ p_owner p = Product.owner_or_unknown owner
                    /\ p_createdAt p = now /\ name_ok p)
      /\ (forall l', l' <> l -> products st' !! l' = products st !! l')
      /\ getById (repo this) (VStr (Product.generateId random)) st'
         = (Ok (Some l), st')
      /\ listAll this st'
         = (Ok (match list_find (fun e => e.1 = Product.generateId random) s with
                | Some (i, _) => <[i := l]> (s.*2)
                | None => s.*2 ++ [l]
                end), st')
      /\ exists (t : jsstring) (num : number),
           name = VStr t /\ (2 <= length (trim t))%nat
           /\ Number_of price = Ok num /\ ge num zero = true
           /\ products st' !! l
              = Some {| p_id := Product.generateId random;
                        p_name := trim t; p_price := round2 num;
                        p_owner := Product.owner_or_unknown owner;
                        p_createdAt := now |}
           /\ Product.construct
                {| f_id := None; f_name := name; f_price := price;
                   f_owner := owner; f_createdAt := None |} random now
              = Ok {| p_id := Product.generateId random;
                      p_name := trim t; p_price := round2 num;
                      p_owner := Product.owner_or_unknown owner;
                      p_createdAt := now |}
  | (Throw e, st') =>
      st' = st /\ (e = InvalidName \/ e = InvalidPrice \/ kind_of e = EngineError)
      /\ Product.construct
           {| f_id := None; f_name := name; f_price := price;
              f_owner := owner; f_createdAt := None |} random now
         = Throw e
      /\ ((e = InvalidName
           /\ forall t, name = VStr t -> (length (trim t) < 2)%nat)
          \/ ((exists t, name = VStr t /\ (2 <= length (trim t))%nat)
              /\ match Number_of price with
                 | Ok num => e = InvalidPrice /\ ge num zero = false
                 | Throw e' => e = e'
                 end))
  end.
Proof.
  intros Hs. unfold addNewProduct. unfold bind at 1.
  pose proof (construct_cases
                {| f_id := None; f_name := name; f_price := price;
                   f_owner := owner; f_createdAt := None |} random now)
    as Hcases.
  destruct (Product.construct
              {| f_id := None; f_name := name; f_price := price;
                 f_owner := owner; f_createdAt := None |} random now)
    as [p|e] eqn:Hp.
  2: { unfold Product.new. rewrite Hp. split; [done|].
       split; [by apply construct_throws in Hp|]. split; [done|exact Hcases]. }
  rewrite (new_ok _ _ _ _ p) by done.
  - pose proof (fresh_product st) as Hf. set (l := fresh (dom (products st))) in *.
    rewrite (create_ok _ l _ p s) by (done || apply lookup_insert_eq).
    pose proof (construct_name_ok _ _ _ _ Hp) as Hname.
    apply construct_fields in Hp as (Hid & Hown & Hat). simpl in Hid, Hown, Hat.
    split; [done|]. split.
    { exists p. simpl. by rewrite lookup_insert_eq. }
    split; [intros l' Hne; simpl; by rewrite lookup_insert_ne|].
    split.
    + rewrite (getById_ok _ _ _ (map_set (p_id p) l s))
        by (simpl; apply lookup_insert_eq).
      cbn [Product.key_of VStr mbind option_bind].
      by rewrite map_get_set, Hid, decide_True.
    + split.
      { unfold listAll, getAll, at_. run. simpl. rewrite lookup_insert_eq.
        by rewrite map_set_values, Hid. }
      destruct Hcases as (t & num & Ht & Hlen & Hnum & Hge & Hrec).
      simpl in Ht, Hnum, Hrec. exists t, num.
      do 4 (split; [done|]). simpl. rewrite lookup_insert_eq.
      split; by rewrite Hrec.
Qed.

(** X12. A product added with [addNewProduct] is removed again by
    [remove] with its id, which restores [listAll()], provided the
    generated id was not already a key of the repository. *)
Theorem addNewProduct_remove
    (this : service) (name price owner : value) (random : number) (now : date)
    (st st1 : state) (s : store) (l : loc) :
  repos st !! repo this = Some s ->
  map_get (Product.generateId random) s = None ->
  addNewProduct this name price owner random now st = (Ok l, st1) ->
  exists st2,
    remove this (VStr (Product.generateId random)) st1 = (Ok true, st2)
    /\ listAll this st2 = (Ok (s.*2), st2)
    /\ products st2 = products st1.
Proof.
  intros Hs Hnew Hadd. unfold addNewProduct in Hadd. unfold bind at 1 in Hadd.
  destruct (Product.construct
              {| f_id := None; f_name := name; f_price := price;
                 f_owner := owner; f_createdAt := None |} random now)
    as [p|e] eqn:Hp.
  2: { unfold Product.new in Hadd. by rewrite Hp in Hadd. }
  rewrite (new_ok _ _ _ _ p) in Hadd by done.
  rewrite (create_ok _ _ _ p s) in Hadd by (done || apply lookup_insert_eq).
  injection Hadd as <- <-.
  apply construct_fields in Hp as (Hid & _). simpl in Hid. rewrite Hid.
  unfold remove, listAll, getAll, delete, at_, put_store. run. simpl.
  rewrite lookup_insert_eq. simpl. unfold map_has.
  rewrite map_get_set, decide_True by done. simpl.
  eexists. split; [reflexivity|]. simpl. rewrite lookup_insert_eq.
  split; [|done]. do 3 f_equal.
  clear -Hnew. unfold map_delete.
  induction s as [|[k0 v0] s IH]; simpl in *.
  - by rewrite filter_cons, decide_False by (intros Hk; by apply Hk).
  - destruct (decide (k0 = Product.generateId random)) as [->|Hne]; [done|].
    rewrite filter_cons, decide_True by done. by rewrite IH.
Qed.

End ServiceProps2.

(** ** Dates across JSON, roles and the empty search *)
Section MoreProps.
Context `{Host}.
Import Num Str Val Date Conv Inv.

(** X13. [fromJSON] never rejects a creation date: a missing or empty
    [createdAt] gives the Product the current time, any other text is
    handed to [Date], and when [Date] cannot read it the Product carries
    an invalid Date.  [toJSON] of a Product throws, a RangeError, exactly
    when its Date is invalid.  Whether [fromJSON] throws depends on the
    name and the price only. *)
Theorem fromJSON_createdAt (j : json) (random : number) (now : date) :
  match Product.fromJSON j random now with
  | Ok p =>
      p_createdAt p = match j_createdAt j with
                      | None | Some [] => now
                      | Some s => date_of_string s
                      end
      /\ match Product.toJSON p with
         | Ok j' => exists t, p_createdAt p = Some t
                              /\ j_createdAt j' = Some (print_iso t)
         | Throw e => e = EngineRangeError /\ p_createdAt p = None
         end
  | Throw e =>
      forall id owner createdAt random' now',
        Product.construct {| f_id := id; f_name := j_name j;
                             f_price := j_price j; f_owner := owner;
                             f_createdAt := createdAt |} random' now'
        = Throw e
  end.
Proof.
  unfold Product.fromJSON, Product.construct. simpl.
  destruct (Product.checked_name (j_name j)) as [n|e]; [|done].
  destruct (Product.checked_price (j_price j)) as [x|e]; [|done].
  split.
  - simpl. unfold Product.createdAt_of_json.
    by destruct (j_createdAt j) as [[|c s]|].
  - unfold Product.toJSON. simpl.
    destruct (default now _) as [t|]; simpl; [by exists t|done].
Qed.

(** X14. [isAdmin()] compares the role with ["admin"]: it is [true] for
    every AdminUser, and for a User exactly when the role given to the
    constructor is the string ["admin"]; a role left out is ["user"].
    Such a User is still no AdminUser: [deleteProductFromUser] is not
    among its methods. *)
Theorem isAdmin_spec (name email role : value) (st : state) :
  (exists l st', AdminUser.new name email st = (Ok l, st')
                 /\ Get.isAdmin l st' = (Ok true, st'))
  /\ (exists l st' u b,
        User.new name email role st = (Ok l, st')
        /\ users st' !! l = Some u /\ u_admin u = false
        /\ Get.isAdmin l st' = (Ok b, st')
        /\ (b = true <-> role = VStr (js "admin"))).
Proof.
  split.
  - unfold AdminUser.new, User.alloc, Get.isAdmin, User.at_. run.
    eexists _, _. split; [reflexivity|]. simpl. by rewrite lookup_insert_eq.
  - unfold User.new, User.alloc, Get.isAdmin, User.at_. run.
    eexists _, _, _, _. split; [reflexivity|]. simpl. rewrite lookup_insert_eq.
    split; [done|]. split; [done|]. split; [done|]. simpl.
    rewrite bool_decide_eq_true.
    destruct role as [[]|?|?|? ?]; simpl; try (split; congruence).
    all: split; by intros [= ->].
Qed.

Lemma includes_nil (s : jsstring) : includes s [] = true.
Proof. by destruct s. Qed.

Lemma filter_all {A} (P : A -> Prop) `{!forall x, Decision (P x)} (l : list A) :
  (forall x, x ∈ l -> P x) -> filter P l = l.
Proof.
  induction l as [|x l IH]; [done|]. intros Hall.
  rewrite filter_cons_True by apply Hall, list_elem_of_here.
  rewrite IH; [done|]. intros y Hy. by apply Hall, list_elem_of_further.
Qed.

(** X15. The empty search term finds everything: with a [toLowerCase]
    that leaves the empty string empty, [findProductsByName("")] is
    [listProducts()] and [findByNameLike("")] is [getAll()]. *)
Theorem search_empty (this : loc) (st : state) :
  toLowerCase [] = [] -> consistent st ->
  (forall u, users st !! this = Some u ->
     User.findProductsByName this (VStr []) st = User.listProducts this st)
  /\ (forall s, repos st !! this = Some s ->
        ProductRepository.findByNameLike this (VStr []) st
        = ProductRepository.getAll this st).
Proof.
  intros Hlow (_ & Husers & Hrepos). split.
  - intros u Hu. destruct (Husers _ _ Hu) as [_ Hlive].
    unfold User.findProductsByName, User.listProducts, User.at_. run.
    simpl. rewrite Hu, Hlow. do 2 f_equal.
    apply filter_all. intros l Hl.
    destruct (Hlive l Hl) as [p Hp]. unfold Product.name_includes.
    rewrite Hp. apply includes_nil.
  - intros s Hs. destruct (Hrepos _ _ Hs) as [_ Hlive].
    unfold ProductRepository.findByNameLike, ProductRepository.getAll,
      ProductRepository.at_. run.
    simpl. rewrite Hs, Hlow. do 2 f_equal.
    apply filter_all. intros l Hl.
    apply list_elem_of_fmap in Hl as ([k l'] & -> & Hin).
    destruct (Hlive _ _ Hin) as (p & Hp & _). unfold Product.name_includes.
    simpl. rewrite Hp. apply includes_nil.
Qed.

End MoreProps.

(** ** The demo's objects, again *)
Section MoreExamples.
Import Num Str Val Date Conv Inv SampleHost Demo.

Lemma world_users : users world !! 1%positive = Some mona.
Proof. vm_compute. reflexivity. Qed.

Lemma world_repos : repos world !! 1%positive = Some shelf.
Proof. vm_compute. reflexivity. Qed.

Lemma world_live (l : loc) :
  l ∈ u_products mona -> is_Some (products world !! l).
Proof.
  unfold mona. simpl. intros Hl.
  apply elem_of_cons in Hl as [->|Hl];
    [|apply elem_of_cons in Hl as [->|Hl]; [|by apply elem_of_nil in Hl]];
    eexists; vm_compute; reflexivity.
Qed.

Lemma world_is_run :
  world
  = run [NewUser (VStr (js "Mona")) (VStr (js "mona@example.com")) undefined;
         NewAdminUser (VStr (js "Ziad")) (VStr (js "ziad@example.com"));
         AddProduct 1 (VStr (js "Phone Case")) (VNum (Num.of_Z 10)) half noon;
         AddProduct 1 (VStr (js "Power Bank")) (VNum (Num.of_Z 30)) quarter noon;
         NewRepository;
         Create 1 (VProduct 1);
         Create 1 (VProduct 2)].
Proof. vm_compute. reflexivity. Qed.

Lemma world_consistent : consistent world.
Proof.
  rewrite world_is_run. unfold run. cbn [foldl].
  repeat apply exec_consistent. apply consistent_empty.
Qed.

Lemma world_store_ok : store_ok world shelf.
Proof. exact (proj2 (proj2 world_consistent) _ _ world_repos). Qed.

(** Mona adds a Mug. *)
Lemma addProduct_spec_witness :
  users world !! 1%positive = Some mona
  /\ (forall l, l ∈ u_products mona -> is_Some (products world !! l))
  /\ exists st' p,
       User.addProduct 1 (VStr (js "Mug")) (VNum (Num.of_Z 7)) eighth noon world
       = (Ok 3%positive, st')
       /\ User.listProducts 1 st' = (Ok [1; 2; 3]%positive, st')
       /\ products st' !! 3%positive = Some p
       /\ p_name p = js "Mug" /\ p_price p = Num.of_Z 7
       /\ p_owner p = VStr (js "Mona").
Proof.
  split; [exact world_users|]. split; [exact world_live|].
  pose proof (addProduct_spec 1%positive (VStr (js "Mug")) (VNum (Num.of_Z 7))
                eighth noon world mona world_users world_live) as Hspec.
  assert (Hadd : fst (User.addProduct 1 (VStr (js "Mug")) (VNum (Num.of_Z 7))
                        eighth noon world) = Ok 3%positive)
    by (vm_compute; reflexivity).
  destruct (User.addProduct 1 (VStr (js "Mug")) (VNum (Num.of_Z 7))
              eighth noon world) as [r st'].
  simpl in Hadd. subst r.
  destruct Hspec as (_ & _ & _ & _ & Hlist & _ & _ & t & num & Ht & _ & Hnum & _
                     & Hstored & _).
  unfold VStr in Ht. injection Ht as <-.
  change (Number_of (VNum (Num.of_Z 7))) with (Ok (Num.of_Z 7)) in Hnum.
  injection Hnum as <-.
  eexists st', _. split; [reflexivity|]. split; [exact Hlist|].
  split; [exact Hstored|].
  split; [vm_compute; reflexivity|]. split; vm_compute; reflexivity.
Defined.

(** Mona adds a Mug and deletes it by its id. *)
Lemma addProduct_deleteProduct_witness :
  let st1 := snd (User.addProduct 1 (VStr (js "Mug")) (VNum (Num.of_Z 7))
                    eighth noon world) in
  users world !! 1%positive = Some mona
  /\ (forall l, l ∈ u_products mona -> is_Some (products world !! l))
  /\ (forall l, l ∈ u_products mona ->
        Product.has_id world (VStr (Product.generateId eighth)) l = false)
  /\ User.addProduct 1 (VStr (js "Mug")) (VNum (Num.of_Z 7)) eighth noon world
     = (Ok 3%positive, st1)
  /\ exists st2,
       User.deleteProduct 1 (VStr (Product.generateId eighth)) st1
       = (Ok 3%positive, st2)
       /\ User.listProducts 1 st2 = (Ok [1; 2]%positive, st2).
Proof.
  intros st1.
  assert (Hfree : forall l, l ∈ u_products mona ->
            Product.has_id world (VStr (Product.generateId eighth)) l = false).
  { unfold mona. simpl. intros l Hl.
    apply elem_of_cons in Hl as [->|Hl];
      [|apply elem_of_cons in Hl as [->|Hl]; [|by apply elem_of_nil in Hl]];
      vm_compute; reflexivity. }
  assert (Hadd : User.addProduct 1 (VStr (js "Mug")) (VNum (Num.of_Z 7))
                   eighth noon world = (Ok 3%positive, st1))
    by (vm_compute; reflexivity).
  split; [exact world_users|]. split; [exact world_live|].
  split; [exact Hfree|]. split; [exact Hadd|].
  destruct (addProduct_deleteProduct 1%positive (VStr (js "Mug"))
              (VNum (Num.of_Z 7)) eighth noon world st1 mona 3%positive
              world_users world_live Hfree Hadd) as (st2 & Hdel & Hlist & _).
  exists st2. split; [exact Hdel|exact Hlist].
Defined.

(** Mona reprices her Power Bank with a text; an unknown id is not found
    and a negative price is rejected. *)
Lemma updateProductPrice_spec_witness :
  users world !! 1%positive = Some mona
  /\ (exists st' p', User.updateProductPrice 1 (VStr (js "p_9"))
                    (VStr (js "12.345")) world = (Ok 2%positive, st')
                  /\ users st' = users world
                  /\ products st' !! 2%positive = Some p'
                  /\ p_price p' = of_decimal false 1235 (-2)
                  /\ p_name p' = js "Power Bank")
  /\ User.updateProductPrice 1 (VStr (js "p_0")) (VNum (Num.of_Z 5)) world
     = (Throw ProductNotFound, world)
  /\ User.updateProductPrice 1 (VStr (js "p_9")) (VNum (Num.of_Z (-5))) world
     = (Throw InvalidPrice, world).
Proof.
  split; [exact world_users|]. split.
  - pose proof (updateProductPrice_spec 1%positive (VStr (js "p_9"))
                  (VStr (js "12.345")) world mona world_users) as Hspec.
    assert (Hrun : fst (User.updateProductPrice 1 (VStr (js "p_9"))
                          (VStr (js "12.345")) world) = Ok 2%positive)
      by (vm_compute; reflexivity).
    destruct (User.updateProductPrice 1 (VStr (js "p_9"))
                (VStr (js "12.345")) world) as [r st'].
    simpl in Hrun. subst r.
    destruct Hspec as (_ & _ & _ & Husers & _ & _
                       & (p & p' & num & Hp & Hp' & Hnum & Hprice & _ & Hname & _)
                       & _).
    assert (Hnum' : Number_of (VStr (js "12.345"))
                    = Ok (of_decimal false 12345 (-3)))
      by (vm_compute; reflexivity).
    rewrite Hnum' in Hnum. injection Hnum as <-.
    assert (Hpb : p_name <$> products world !! 2%positive
                  = Some (js "Power Bank")) by (vm_compute; reflexivity).
    rewrite Hp in Hpb. injection Hpb as Hpb.
    exists st', p'. split; [reflexivity|]. split; [exact Husers|].
    split; [exact Hp'|]. split; [|congruence].
    rewrite Hprice. vm_compute. reflexivity.
  - split.
    2: { pose proof (updateProductPrice_spec 1%positive (VStr (js "p_9"))
                       (VNum (Num.of_Z (-5))) world mona world_users) as Hspec.
         assert (Hrun : fst (User.updateProductPrice 1 (VStr (js "p_9"))
                               (VNum (Num.of_Z (-5))) world)
                        = Throw InvalidPrice) by (vm_compute; reflexivity).
         destruct (User.updateProductPrice 1 (VStr (js "p_9"))
                     (VNum (Num.of_Z (-5))) world) as [r st'].
         simpl in Hrun. subst r. by rewrite (proj1 Hspec). }
    pose proof (updateProductPrice_spec 1%positive (VStr (js "p_0"))
                  (VNum (Num.of_Z 5)) world mona world_users) as Hspec.
    assert (Hrun : fst (User.updateProductPrice 1 (VStr (js "p_0"))
                          (VNum (Num.of_Z 5)) world) = Throw ProductNotFound)
      by (vm_compute; reflexivity).
    destruct (User.updateProductPrice 1 (VStr (js "p_0"))
                (VNum (Num.of_Z 5)) world) as [r st'].
    simpl in Hrun. subst r. by rewrite (proj1 Hspec).
Defined.

Lemma world_product_live (l : loc) :
  VProduct 2 = VProduct l -> is_Some (products world !! l).
Proof. intros [= <-]. eexists. vm_compute. reflexivity. Qed.

(** The Power Bank is stored again under its id: it keeps its place. *)
Lemma create_spec_witness :
  repos world !! 1%positive = Some shelf
  /\ (forall l, VProduct 2 = VProduct l -> is_Some (products world !! l))
  /\ exists st',
       ProductRepository.create 1 (VProduct 2) world = (Ok 2%positive, st')
       /\ ProductRepository.getAll 1 st' = (Ok [1; 2]%positive, st').
Proof.
  pose proof world_product_live as Hlive.
  split; [exact world_repos|]. split; [exact Hlive|].
  pose proof (create_spec 1%positive (VProduct 2) world shelf world_repos Hlive)
    as Hspec.
  assert (Hrun : fst (ProductRepository.create 1 (VProduct 2) world)
                 = Ok 2%positive) by (vm_compute; reflexivity).
  destruct (ProductRepository.create 1 (VProduct 2) world) as [r st'].
  simpl in Hrun. subst r. exists st'. split; [reflexivity|].
  destruct Hspec as (p & _ & Hp & _ & _ & _ & _ & Hall).
  rewrite Hall. do 2 f_equal.
  assert (Hid : p_id p = js "p_9").
  { assert (Hpb : p_id <$> products world !! 2%positive = Some (js "p_9"))
      by (vm_compute; reflexivity).
    rewrite Hp in Hpb. by injection Hpb. }
  rewrite Hid. vm_compute. reflexivity.
Defined.

(** [update] of the Power Bank does what [create] does. *)
Lemma update_spec_witness :
  repos world !! 1%positive = Some shelf
  /\ (forall l, VProduct 2 = VProduct l -> is_Some (products world !! l))
  /\ ProductRepository.update 1 (VProduct 2) world
     = ProductRepository.create 1 (VProduct 2) world.
Proof.
  pose proof world_product_live as Hlive.
  split; [exact world_repos|]. split; [exact Hlive|].
  pose proof (update_spec 1%positive (VProduct 2) world shelf world_repos Hlive)
    as Hspec.
  assert (Hrun : fst (ProductRepository.update 1 (VProduct 2) world)
                 = Ok 2%positive) by (vm_compute; reflexivity).
  destruct (ProductRepository.update 1 (VProduct 2) world) as [r st'].
  simpl in Hrun. subst r.
  destruct Hspec as (p & _ & _ & _ & Hcreate). by rewrite Hcreate.
Defined.

(** The service of the demo reprices the Phone Case; a text that is no
    number is rejected. *)
Lemma changePrice_spec_witness :
  repos world !! 1%positive = Some shelf /\ store_ok world shelf
  /\ (exists st' p',
        ProductService.changePrice {| ProductService.repo := 1 |}
          (VStr (js "p_i")) (VNum (Num.of_Z 12)) world = (Ok 1%positive, st')
        /\ ProductService.listAll {| ProductService.repo := 1 |} st'
           = (Ok [1; 2]%positive, st')
        /\ products st' !! 1%positive = Some p'
        /\ p_price p' = Num.of_Z 12 /\ p_name p' = js "Phone Case")
  /\ ProductService.changePrice {| ProductService.repo := 1 |}
       (VStr (js "p_i")) (VStr (js "abc")) world = (Throw InvalidPrice, world).
Proof.
  split; [exact world_repos|]. split; [exact world_store_ok|].
  pose proof (changePrice_spec {| ProductService.repo := 1 |}
                (VStr (js "p_i")) (VNum (Num.of_Z 12)) world shelf
                world_repos world_store_ok) as Hspec.
  assert (Hrun : fst (ProductService.changePrice {| ProductService.repo := 1 |}
                        (VStr (js "p_i")) (VNum (Num.of_Z 12)) world)
                 = Ok 1%positive) by (vm_compute; reflexivity).
  destruct (ProductService.changePrice {| ProductService.repo := 1 |}
              (VStr (js "p_i")) (VNum (Num.of_Z 12)) world) as [r st'].
  split.
  - simpl in Hrun. subst r.
    destruct Hspec as (k & p & num & _ & _ & Hp & Hnum & _ & _ & Hall & _ & _
                       & p' & Hp' & Hprice & _ & Hname & _).
    change (Number_of (VNum (Num.of_Z 12))) with (Ok (Num.of_Z 12)) in Hnum.
    injection Hnum as <-.
    assert (Hpc : products world !! 1%positive = Some phone_case)
      by (vm_compute; reflexivity).
    rewrite Hpc in Hp. injection Hp as <-.
    exists st', p'. split; [reflexivity|]. split; [exact Hall|].
    split; [exact Hp'|]. split; [|exact Hname].
    rewrite Hprice. vm_compute. reflexivity.
  - clear Hspec Hrun.
    pose proof (changePrice_spec {| ProductService.repo := 1 |}
                  (VStr (js "p_i")) (VStr (js "abc")) world shelf
                  world_repos world_store_ok) as Hspec.
    assert (Hrun : fst (ProductService.changePrice {| ProductService.repo := 1 |}
                          (VStr (js "p_i")) (VStr (js "abc")) world)
                   = Throw InvalidPrice) by (vm_compute; reflexivity).
    destruct (ProductService.changePrice {| ProductService.repo := 1 |}
                (VStr (js "p_i")) (VStr (js "abc")) world) as [r2 st2].
    simpl in Hrun. subst r2. by rewrite (proj1 Hspec).
Defined.

(** The service removes the Phone Case, which is then not found. *)
Lemma remove_spec_witness :
  repos world !! 1%positive = Some shelf /\ store_ok world shelf
  /\ exists st',
       ProductService.remove {| ProductService.repo := 1 |}
         (VStr (js "p_i")) world = (Ok true, st')
       /\ ProductRepository.getById 1 (VStr (js "p_i")) st' = (Ok None, st').
Proof.
  split; [exact world_repos|]. split; [exact world_store_ok|].
  pose proof (remove_spec {| ProductService.repo := 1 |}
                (VStr (js "p_i")) world shelf world_repos world_store_ok)
    as Hspec.
  assert (Hrun : is_ok (fst (ProductService.remove {| ProductService.repo := 1 |}
                               (VStr (js "p_i")) world)) = true)
    by (vm_compute; reflexivity).
  destruct (ProductService.remove {| ProductService.repo := 1 |}
              (VStr (js "p_i")) world) as [[b|e] st']; [|done].
  destruct Hspec as (-> & k & l & _ & _ & _ & _ & Hget & _).
  exists st'. split; [reflexivity|exact Hget].
Defined.

(** The service adds a Mug for Mona. *)
Lemma addNewProduct_spec_witness :
  repos world !! 1%positive = Some shelf
  /\ exists st' p,
       ProductService.addNewProduct {| ProductService.repo := 1 |}
         (VStr (js "Mug")) (VNum (Num.of_Z 7)) (VStr (js "Mona")) eighth noon
         world = (Ok 3%positive, st')
       /\ ProductRepository.getById 1 (VStr (Product.generateId eighth)) st'
          = (Ok (Some 3%positive), st')
       /\ products st' !! 3%positive = Some p
       /\ p_name p = js "Mug" /\ p_price p = Num.of_Z 7
       /\ p_owner p = VStr (js "Mona").
Proof.
  split; [exact world_repos|].
  pose proof (addNewProduct_spec {| ProductService.repo := 1 |}
                (VStr (js "Mug")) (VNum (Num.of_Z 7)) (VStr (js "Mona"))
                eighth noon world shelf world_repos) as Hspec.
  assert (Hrun : fst (ProductService.addNewProduct {| ProductService.repo := 1 |}
                        (VStr (js "Mug")) (VNum (Num.of_Z 7))
                        (VStr (js "Mona")) eighth noon world)
                 = Ok 3%positive) by (vm_compute; reflexivity).
  destruct (ProductService.addNewProduct {| ProductService.repo := 1 |}
              (VStr (js "Mug")) (VNum (Num.of_Z 7)) (VStr (js "Mona"))
              eighth noon world) as [r st'].
  simpl in Hrun. subst r.
  destruct Hspec as (_ & _ & _ & Hget & _ & t & num & Ht & _ & Hnum & _
                     & Hstored & _).
  unfold VStr in Ht. injection Ht as <-.
  change (Number_of (VNum (Num.of_Z 7))) with (Ok (Num.of_Z 7)) in Hnum.
  injection Hnum as <-.
  eexists st', _. split; [reflexivity|]. split; [exact Hget|].
  split; [exact Hstored|].
  split; [vm_compute; reflexivity|]. split; vm_compute; reflexivity.
Defined.

(** The service adds a Mug and removes it. *)
Lemma addNewProduct_remove_witness :
  let st1 := snd (ProductService.addNewProduct {| ProductService.repo := 1 |}
                    (VStr (js "Mug")) (VNum (Num.of_Z 7)) (VStr (js "Mona"))
                    eighth noon world) in
  repos world !! 1%positive = Some shelf
  /\ ProductRepository.map_get (Product.generateId eighth) shelf = None
  /\ ProductService.addNewProduct {| ProductService.repo := 1 |}
       (VStr (js "Mug")) (VNum (Num.of_Z 7)) (VStr (js "Mona")) eighth noon
       world = (Ok 3%positive, st1)
  /\ exists st2,
       ProductService.remove {| ProductService.repo := 1 |}
         (VStr (Product.generateId eighth)) st1 = (Ok true, st2)
       /\ ProductService.listAll {| ProductService.repo := 1 |} st2
          = (Ok [1; 2]%positive, st2).
Proof.
  intros st1.
  assert (Hnew : ProductRepository.map_get (Product.generateId eighth) shelf
                 = None) by (vm_compute; reflexivity).
  assert (Hadd : ProductService.addNewProduct {| ProductService.repo := 1 |}
                   (VStr (js "Mug")) (VNum (Num.of_Z 7)) (VStr (js "Mona"))
                   eighth noon world = (Ok 3%positive, st1))
    by (vm_compute; reflexivity).
  split; [exact world_repos|]. split; [exact Hnew|]. split; [exact Hadd|].
  destruct (addNewProduct_remove {| ProductService.repo := 1 |}
              (VStr (js "Mug")) (VNum (Num.of_Z 7)) (VStr (js "Mona"))
              eighth noon world st1 shelf 3%positive world_repos Hnew Hadd)
    as (st2 & Hrem & Hlist & _).
  exists st2. split; [exact Hrem|exact Hlist].
Defined.

(** The empty term finds both of Mona's products. *)
Lemma search_empty_witness :
  toLowerCase [] = [] /\ consistent world
  /\ User.findProductsByName 1 (VStr []) world = (Ok [1; 2]%positive, world).
Proof.
  assert (Hlow : toLowerCase [] = []) by reflexivity.
  split; [exact Hlow|]. split; [exact world_consistent|].
  rewrite (proj1 (search_empty 1%positive world Hlow world_consistent)
             mona world_users).
  vm_compute. reflexivity.
Defined.

End MoreExamples.

(** ** The demo runner *)
Section DemoProps.
Context `{Host}.
Import Num Str Val Date Conv Inv Runner ProductRepository.

Lemma mapM_ok {A B} (f : A -> M state B) (g : A -> B) (ls : list A) (st : state) :
  (forall x, x ∈ ls -> f x st = (Ok (g x), st)) ->
  mapM f ls st = (Ok (g <$> ls), st).
Proof.
  induction ls as [|x ls IH]; [done|]. intros Hf.
  cbn [mapM]. unfold bind at 1. rewrite (Hf x) by apply list_elem_of_here.
  unfold bind at 1. rewrite IH; [done|].
  intros y Hy. by apply Hf, list_elem_of_further.
Qed.

(** The names of products that are all there. *)
Lemma names_ok (ls : list loc) (st : state) :
  (forall l, l ∈ ls -> is_Some (products st !! l)) ->
  exists names, mapM (of_product p_name) ls st = (Ok names, st).
Proof.
  intros Hlive. eexists.
  apply (mapM_ok _ (fun l => default [] (p_name <$> products st !! l))).
  intros l Hl. destruct (Hlive l Hl) as [p Hp]. unfold of_product.
  by rewrite Hp.
Qed.

Lemma map_set_values_in (k : jsstring) (v l : loc) (s : store) :
  l ∈ (map_set k v s).*2 -> l = v \/ l ∈ s.*2.
Proof.
  induction s as [|[k0 v0] s IH]; simpl.
  - intros ->%list_elem_of_singleton. by left.
  - case_decide; simpl; intros [->|Hin]%elem_of_cons; auto.
    + right. by right.
    + right. by left.
    + destruct (IH Hin) as [->|?]; auto. right. by right.
Qed.

Lemma map_delete_values_in (k : jsstring) (l : loc) (s : store) :
  l ∈ (map_delete k s).*2 -> l ∈ s.*2.
Proof.
  unfold map_delete. intros ([k' l'] & -> & Hin)%list_elem_of_fmap.
  apply list_elem_of_filter in Hin as [_ Hin].
  apply list_elem_of_fmap. by exists (k', l').
Qed.

Lemma toJSON_ok (l : loc) (st : state) (p : product) (t : Z) :
  products st !! l = Some p -> p_createdAt p = Some t ->
  toJSON l st
  = (Ok {| j_id := Some (p_id p); j_name := VStr (p_name p);
           j_price := VNum (p_price p); j_owner := p_owner p;
           j_createdAt := Some (print_iso t) |}, st).
Proof.
  intros Hp Ht. unfold toJSON, Product.toJSON. by rewrite Hp, Ht.
Qed.

Lemma of_product_ok {A} (f : product -> A) (l : loc) (st : state) (p : product) :
  products st !! l = Some p -> of_product f l st = (Ok (f p), st).
Proof. intros Hp. unfold of_product. by rewrite Hp. Qed.

Lemma watch_constructed (random : number) (now : date) :
  Product.construct {| f_id := None; f_name := VStr (js "Watch");
                       f_price := VNum (Num.of_Z 120);
                       f_owner := VStr (js "Mona"); f_createdAt := None |}
                    random now
  = Ok {| p_id := Product.generateId random; p_name := js "Watch";
          p_price := Num.of_Z 120; p_owner := VStr (js "Mona");
          p_createdAt := now |}.
Proof. vm_compute. reflexivity. Qed.

(** The second half of the demo, from a user with two products. *)
Lemma repository_part_runs (this a b : loc) (u : user) (pa pb : product)
    (random : number) (t : Z) (st : state) :
  users st !! this = Some u -> u_products u = [a; b] ->
  products st !! a = Some pa -> products st !! b = Some pb ->
  exists (lines : list (string * shown)) (st' : state) (j : json),
    repository_part this random (Some t) st = (Ok lines, st')
    /\ length lines = 5%nat
    /\ lines !! 1%nat = Some ("After 10% discount:"%string, Json j)
    /\ j_name j = VStr (js "Watch") /\ j_price j = VNum (Num.of_Z 108)
    /\ users st' = users st.
Proof.
  intros Hu Hps Ha Hb. unfold repository_part.
  set (r := fresh (dom (repos st))).
  set (l := fresh (dom (products st))).
  assert (Hl : products st !! l = None) by apply fresh_product.
  assert (Hla : l <> a) by (intros ->; congruence).
  assert (Hlb : l <> b) by (intros ->; congruence).
  set (w := {| p_id := Product.generateId random; p_name := js "Watch";
               p_price := Num.of_Z 120; p_owner := VStr (js "Mona");
               p_createdAt := Some t |}).
  set (s2 := map_set (p_id pb) b (map_set (p_id pa) a [])).
  set (s3 := map_set (p_id w) l s2).
  set (w' := Product.with_price (Num.of_Z 108) w).
  set (st1 := set_repos <[r := []]> st).
  set (st2 := set_repos <[r := map_set (p_id pa) a []]> st1).
  set (st3 := set_repos <[r := s2]> st2).
  set (st4 := set_products <[l := w]> st3).
  set (st5 := set_repos <[r := s3]> st4).
  set (st6 := set_products <[l := w']> st5).
  set (st7 := set_repos <[r := map_delete (p_id w) s3]> st6).
  assert (Hget : map_get (p_id w) s3 = Some l)
    by (unfold s3; by rewrite map_get_set, decide_True).
  assert (Hw5 : products st5 !! l = Some w) by apply lookup_insert_eq.
  assert (Hw6 : products st6 !! l = Some w') by apply lookup_insert_eq.
  assert (Hr5 : repos st5 !! r = Some s3) by apply lookup_insert_eq.
  assert (Hlive : forall l', l' ∈ s3.*2 -> is_Some (products st6 !! l')).
  { intros l' Hin. unfold st6, st5, st4. simpl.
    destruct (decide (l' = l)) as [->|Hne]; [by rewrite lookup_insert_eq|].
    rewrite !lookup_insert_ne by done.
    apply map_set_values_in in Hin as [->|Hin]; [done|].
    apply map_set_values_in in Hin as [->|Hin]; [by rewrite Hb|].
    apply map_set_values_in in Hin as [->|Hin]; [by rewrite Ha|].
    by apply elem_of_nil in Hin. }
  assert (E1 : ProductRepository.new st = (Ok r, st1)) by done.
  assert (E2 : User.listProducts this st1 = (Ok [a; b], st1)).
  { unfold User.listProducts, User.at_, bind, ret.
    replace (users st1 !! this) with (Some u) by done. by rewrite Hps. }
  assert (E3 : mapM (fun prod => create r (VProduct prod)) [a; b] st1
               = (Ok [a; b], st3)).
  { cbn [mapM]. unfold bind, ret.
    rewrite (create_ok r a st1 pa []) by (done || apply lookup_insert_eq).
    fold st2.
    by rewrite (create_ok r b st2 pb (map_set (p_id pa) a []))
      by (done || apply lookup_insert_eq). }
  assert (E4 : ProductService.addNewProduct {| ProductService.repo := r |}
                 (VStr (js "Watch")) (VNum (Num.of_Z 120)) (VStr (js "Mona"))
                 random (Some t) st3 = (Ok l, st5)).
  { unfold ProductService.addNewProduct. unfold bind at 1.
    rewrite (new_ok _ _ _ _ w) by apply watch_constructed.
    change (fresh (dom (products st3))) with l. fold st4.
    by rewrite (create_ok _ l st4 w s2) by apply lookup_insert_eq. }
  assert (E5 : ProductService.discount {| ProductService.repo := r |}
                 (VStr (p_id w)) (VNum (Num.of_Z 10)) st5 = (Ok l, st6)).
  { unfold ProductService.discount. unfold bind at 1.
    rewrite (getById_ok _ _ _ _ Hr5). cbn [Product.key_of VStr mbind option_bind].
    rewrite Hget. unfold bind at 1.
    rewrite (on_ok _ _ _ _ Hw5), (discount_120_by_10 w) by done.
    fold w' st6.
    rewrite (update_ok _ l st6 w' s3 l) by done.
    change (p_id w') with (p_id w). rewrite (map_set_same _ _ _ Hget).
    by rewrite (state_put_store_back st6) by done. }
  assert (E6 : exists hits, ProductService.search {| ProductService.repo := r |}
                 (VStr (js "sh")) st6 = (Ok hits, st6)
               /\ forall l', l' ∈ hits -> l' ∈ s3.*2).
  { eexists. split.
    - unfold ProductService.search, findByNameLike, getAll, at_, lift, bind, get, ret.
      simpl String_of. cbv beta iota.
      replace (repos st6 !! ProductService.repo {| ProductService.repo := r |})
        with (Some s3) by done.
      reflexivity.
    - intros l' Hin. by apply list_elem_of_filter in Hin as [_ Hin]. }
  destruct E6 as (hits & E6 & Hhits).
  destruct (names_ok hits st6) as [hit_names E7]; [by intros l' ?%Hhits%Hlive|].
  assert (E8 : ProductService.remove {| ProductService.repo := r |}
                 (VStr (p_id w)) st6 = (Ok true, st7)).
  { unfold ProductService.remove, delete, at_, put_store, bind, ret, map_has.
    replace (repos st6 !! ProductService.repo {| ProductService.repo := r |})
      with (Some s3) by done.
    cbn [Product.key_of VStr]. rewrite Hget.
    by rewrite bool_decide_true by done. }
  assert (E9 : ProductService.listAll {| ProductService.repo := r |} st7
               = (Ok ((map_delete (p_id w) s3).*2), st7)).
  { unfold ProductService.listAll, getAll, at_, bind, ret.
    by replace (repos st7 !! ProductService.repo {| ProductService.repo := r |})
      with (Some (map_delete (p_id w) s3)) by (symmetry; apply lookup_insert_eq). }
  destruct (names_ok ((map_delete (p_id w) s3).*2) st7) as [all_names E10].
  { intros l' Hin%map_delete_values_in. by apply Hlive. }
  eexists _, st7, _. split.
  - unfold bind at 1. rewrite E1. cbv beta iota zeta.
    unfold bind at 1. rewrite E2. cbv beta iota.
    unfold bind at 1. rewrite E3. cbv beta iota.
    unfold bind at 1. rewrite E4. cbv beta iota.
    unfold bind at 1. rewrite (toJSON_ok l st5 w t) by done. cbv beta iota.
    unfold bind at 1. rewrite (of_product_ok p_id l st5 w) by done. cbv beta iota.
    unfold bind at 1. rewrite E5. cbv beta iota.
    unfold bind at 1. rewrite (of_product_ok p_id l st6 w') by done. cbv beta iota.
    unfold bind at 1. change (p_id w') with (p_id w).
    rewrite (getById_ok r _ st6 s3) by done.
    cbn [Product.key_of VStr mbind option_bind]. rewrite Hget. cbv beta iota.
    unfold bind at 1. rewrite (toJSON_ok l st6 w' t) by done. cbv beta iota.
    unfold bind at 1. rewrite E6. cbv beta iota.
    unfold bind at 1. rewrite E7. cbv beta iota.
    unfold bind at 1. rewrite (of_product_ok p_id l st6 w') by done. cbv beta iota.
    unfold bind at 1. change (p_id w') with (p_id w). rewrite E8. cbv beta iota.
    unfold bind at 1. rewrite E9. cbv beta iota.
    unfold bind at 1. rewrite E10. cbv beta iota.
    reflexivity.
  - split; [done|]. split; [done|]. split; [done|]. split; [done|]. done.
Qed.


Lemma jsons_ok (ls : list loc) (st : state) :
  (forall l, l ∈ ls ->
     exists p t, products st !! l = Some p /\ p_createdAt p = Some t) ->
  exists jsons, mapM toJSON ls st = (Ok jsons, st).
Proof.
  intros Hlive.
  exists ((fun l => match products st !! l with
                    | Some p => match Product.toJSON p with
                                | Ok j => j
                                | Throw _ => {| j_id := None; j_name := undefined;
                                                j_price := undefined;
                                                j_owner := undefined;
                                                j_createdAt := None |}
                                end
                    | None => {| j_id := None; j_name := undefined;
                                 j_price := undefined; j_owner := undefined;
                                 j_createdAt := None |}
                    end) <$> ls).
  apply mapM_ok. intros l Hl. destruct (Hlive l Hl) as (p & t & Hp & Ht).
  unfold toJSON. rewrite Hp. unfold Product.toJSON. by rewrite Ht.
Qed.

(** [updateProductPrice] and [deleteProduct] take the first product with
    the id. *)
Lemma find_head (st : state) (id : jsstring) (l : loc) (rest : list loc)
    (p : product) :
  products st !! l = Some p -> p_id p = id ->
  list_find (fun l' => Product.has_id st (VStr id) l' = true) (l :: rest)
  = Some (0%nat, l).
Proof.
  intros Hp Hid. cbn [list_find]. rewrite decide_True; [done|].
  unfold Product.has_id. rewrite Hp. simpl. by rewrite Hid, bool_decide_true.
Qed.

Lemma find_second (st : state) (id : jsstring) (l0 l : loc) (rest : list loc)
    (p0 p : product) :
  products st !! l0 = Some p0 -> p_id p0 <> id ->
  products st !! l = Some p -> p_id p = id ->
  list_find (fun l' => Product.has_id st (VStr id) l' = true) (l0 :: l :: rest)
  = Some (1%nat, l).
Proof.
  intros Hp0 Hne Hp Hid. cbn [list_find]. rewrite decide_False.
  - rewrite decide_True; [done|].
    unfold Product.has_id. rewrite Hp. simpl. by rewrite Hid, bool_decide_true.
  - unfold Product.has_id. rewrite Hp0. simpl.
    rewrite bool_decide_false; [done|]. congruence.
Qed.

(** X16. [demo()] runs to its end whatever [Math.random()] returns, so also
    when generated ids collide, and whatever the time is: no call in it
    throws.  It logs nine lines; the price of the Phone Case after
    [updateProductPrice] is logged as 12.5 and the Watch after the
    discount of 10 per cent with the price 108; the admin's delete leaves
    the user two products. *)
Theorem demo_runs (r1 r2 r3 r4 : number) (t1 t2 t3 t4 : Z) :
  exists (lines : list (string * shown)) (st : state) (j : json) (u : user),
    demo r1 r2 r3 r4 (Some t1) (Some t2) (Some t3) (Some t4) empty_state
    = (Ok lines, st)
    /\ length lines = 9%nat
    /\ lines !! 2%nat
       = Some ("Updated price of p1:"%string, Price (of_decimal false 125 (-1)))
    /\ lines !! 5%nat = Some ("After 10% discount:"%string, Json j)
    /\ j_name j = VStr (js "Watch") /\ j_price j = VNum (Num.of_Z 108)
    /\ users st !! 1%positive = Some u /\ length (u_products u) = 2%nat.
Proof.
  pose (mona0 := {| u_admin := false; u_name := VStr (js "Mona");
     u_email := VStr (js "mona@example.com"); u_role := VStr (js "user");
     u_products := [] |}).
  pose (ziad := {| u_admin := true; u_name := VStr (js "Ziad");
     u_email := VStr (js "ziad@example.com"); u_role := VStr (js "admin");
     u_products := [] |}).
  pose (St := fun (ps : gmap positive product) (coll : list loc) =>
     {| products := ps;
        users := <[1%positive := User.with_products coll mona0]>
                   (<[2%positive := ziad]> ∅);
        repos := ∅ |}).
  set (id1 := Product.generateId r1). set (id2 := Product.generateId r2).
  set (id3 := Product.generateId r3).
  pose (P1 := {| p_id := id1; p_name := js "Phone Case";
                 p_price := Num.of_Z 10; p_owner := VStr (js "Mona");
                 p_createdAt := Some t1 |}).
  pose (P2 := {| p_id := id2; p_name := js "Power Bank";
                 p_price := Num.of_Z 30; p_owner := VStr (js "Mona");
                 p_createdAt := Some t2 |}).
  pose (P3 := {| p_id := id3; p_name := js "Shoes";
                 p_price := Num.of_Z 55; p_owner := VStr (js "Mona");
                 p_createdAt := Some t3 |}).
  pose (P1' := Product.with_price (of_decimal false 125 (-1)) P1).
  pose (S1 := set_users <[1%positive := mona0]> empty_state).
  pose (S3 := St (<[3%positive := P3]> (<[2%positive := P2]>
                    (<[1%positive := P1]> (∅ : gmap positive product)))) [1; 2; 3]%positive).
  pose (ps4 := <[3%positive := P3]> (<[2%positive := P2]>
                 (<[1%positive := P1']> (∅ : gmap positive product)))).
  pose (S4 := St ps4 [1; 2; 3]%positive).
  assert (E1 : User.new (VStr (js "Mona")) (VStr (js "mona@example.com"))
                 undefined empty_state = (Ok 1%positive, S1))
    by (vm_compute; reflexivity).
  assert (E2 : AdminUser.new (VStr (js "Ziad")) (VStr (js "ziad@example.com")) S1
               = (Ok 2%positive, St ∅ [])) by (vm_compute; reflexivity).
  assert (E3 : User.addProduct 1 (VStr (js "Phone Case")) (VNum (Num.of_Z 10))
                 r1 (Some t1) (St ∅ [])
               = (Ok 1%positive, St (<[1%positive := P1]> (∅ : gmap positive product)) [1%positive]))
    by (vm_compute; reflexivity).
  assert (E4 : User.addProduct 1 (VStr (js "Power Bank")) (VNum (Num.of_Z 30))
                 r2 (Some t2) (St (<[1%positive := P1]> (∅ : gmap positive product)) [1%positive])
               = (Ok 2%positive,
                  St (<[2%positive := P2]> (<[1%positive := P1]> (∅ : gmap positive product)))
                     [1; 2]%positive))
    by (vm_compute; reflexivity).
  assert (E5 : User.addProduct 1 (VStr (js "Shoes")) (VNum (Num.of_Z 55))
                 r3 (Some t3)
                 (St (<[2%positive := P2]> (<[1%positive := P1]> (∅ : gmap positive product)))
                     [1; 2]%positive)
               = (Ok 3%positive, S3)) by (vm_compute; reflexivity).
  assert (E6 : User.listProducts 1 S3 = (Ok [1; 2; 3]%positive, S3))
    by (vm_compute; reflexivity).
  destruct (jsons_ok [1; 2; 3]%positive S3) as [user_products E7].
  { intros l Hl.
    apply elem_of_cons in Hl as [->|Hl]; [exists P1, t1; split; [vm_compute; reflexivity|reflexivity]|].
    apply elem_of_cons in Hl as [->|Hl]; [exists P2, t2; split; [vm_compute; reflexivity|reflexivity]|].
    apply elem_of_cons in Hl as [->|Hl]; [exists P3, t3; split; [vm_compute; reflexivity|reflexivity]|].
    destruct (proj1 (elem_of_nil _) Hl). }
  clearbody id1 id2 id3.
  assert (E8 : User.updateProductPrice 1 (VStr id1)
                 (VNum (of_decimal false 125 (-1))) S3 = (Ok 1%positive, S4)).
  { unfold User.updateProductPrice, User.at_, bind, get, ret.
    change (users S3 !! 1%positive)
      with (Some (User.with_products [1; 2; 3]%positive mona0)).
    cbv beta iota. cbn [u_products User.with_products].
    assert (Hp1 : products S3 !! 1%positive = Some P1)
      by (vm_compute; reflexivity).
    rewrite (find_head S3 id1 1 _ P1 Hp1 eq_refl).
    rewrite (on_ok _ _ _ P1 Hp1).
    change (Product.set_price (VNum (of_decimal false 125 (-1))) P1)
      with (Ok tt, P1').
    cbv beta iota. f_equal. all: vm_compute; reflexivity. }
  assert (Hp1 : products S4 !! 1%positive = Some P1') by (vm_compute; reflexivity).
  assert (Hp2 : products S4 !! 2%positive = Some P2) by (vm_compute; reflexivity).
  assert (Hp3 : products S4 !! 3%positive = Some P3) by (vm_compute; reflexivity).
  assert (Hu4 : users S4 !! 1%positive
                = Some (User.with_products [1; 2; 3]%positive mona0))
    by (vm_compute; reflexivity).
  assert (Hz4 : users S4 !! 2%positive = Some ziad) by (vm_compute; reflexivity).
  assert (E9 : User.listProducts 1 S4 = (Ok [1; 2; 3]%positive, S4)).
  { unfold User.listProducts, User.at_, bind, ret. rewrite Hu4. reflexivity. }
  assert (E10 : exists (a b : loc) (pa pb : product) (ta tb : Z) (S5 : state),
            AdminUser.deleteProductFromUser 2 (VUser 1) (VStr id2) S4
            = (Ok (if decide (id1 = id2) then 1%positive else 2%positive), S5)
            /\ users S5 !! 1%positive = Some (User.with_products [a; b] mona0)
            /\ products S5 !! a = Some pa /\ p_createdAt pa = Some ta
            /\ products S5 !! b = Some pb /\ p_createdAt pb = Some tb).
  { unfold AdminUser.deleteProductFromUser, User.at_. unfold bind at 1.
    rewrite Hz4. cbv beta iota. cbn [u_admin ziad negb].
    unfold User.deleteProduct, User.at_, User.put_products, bind, get, ret.
    rewrite Hu4. cbv beta iota. cbn [u_products User.with_products].
    destruct (decide (id1 = id2)) as [Heq|Hne].
    - rewrite (find_head S4 id2 1 _ P1' Hp1 Heq). cbv beta iota.
      exists 2%positive, 3%positive, P2, P3, t2, t3. eexists.
      split; [reflexivity|].
      split; [vm_compute; reflexivity|].
      split; [exact Hp2|]. split; [reflexivity|].
      split; [exact Hp3|reflexivity].
    - rewrite (find_second S4 id2 1 2 _ P1' P2 Hp1 Hne Hp2 eq_refl).
      cbv beta iota.
      exists 1%positive, 3%positive, P1', P3, t1, t3. eexists.
      split; [reflexivity|].
      split; [vm_compute; reflexivity|].
      split; [exact Hp1|]. split; [reflexivity|].
      split; [exact Hp3|reflexivity]. }
  destruct E10 as (a & b & pa & pb & ta & tb & S5 & E10 & Hu5 & Ha & Hta & Hb & Htb).
  assert (E11 : User.listProducts 1 S5 = (Ok [a; b], S5)).
  { unfold User.listProducts, User.at_, bind, ret. rewrite Hu5. reflexivity. }
  destruct (jsons_ok [a; b] S5) as [after_delete E12].
  { intros l Hl.
    apply elem_of_cons in Hl as [->|Hl]; [exists pa, ta; split; assumption|].
    apply elem_of_cons in Hl as [->|Hl]; [exists pb, tb; split; assumption|].
    destruct (proj1 (elem_of_nil _) Hl). }
  destruct (repository_part_runs 1%positive a b _ pa pb r4 t4 S5 Hu5 eq_refl Ha Hb)
    as (rest & st & j & E13 & Hlen & Hline & Hname & Hprice & Husers).
  exists ([("=== OOP JS Demo Start ==="%string, Nothing);
           ("User products:"%string, Jsons user_products);
           ("Updated price of p1:"%string, Price (of_decimal false 125 (-1)));
           ("After admin delete:"%string, Jsons after_delete)] ++ rest),
    st, j, (User.with_products [a; b] mona0).
  split.
  - unfold demo.
    unfold bind at 1. rewrite E1. cbv beta iota.
    unfold bind at 1. rewrite E2. cbv beta iota.
    unfold bind at 1. rewrite E3. cbv beta iota.
    unfold bind at 1. rewrite E4. cbv beta iota.
    unfold bind at 1. rewrite E5. cbv beta iota.
    unfold bind at 1. rewrite E6. cbv beta iota.
    unfold bind at 1. rewrite E7. cbv beta iota.
    unfold bind at 1. rewrite (of_product_ok p_id 1 S3 P1) by (vm_compute; reflexivity).
    cbv beta iota. cbn [p_id P1].
    unfold bind at 1. rewrite E8. cbv beta iota.
    unfold bind at 1. rewrite E9. cbv beta iota.
    unfold bind at 1. rewrite (of_product_ok p_id 1 S4 P1' Hp1).
    cbv beta iota. change (p_id P1') with id1.
    unfold bind at 1. unfold get at 1. cbv beta iota.
    unfold bind at 1. rewrite (find_head S4 id1 1 _ P1' Hp1 eq_refl).
    rewrite (of_product_ok p_price 1 S4 P1' Hp1). cbv beta iota.
    unfold bind at 1. rewrite (of_product_ok p_id 2 S4 P2 Hp2).
    cbv beta iota. change (p_id P2) with id2.
    unfold bind at 1. rewrite E10. cbv beta iota.
    unfold bind at 1. rewrite E11. cbv beta iota.
    unfold bind at 1. rewrite E12. cbv beta iota.
    unfold bind at 1. rewrite E13. cbv beta iota.
    reflexivity.
  - split; [cbn [length app]; by rewrite Hlen|].
    split; [reflexivity|].
    split; [exact Hline|].
    split; [exact Hname|]. split; [exact Hprice|].
    split; [by rewrite Husers|reflexivity].
Qed.

End DemoProps.

(** ** Rounding to two decimals, twice *)
Section RoundingProps.
Import Num.

Ltac pows :=
  repeat match goal with
         | |- context [2 ^ Zpos ?k] =>
             let v := eval vm_compute in (2 ^ Zpos k) in
             change (2 ^ Zpos k) with v
         | |- context [- Zneg ?k] => change (- Zneg k) with (Zpos k)
         end.

(** The integer nearest to [num / den] is within half of it. *)
Lemma nearest_spec (num den : Z) :
  0 < den ->
  let q := num / den in
  let m := match 2 * (num mod den) ?= den with
           | Lt => q
           | Gt => q + 1
           | Eq => if Z.even q then q else q + 1
           end in
  2 * Z.abs (num - den * m) <= den.
Proof.
  intros Hden q m. subst q m.
  pose proof (Z.div_mod num den ltac:(lia)) as Hdiv.
  pose proof (Z.mod_pos_bound num den Hden) as Hmod.
  destruct (Z.compare_spec (2 * (num mod den)) den) as [Heq|Hlt|Hgt].
  - destruct (Z.even (num / den)); lia.
  - lia.
  - lia.
Qed.

(** [floor_log2 a b] is the binary exponent of [a / b], when that is not
    negative. *)
Lemma floor_log2_spec (a b : Z) :
  0 < a -> 0 < b -> 0 <= floor_log2 a b ->
  b * 2 ^ floor_log2 a b <= a < b * 2 ^ (floor_log2 a b + 1).
Proof.
  intros Ha Hb. unfold floor_log2.
  pose proof (Z.log2_spec a Ha) as [Ha1 Ha2].
  pose proof (Z.log2_spec b Hb) as [Hb1 Hb2].
  pose proof (Z.log2_nonneg a) as Hla. pose proof (Z.log2_nonneg b) as Hlb.
  set (d := Z.log2 a - Z.log2 b) in *.
  destruct (0 <=? d) eqn:Hd.
  - apply Z.leb_le in Hd.
    destruct (b * 2 ^ d <=? a) eqn:Htest.
    + apply Z.leb_le in Htest. intros _. split; [done|].
      replace (Z.succ (Z.log2 a)) with (Z.log2 b + (d + 1)) in Ha2 by lia.
      rewrite Z.pow_add_r in Ha2 by lia. nia.
    + apply Z.leb_gt in Htest. intros Hd1.
      replace (d - 1 + 1) with d by lia. split; [|done].
      replace (Z.log2 a) with (Z.succ (Z.log2 b) + (d - 1)) in Ha1 by lia.
      rewrite Z.pow_add_r in Ha1 by lia.
      assert (0 < 2 ^ (d - 1)) by (apply Z.pow_pos_nonneg; lia). nia.
  - apply Z.leb_gt in Hd. destruct (b <=? a * 2 ^ (- d)); lia.
Qed.

Lemma floor_log2_unique (a b f : Z) :
  0 < a -> 0 < b -> 0 <= f ->
  b * 2 ^ f <= a < b * 2 ^ (f + 1) -> floor_log2 a b = f.
Proof.
  intros Ha Hb Hf [Hlo Hhi].
  pose proof (Z.log2_spec a Ha) as [Ha1 Ha2].
  pose proof (Z.log2_spec b Hb) as [Hb1 Hb2].
  pose proof (Z.log2_nonneg a) as Hla. pose proof (Z.log2_nonneg b) as Hlb.
  assert (Hd : f <= Z.log2 a - Z.log2 b <= f + 1).
  { split.
    - assert (Hlt : 2 ^ (Z.log2 b + f) < 2 ^ Z.succ (Z.log2 a)).
      { rewrite Z.pow_add_r by lia.
        assert (0 < 2 ^ f) by (apply Z.pow_pos_nonneg; lia). nia. }
      apply Z.pow_lt_mono_r_iff in Hlt; lia.
    - assert (Hlt : 2 ^ Z.log2 a < 2 ^ (Z.succ (Z.log2 b) + (f + 1))).
      { rewrite Z.pow_add_r by lia.
        assert (0 < 2 ^ (f + 1)) by (apply Z.pow_pos_nonneg; lia). nia. }
      apply Z.pow_lt_mono_r_iff in Hlt; lia. }
  unfold floor_log2. set (d := Z.log2 a - Z.log2 b) in *.
  replace (0 <=? d) with true by (symmetry; apply Z.leb_le; lia).
  destruct (decide (d = f)) as [->|Hne].
  - by replace (b * 2 ^ f <=? a) with true by (symmetry; by apply Z.leb_le).
  - replace d with (f + 1) by lia.
    replace (b * 2 ^ (f + 1) <=? a) with false by (symmetry; by apply Z.leb_gt).
    lia.
Qed.

(** What [of_ratio] returns when it returns a finite Number: the
    significand is the integer nearest to the ratio scaled by the unit in
    the last place, [2 ^ 53] being written [2 ^ 52] one place up. *)
Lemma of_ratio_finite (neg : bool) (a : Z) (b : positive)
    (s : bool) (m : positive) (e : Z) :
  of_ratio neg a b = S754_finite s m e ->
  0 < a /\ s = neg /\ e <= 971
  /\ exists e0 m0,
       e0 = Z.max (floor_log2 a (Zpos b) - 52) (-1074)
       /\ 2 * Z.abs ((if 0 <=? e0 then a else a * 2 ^ (- e0))
                     - (if 0 <=? e0 then Zpos b * 2 ^ e0 else Zpos b) * m0)
          <= (if 0 <=? e0 then Zpos b * 2 ^ e0 else Zpos b)
       /\ (if 0 <=? e0 then a else a * 2 ^ (- e0))
            / (if 0 <=? e0 then Zpos b * 2 ^ e0 else Zpos b) <= m0
          <= (if 0 <=? e0 then a else a * 2 ^ (- e0))
               / (if 0 <=? e0 then Zpos b * 2 ^ e0 else Zpos b) + 1
       /\ ((m0 = 2 ^ 53 /\ Zpos m = 2 ^ 52 /\ e = e0 + 1)
           \/ (m0 <> 2 ^ 53 /\ Zpos m = m0 /\ e = e0)).
Proof.
  unfold of_ratio. destruct (a <=? 0) eqn:Ha; [done|]. apply Z.leb_gt in Ha.
  set (e0 := Z.max (floor_log2 a (Zpos b) - 52) (-1074)).
  set (num := if 0 <=? e0 then a else a * 2 ^ (- e0)).
  set (den := if 0 <=? e0 then Zpos b * 2 ^ e0 else Zpos b).
  assert (Hden : 0 < den).
  { unfold den. destruct (0 <=? e0) eqn:He0; [|lia].
    apply Z.leb_le in He0.
    assert (0 < 2 ^ e0) by (apply Z.pow_pos_nonneg; lia). lia. }
  pose proof (nearest_spec num den Hden) as Hnear. cbv zeta in Hnear.
  set (m0 := match 2 * (num mod den) ?= den with
             | Lt => num / den
             | Gt => num / den + 1
             | Eq => if Z.even (num / den) then num / den else num / den + 1
             end) in *.
  assert (Hm0 : num / den <= m0 <= num / den + 1).
  { unfold m0. destruct (2 * (num mod den) ?= den); [|lia|lia].
    destruct (Z.even (num / den)); lia. }
  cbv zeta. fold e0 num den m0.
  destruct (m0 =? 2 ^ 53) eqn:Hadj.
  - apply Z.eqb_eq in Hadj. change (2 ^ 52) with (Zpos (2 ^ 52)%positive).
    cbv iota beta.
    destruct (971 <? e0 + 1) eqn:Hbig; [done|]. apply Z.ltb_ge in Hbig.
    intros [= <- <- <-]. split; [done|]. split; [done|]. split; [done|].
    exists e0, m0. split; [done|]. split; [done|]. split; [done|].
    left. by split.
  - apply Z.eqb_neq in Hadj. destruct m0 as [|p|p] eqn:Hp; [done| |done].
    destruct (971 <? e0) eqn:Hbig; [done|]. apply Z.ltb_ge in Hbig.
    intros [= <- <- <-]. split; [done|]. split; [done|]. split; [done|].
    exists e0, (Zpos p). split; [done|]. split; [done|]. split; [done|].
    right. by split.
Qed.

(** A finite Number that [of_ratio] returns with an exponent above the
    least is normal. *)
Lemma of_ratio_normal (neg : bool) (a : Z) (b : positive)
    (s : bool) (m : positive) (e : Z) :
  of_ratio neg a b = S754_finite s m e -> -6 <= e ->
  2 ^ 52 <= Zpos m < 2 ^ 53.
Proof.
  intros Hfin He.
  apply of_ratio_finite in Hfin
    as (Ha & _ & _ & e0 & m0 & He0 & _ & Hm0 & Hadj).
  assert (Hfl : e0 = floor_log2 a (Zpos b) - 52) by lia.
  pose proof (floor_log2_spec a (Zpos b) Ha ltac:(lia) ltac:(lia)) as [Hlo Hhi].
  replace (floor_log2 a (Zpos b)) with (e0 + 52) in Hlo, Hhi by lia.
  assert (Hq : 2 ^ 52 <= (if 0 <=? e0 then a else a * 2 ^ (- e0))
                         / (if 0 <=? e0 then Zpos b * 2 ^ e0 else Zpos b)
               < 2 ^ 53).
  { destruct (0 <=? e0) eqn:Hsign.
    - apply Z.leb_le in Hsign.
      assert (0 < 2 ^ e0) by (apply Z.pow_pos_nonneg; lia).
      rewrite Z.pow_add_r in Hlo by lia.
      replace (e0 + 52 + 1) with (e0 + 53) in Hhi by lia.
      rewrite Z.pow_add_r in Hhi by lia.
      split.
      + apply Z.div_le_lower_bound; [lia|]. lia.
      + apply Z.div_lt_upper_bound; [lia|]. lia.
    - apply Z.leb_gt in Hsign.
      assert (Hp : 0 < 2 ^ (- e0)) by (apply Z.pow_pos_nonneg; lia).
      assert (H52 : 2 ^ (e0 + 52) * 2 ^ (- e0) = 2 ^ 52)
        by (rewrite <- Z.pow_add_r by lia; f_equal; lia).
      assert (H53 : 2 ^ (e0 + 52 + 1) * 2 ^ (- e0) = 2 ^ 53)
        by (rewrite <- Z.pow_add_r by lia; f_equal; lia).
      split.
      + apply Z.div_le_lower_bound; [lia|]. nia.
      + apply Z.div_lt_upper_bound; [lia|]. nia. }
  destruct Hadj as [(_ & -> & _)|(Hne & -> & _)]; lia.
Qed.

(** Below [2 ^ 46] the nearest Number to a number of cents is nearer to
    it than half a cent. *)
Lemma to_cents_of_ratio (neg : bool) (n : Z) (s : bool) (m : positive) (e : Z) :
  of_ratio neg n 100 = S754_finite s m e -> e <= -7 ->
  to_cents m e = n.
Proof.
  intros Hfin He.
  apply of_ratio_finite in Hfin
    as (Hn & _ & _ & e0 & m0 & He0 & Hnear & _ & Hadj).
  assert (Hneg : e0 < 0) by lia.
  replace (0 <=? e0) with false in Hnear by (symmetry; apply Z.leb_gt; lia).
  destruct e as [|k|k]; [lia|lia|]. unfold to_cents.
  assert (Hk : 7 <= Zpos k) by lia.
  assert (Hpow : 2 ^ 7 <= 2 ^ Zpos k) by (apply Z.pow_le_mono_r; lia).
  change (2 ^ 7) with 128 in Hpow.
  symmetry. apply Z.div_unique with (r := 200 * Zpos m + 2 ^ Zpos k
                                           - 2 * 2 ^ Zpos k * n).
  - left. destruct Hadj as [(Hm0 & Hm & He1)|(_ & Hm & He1)].
    + replace (- e0) with (Zpos k + 1) in Hnear by lia.
      rewrite Z.pow_add_r in Hnear by lia. rewrite Hm. subst m0.
      change (2 ^ 1) with 2 in Hnear. change (2 ^ 53) with (2 * 2 ^ 52) in Hnear.
      lia.
    + replace (- e0) with (Zpos k) in Hnear by lia. rewrite Hm. lia.
  - lia.
Qed.

Lemma nearest_exact (num m : Z) :
  -50 < num - 100 * m < 50 ->
  match 2 * (num mod 100) ?= 100 with
  | Lt => num / 100
  | Gt => num / 100 + 1
  | Eq => if Z.even (num / 100) then num / 100 else num / 100 + 1
  end = m.
Proof.
  intros Hd.
  pose proof (Z.div_mod num 100 ltac:(lia)) as Hdm.
  pose proof (Z.mod_pos_bound num 100 ltac:(lia)) as Hmb.
  destruct (Z.compare_spec (2 * (num mod 100)) 100) as [Heq|Hlt|Hgt]; lia.
Qed.

(** From [2 ^ 46] on a Number is the nearest one to its number of
    cents. *)
Lemma of_ratio_to_cents (neg : bool) (m : positive) (e : Z) :
  2 ^ 52 <= Zpos m < 2 ^ 53 -> -6 <= e <= 971 ->
  of_ratio neg (to_cents m e) 100 = S754_finite neg m e.
Proof.
  intros Hm He.
  assert (Hcases : 0 <= e \/ e = -1 \/ e = -2 \/ e = -3 \/ e = -4 \/ e = -5
                   \/ e = -6) by lia.
  destruct Hcases as [Hpos|Hneg].
  - assert (Hcents : to_cents m e = 100 * (Zpos m * 2 ^ e))
      by (destruct e; [done|done|lia]).
    assert (Hp : 0 < 2 ^ e) by (apply Z.pow_pos_nonneg; lia).
    assert (Hfl : floor_log2 (to_cents m e) 100 = 52 + e).
    { apply floor_log2_unique; [nia|lia|lia|].
      rewrite Hcents. replace (52 + e + 1) with (53 + e) by lia.
      rewrite !Z.pow_add_r by lia. nia. }
    unfold of_ratio. rewrite Hfl.
    replace (to_cents m e <=? 0) with false by (symmetry; apply Z.leb_gt; nia).
    replace (Z.max (52 + e - 52) (-1074)) with e by lia.
    replace (0 <=? e) with true by (symmetry; apply Z.leb_le; lia).
    rewrite Hcents.
    replace (100 * (Zpos m * 2 ^ e)) with (Zpos m * (100 * 2 ^ e)) by lia.
    rewrite Z.div_mul, Z.mod_mul by lia.
    replace (2 * 0 ?= 100 * 2 ^ e) with Lt by (symmetry; apply Z.compare_lt_iff; lia).
    replace (Zpos m =? 2 ^ 53) with false by (symmetry; apply Z.eqb_neq; lia).
    by replace (971 <? e) with false by (symmetry; apply Z.ltb_ge; lia).
  - assert (Hfl : floor_log2 (to_cents m e) 100 = 52 + e).
    { apply floor_log2_unique.
      - repeat destruct Hneg as [->|Hneg]; try subst e; unfold to_cents;
          pows;
          match goal with |- 0 < ?a / ?b => assert (1 <= a / b); [|lia] end;
          apply Z.div_le_lower_bound; lia.
      - lia.
      - lia.
      - repeat destruct Hneg as [->|Hneg]; try subst e; unfold to_cents;
          pows;
          (split; [apply Z.div_le_lower_bound|apply Z.div_lt_upper_bound]);
          lia. }
    assert (Hcents : 0 < to_cents m e
              /\ -50 < to_cents m e * 2 ^ (- e) - 100 * Zpos m < 50).
    { repeat destruct Hneg as [->|Hneg]; try subst e; unfold to_cents;
        pows;
        match goal with |- 0 < ?a / ?b /\ _ =>
          pose proof (Z.div_mod a b ltac:(lia)) as Hdm;
          pose proof (Z.mod_pos_bound a b ltac:(lia)) as Hmb; lia
        end. }
    destruct Hcents as [Hn Hd].
    unfold of_ratio. rewrite Hfl.
    replace (to_cents m e <=? 0) with false by (symmetry; apply Z.leb_gt; lia).
    replace (Z.max (52 + e - 52) (-1074)) with e by lia.
    replace (0 <=? e) with false by (symmetry; apply Z.leb_gt; lia).
    rewrite (nearest_exact (to_cents m e * 2 ^ (- e)) (Zpos m)) by lia.
    replace (Zpos m =? 2 ^ 53) with false by (symmetry; apply Z.eqb_neq; lia).
    by replace (971 <? e) with false by (symmetry; apply Z.ltb_ge; lia).
Qed.

(** [Number(x.toFixed(2))] of a Number that is not negative is a fixed
    point: rounding it again changes nothing. *)
Lemma round2_idempotent (x : number) :
  lt x zero = false -> round2 (round2 x) = round2 x.
Proof.
  destruct x as [s|s| |s m e]; try reflexivity.
  destruct s; [discriminate|]. intros _.
  unfold round2 at 2 3. destruct (ge_1e21 m e) eqn:Hbig.
  - unfold round2. by rewrite Hbig.
  - pose proof (of_ratio_sign false (to_cents m e) 100) as Hsign.
    destruct (of_ratio false (to_cents m e) 100) as [s'|s'| |s' m' e'] eqn:Hy;
      try reflexivity.
    + by subst s'.
    + subst s'. unfold round2. destruct (ge_1e21 m' e'); [done|].
      destruct (Z_le_gt_dec e' (-7)) as [Hsmall|Hlarge].
      * by rewrite (to_cents_of_ratio _ _ _ _ _ Hy Hsmall).
      * pose proof (of_ratio_normal _ _ _ _ _ _ Hy ltac:(lia)) as Hm.
        apply of_ratio_finite in Hy as (_ & _ & He & _).
        apply of_ratio_to_cents; [done|lia].
Qed.

(** *** The Numbers the rounding gives are those of the format *)

Lemma digits2_log2 (m : positive) :
  Zpos (digits2_pos m) = Z.log2 (Zpos m) + 1.
Proof.
  induction m as [m IH|m IH|]; [| |done].
  - cbn [digits2_pos]. rewrite Pos2Z.inj_succ, IH.
    change (Zpos m~1) with (2 * Zpos m + 1).
    rewrite Z.log2_succ_double by lia. lia.
  - cbn [digits2_pos]. rewrite Pos2Z.inj_succ, IH.
    change (Zpos m~0) with (2 * Zpos m).
    rewrite Z.log2_double by lia. lia.
Qed.

Lemma floor_log2_spec_neg (a b : Z) :
  0 < a -> 0 < b -> floor_log2 a b < 0 ->
  b <= a * 2 ^ (- floor_log2 a b) < 2 * b.
Proof.
  intros Ha Hb. unfold floor_log2.
  pose proof (Z.log2_spec a Ha) as [Ha1 Ha2].
  pose proof (Z.log2_spec b Hb) as [Hb1 Hb2].
  pose proof (Z.log2_nonneg a) as Hla. pose proof (Z.log2_nonneg b) as Hlb.
  rewrite Z.pow_succ_r in Ha2, Hb2 by lia.
  set (d := Z.log2 a - Z.log2 b) in *.
  destruct (0 <=? d) eqn:Hd.
  - apply Z.leb_le in Hd.
    destruct (b * 2 ^ d <=? a) eqn:Htest; [lia|].
    apply Z.leb_gt in Htest. intros Hd1.
    assert (d = 0) as Hd0 by lia. rewrite Hd0 in *.
    replace (Z.log2 a) with (Z.log2 b) in * by lia.
    change (- (0 - 1)) with 1. change (2 ^ 1) with 2.
    change (2 ^ 0) with 1 in Htest. lia.
  - apply Z.leb_gt in Hd.
    assert (Hp : 0 < 2 ^ (- d)) by (apply Z.pow_pos_nonneg; lia).
    assert (Hlog : 2 ^ Z.log2 a * 2 ^ (- d) = 2 ^ Z.log2 b)
      by (rewrite <- Z.pow_add_r by lia; f_equal; lia).
    destruct (b <=? a * 2 ^ (- d)) eqn:Htest.
    + apply Z.leb_le in Htest. intros _. split; [done|]. nia.
    + apply Z.leb_gt in Htest. intros _.
      replace (- (d - 1)) with (- d + 1) by lia.
      rewrite Z.pow_add_r by lia. change (2 ^ 1) with 2. split; nia.
Qed.

(** The significand of the nearest Number has 53 bits, or fewer with the
    least exponent. *)
Lemma of_ratio_bits (neg : bool) (a : Z) (b : positive)
    (s : bool) (m : positive) (e : Z) :
  of_ratio neg a b = S754_finite s m e ->
  -1074 <= e <= 971
  /\ (2 ^ 52 <= Zpos m < 2 ^ 53 \/ (Zpos m < 2 ^ 52 /\ e = -1074)).
Proof.
  intros Hfin.
  apply of_ratio_finite in Hfin
    as (Ha & _ & Hmax & e0 & m0 & He0 & _ & Hm0 & Hadj).
  assert (Hb : 0 < Zpos b) by lia.
  set (fl := floor_log2 a (Zpos b)) in *.
  assert (Hq : (e0 = fl - 52
                /\ 2 ^ 52 <= (if 0 <=? e0 then a else a * 2 ^ (- e0))
                     / (if 0 <=? e0 then Zpos b * 2 ^ e0 else Zpos b) < 2 ^ 53)
               \/ (e0 = -1074
                   /\ (if 0 <=? e0 then a else a * 2 ^ (- e0))
                        / (if 0 <=? e0 then Zpos b * 2 ^ e0 else Zpos b)
                      < 2 ^ 52)).
  { destruct (Z_le_gt_dec (-1074) (fl - 52)) as [Hnormal|Hsub].
    - left. split; [lia|].
      destruct (Z_le_gt_dec 0 fl) as [Hfl|Hfl].
      + pose proof (floor_log2_spec a (Zpos b) Ha Hb Hfl) as [Hlo Hhi].
        fold fl in Hlo, Hhi.
        replace fl with (e0 + 52) in Hlo, Hhi by lia.
        destruct (0 <=? e0) eqn:Hsign.
        * apply Z.leb_le in Hsign.
          assert (0 < 2 ^ e0) by (apply Z.pow_pos_nonneg; lia).
          rewrite Z.pow_add_r in Hlo by lia.
          replace (e0 + 52 + 1) with (e0 + 53) in Hhi by lia.
          rewrite Z.pow_add_r in Hhi by lia.
          split.
          -- apply Z.div_le_lower_bound; lia.
          -- apply Z.div_lt_upper_bound; lia.
        * apply Z.leb_gt in Hsign.
          assert (Hp : 0 < 2 ^ (- e0)) by (apply Z.pow_pos_nonneg; lia).
          assert (H52 : 2 ^ (e0 + 52) * 2 ^ (- e0) = 2 ^ 52)
            by (rewrite <- Z.pow_add_r by lia; f_equal; lia).
          assert (H53 : 2 ^ (e0 + 52 + 1) * 2 ^ (- e0) = 2 ^ 53)
            by (rewrite <- Z.pow_add_r by lia; f_equal; lia).
          split.
          -- apply Z.div_le_lower_bound; [lia|]. nia.
          -- apply Z.div_lt_upper_bound; [lia|]. nia.
      + pose proof (floor_log2_spec_neg a (Zpos b) Ha Hb ltac:(lia)) as [Hlo Hhi].
        fold fl in Hlo, Hhi.
        replace (0 <=? e0) with false by (symmetry; apply Z.leb_gt; lia).
        replace (- e0) with (- fl + 52) by lia.
        rewrite Z.pow_add_r by lia.
        split.
        * apply Z.div_le_lower_bound; [lia|]. nia.
        * apply Z.div_lt_upper_bound; [lia|].
          change (2 ^ 53) with (2 * 2 ^ 52). nia.
    - right. split; [lia|].
      pose proof (floor_log2_spec_neg a (Zpos b) Ha Hb ltac:(lia)) as [Hlo Hhi].
      fold fl in Hlo, Hhi.
      replace (0 <=? e0) with false by (symmetry; apply Z.leb_gt; lia).
      replace (- e0) with 1074 by lia.
      apply Z.div_lt_upper_bound; [lia|].
      destruct (Z_le_gt_dec 0 (1074 + fl)) as [Hup|Hdown].
      + assert (Hsplit : 2 ^ 1074 = 2 ^ (- fl) * 2 ^ (1074 + fl))
          by (rewrite <- Z.pow_add_r by lia; f_equal; lia).
        assert (Hle : 2 ^ (1074 + fl) <= 2 ^ 51)
          by (apply Z.pow_le_mono_r; lia).
        assert (0 < 2 ^ (1074 + fl)) by (apply Z.pow_pos_nonneg; lia).
        rewrite Hsplit. change (2 ^ 52) with (2 * 2 ^ 51). nia.
      + assert (Hsplit : 2 ^ (- fl) = 2 ^ 1074 * 2 ^ (- fl - 1074))
          by (rewrite <- Z.pow_add_r by lia; f_equal; lia).
        assert (0 < 2 ^ (- fl - 1074)) by (apply Z.pow_pos_nonneg; lia).
        assert (0 < 2 ^ 1074) by (apply Z.pow_pos_nonneg; lia).
        assert (2 ^ 1 <= 2 ^ 52) by (apply Z.pow_le_mono_r; lia).
        assert (a * 2 ^ 1074 <= a * 2 ^ (- fl)) by (rewrite Hsplit; nia).
        nia. }
  destruct Hq as [[He Hq]|[He Hq]];
    destruct Hadj as [(Hm & Hp & He1)|(Hne & Hp & He1)].
  - split; [lia|]. left. lia.
  - split; [lia|]. left. lia.
  - lia.
  - split; [lia|]. destruct (Z_lt_ge_dec (Zpos m) (2 ^ 52)); [right|left]; lia.
Qed.

Lemma of_ratio_valid (neg : bool) (a : Z) (b : positive) :
  valid (of_ratio neg a b) = true.
Proof.
  destruct (of_ratio neg a b) as [s|s| |s m e] eqn:Hy; try reflexivity.
  apply of_ratio_bits in Hy as (He & Hm).
  unfold valid, valid_binary, bounded, canonical_mantissa, fexp, emin, prec, emax.
  rewrite digits2_log2.
  apply andb_true_intro. split; [|apply Z.leb_le; lia].
  apply Z.eqb_eq. destruct Hm as [Hm|[Hm ->]].
  - rewrite (Z.log2_unique' (Zpos m) 52 (Zpos m - 2 ^ 52)) by lia. lia.
  - assert (Z.log2 (Zpos m) < 52) by (apply Z.log2_lt_pow2; lia). lia.
Qed.

(** Rounding to two decimals keeps to the Numbers of the format. *)
Lemma round2_valid (x : number) : valid x = true -> valid (round2 x) = true.
Proof.
  destruct x as [s|s| |s m e]; try reflexivity. intros Hx.
  unfold round2. destruct (ge_1e21 m e); [done|]. apply of_ratio_valid.
Qed.

End RoundingProps.

(** ** Prices and products that stay as they are *)
Section StableProps.
Context `{Host}.
Import Num Str Val Date Conv Inv.

(** X17. A price that the setter stored is kept by the setter: after
    [p.price = v] has returned, [p.price = p.price] returns and changes
    nothing, as rounding a rounded price to two decimals gives the same
    Number. *)
Theorem set_price_stable (val : value) (this this' : product) :
  Product.set_price val this = (Ok tt, this') ->
  Product.set_price (VNum (p_price this')) this' = (Ok tt, this')
  /\ round2 (p_price this') = p_price this'.
Proof.
  unfold Product.set_price.
  destruct (Product.checked_price val) as [x|e] eqn:Hx; [|done].
  intros [= <-].
  apply checked_price_ok in Hx as (num & _ & Hge & ->).
  assert (Hround : round2 (round2 num) = round2 num).
  { apply round2_idempotent. by apply ge_zero_iff in Hge as [_ ?]. }
  split; [|done]. cbn [p_price Product.with_price]. unfold VNum.
  rewrite (checked_price_rounded (round2 num)) by (by apply round2_nonneg || done).
  by destruct this.
Qed.

(** X18. Every Product that the constructor builds with a Date that is
    valid goes through JSON unchanged: it is well formed, [toJSON] gives
    its record, and [fromJSON] of that record is a Product with the same
    id, name, price, owner and time, whatever [Math.random()] and the
    clock are by then. *)
Theorem constructed_round_trips (f : fields) (random : number) (now : date)
    (p : product) (t : Z) :
  Product.construct f random now = Ok p ->
  p_createdAt p = Some t -> in_range t ->
  Product.well_formed p
  /\ exists j, Product.toJSON p = Ok j
               /\ forall random' now', Product.fromJSON j random' now' = Ok p.
Proof.
  intros Hp Ht Hrange.
  assert (Hwf : Product.well_formed p).
  { unfold Product.construct in Hp.
    destruct (Product.checked_name (f_name f)) as [n|] eqn:Hn; [|done].
    destruct (Product.checked_price (f_price f)) as [x|] eqn:Hx; [|done].
    injection Hp as <-. simpl in *.
    apply checked_name_ok in Hn as (s & _ & -> & Hlen).
    apply checked_price_ok in Hx as (num & _ & Hge & ->).
    unfold Product.well_formed. simpl.
    split; [apply trim_idem|]. split; [done|].
    split; [by apply round2_nonneg|].
    split; [apply round2_idempotent; by apply ge_zero_iff in Hge as [_ ?]|].
    split; [by destruct (f_owner f) as [[]| | |]|].
    by exists t. }
  split; [exact Hwf|].
  destruct Hwf as (Htrim & Hlen & Hge & Hround & Howner & _).
  destruct p as [id name price owner created]; simpl in *. subst created.
  assert (Hparse : date_of_string (print_iso t) = Some t)
    by (unfold date_of_string; by rewrite parse_print_iso).
  eexists. split; [reflexivity|]. intros random' now'.
  unfold Product.fromJSON, Product.construct.
  cbn [f_id f_name f_price f_owner f_createdAt j_id j_name j_price j_owner
       j_createdAt Product.createdAt_of_json].
  cbn [p_id p_name p_price p_owner p_createdAt]. unfold VStr, VNum.
  rewrite (checked_name_trimmed name), (checked_price_rounded price) by done.
  rewrite Howner.
  pose proof (print_iso_not_empty t) as Hne.
  destruct (print_iso t) as [|c rest] eqn:Hiso; [done|]. simpl.
  by rewrite Hparse.
Qed.

(** X19. A discount of 0 per cent changes nothing: for a Product whose
    price the setter stored from a Number of the format,
    [applyDiscount(0)] returns the price and leaves the Product as it
    is. *)
Theorem applyDiscount_zero (val : value) (num : number) (this this' : product) :
  Number_of val = Ok num -> valid num = true ->
  Product.set_price val this = (Ok tt, this') ->
  Product.applyDiscount (VNum zero) this' = (Ok (p_price this'), this').
Proof.
  intros Hnum Hvalid. unfold Product.set_price, Product.checked_price.
  rewrite Hnum. destruct (isNaN num || lt num zero) eqn:Hbad; [done|].
  intros [= <-]. apply orb_false_elim in Hbad as [_ Hlt].
  cbn [p_price Product.with_price].
  unfold Product.applyDiscount.
  change (Number_of (VNum zero)) with (Ok zero). cbv beta iota.
  change (isNaN zero || lt zero zero || gt zero (Num.of_Z 100)) with false.
  change (sub (Num.of_Z 1) (div zero (Num.of_Z 100))) with one.
  cbv beta iota zeta. cbn [p_price Product.with_price].
  rewrite (mul_one _ (round2_valid _ Hvalid)), (round2_idempotent _ Hlt).
  reflexivity.
Qed.

End StableProps.

Section StableExamples.
Import Num Str Val Date Conv SampleHost Demo.

(** The Phone Case is priced with a text and then with its own price. *)
Lemma set_price_stable_witness :
  let p := Product.with_price (of_decimal false 1235 (-2)) phone_case in
  Product.set_price (VStr (js "12.345")) phone_case = (Ok tt, p)
  /\ Product.set_price (VNum (p_price p)) p = (Ok tt, p).
Proof.
  intros p.
  assert (Hset : Product.set_price (VStr (js "12.345")) phone_case = (Ok tt, p))
    by (vm_compute; reflexivity).
  split; [exact Hset|].
  exact (proj1 (set_price_stable (VStr (js "12.345")) phone_case p Hset)).
Defined.

(** The Phone Case, constructed from a name with spaces around it and a
    price given as a text, goes through JSON. *)
Lemma constructed_round_trips_witness :
  Product.construct {| f_id := None; f_name := VStr (js " Phone Case ");
                       f_price := VStr (js "10"); f_owner := VStr (js "Mona");
                       f_createdAt := None |} half noon = Ok phone_case
  /\ p_createdAt phone_case = Some 1700000000123
  /\ in_range 1700000000123
  /\ exists j, Product.toJSON phone_case = Ok j
               /\ Product.fromJSON j quarter None = Ok phone_case.
Proof.
  assert (Hp : Product.construct
                 {| f_id := None; f_name := VStr (js " Phone Case ");
                    f_price := VStr (js "10"); f_owner := VStr (js "Mona");
                    f_createdAt := None |} half noon = Ok phone_case)
    by (vm_compute; reflexivity).
  assert (Hrange : in_range 1700000000123)
    by (unfold in_range, max_time; lia).
  split; [exact Hp|]. split; [reflexivity|]. split; [exact Hrange|].
  destruct (constructed_round_trips _ half noon phone_case 1700000000123
              Hp eq_refl Hrange) as (_ & j & Hj & Hback).
  exists j. split; [exact Hj|exact (Hback quarter None)].
Defined.

(** The Phone Case, priced with a text, is discounted by 0 per cent. *)
Lemma applyDiscount_zero_witness :
  let p := Product.with_price (of_decimal false 1235 (-2)) phone_case in
  Number_of (VStr (js "12.345")) = Ok (of_decimal false 12345 (-3))
  /\ valid (of_decimal false 12345 (-3)) = true
  /\ Product.set_price (VStr (js "12.345")) phone_case = (Ok tt, p)
  /\ Product.applyDiscount (VNum zero) p = (Ok (of_decimal false 1235 (-2)), p).
Proof.
  intros p.
  assert (Hnum : Number_of (VStr (js "12.345")) = Ok (of_decimal false 12345 (-3)))
    by (vm_compute; reflexivity).
  assert (Hvalid : valid (of_decimal false 12345 (-3)) = true)
    by (vm_compute; reflexivity).
  assert (Hset : Product.set_price (VStr (js "12.345")) phone_case = (Ok tt, p))
    by (vm_compute; reflexivity).
  split; [exact Hnum|]. split; [exact Hvalid|]. split; [exact Hset|].
  exact (applyDiscount_zero (VStr (js "12.345")) _ phone_case p Hnum Hvalid Hset).
Defined.

End StableExamples.
